(** * nih-sftp-server: a shallow embedding of the SFTP v3 server

    The development follows [src/nih-sftp-server.c] function by function.
    Integers are [Z] with the C conversions written out, the two packet
    buffers are byte lists with a cursor and a remaining count, the global
    variables of the program are the fields of one [state] record, and the
    host operating system is an interface ([Host]) whose calls thread a
    [World] through a small state-and-error monad. *)

From Stdlib Require Import ZArith List Lia Bool String Ascii.
Import ListNotations.
Local Open Scope Z_scope.

(** ** Protocol constants (draft-ietf-secsh-filexfer-02) *)

Definition SSH_FXP_INIT : Z := 1.
Definition SSH_FXP_VERSION : Z := 2.
Definition SSH_FXP_OPEN : Z := 3.
Definition SSH_FXP_CLOSE : Z := 4.
Definition SSH_FXP_READ : Z := 5.
Definition SSH_FXP_WRITE : Z := 6.
Definition SSH_FXP_LSTAT : Z := 7.
Definition SSH_FXP_FSTAT : Z := 8.
Definition SSH_FXP_SETSTAT : Z := 9.
Definition SSH_FXP_FSETSTAT : Z := 10.
Definition SSH_FXP_OPENDIR : Z := 11.
Definition SSH_FXP_READDIR : Z := 12.
Definition SSH_FXP_REMOVE : Z := 13.
Definition SSH_FXP_MKDIR : Z := 14.
Definition SSH_FXP_RMDIR : Z := 15.
Definition SSH_FXP_REALPATH : Z := 16.
Definition SSH_FXP_STAT : Z := 17.
Definition SSH_FXP_RENAME : Z := 18.
Definition SSH_FXP_READLINK : Z := 19.
Definition SSH_FXP_SYMLINK : Z := 20.
Definition SSH_FXP_STATUS : Z := 101.
Definition SSH_FXP_HANDLE : Z := 102.
Definition SSH_FXP_DATA : Z := 103.
Definition SSH_FXP_NAME : Z := 104.
Definition SSH_FXP_ATTRS : Z := 105.

Definition SSH_FX_OK : Z := 0.
Definition SSH_FX_EOF : Z := 1.
Definition SSH_FX_NO_SUCH_FILE : Z := 2.
Definition SSH_FX_PERMISSION_DENIED : Z := 3.
Definition SSH_FX_FAILURE : Z := 4.
Definition SSH_FX_BAD_MESSAGE : Z := 5.
Definition SSH_FX_NO_CONNECTION : Z := 6.
Definition SSH_FX_CONNECTION_LOST : Z := 7.
Definition SSH_FX_OP_UNSUPPORTED : Z := 8.

Definition SSH_FILEXFER_ATTR_SIZE : Z := 0x00000001.
Definition SSH_FILEXFER_ATTR_UIDGID : Z := 0x00000002.
Definition SSH_FILEXFER_ATTR_PERMISSIONS : Z := 0x00000004.
Definition SSH_FILEXFER_ATTR_ACMODTIME : Z := 0x00000008.
Definition SSH_FILEXFER_ATTR_EXTENDED : Z := 0x80000000.

Definition SSH_FXF_READ : Z := 0x00000001.
Definition SSH_FXF_WRITE : Z := 0x00000002.
Definition SSH_FXF_APPEND : Z := 0x00000004.
Definition SSH_FXF_CREAT : Z := 0x00000008.
Definition SSH_FXF_TRUNC : Z := 0x00000010.
Definition SSH_FXF_EXCL : Z := 0x00000020.

Definition MAX_ATTRS_BYTES : Z := 32.
Definition SFTP_PROTOCOL_VERSION : Z := 3.
(** Octal 0666, 0777 and 0777. *)
Definition DEFAULT_FILE_PERM : Z := 438.
Definition DEFAULT_DIR_PERM : Z := 511.
Definition MAX_PACKET : Z := 34000.
Definition PERM_MASK : Z := 511.
Definition MAX_HANDLES : Z := 99.
Definition MAX_HANDLE_DIGITS : Z := 2.

Definition EXIT_SUCCESS : Z := 0.
Definition EXIT_FAILURE : Z := 1.

(** ** C integer conversions *)

Definition uint8 (x : Z) : Z := x mod 2 ^ 8.
Definition uint32 (x : Z) : Z := x mod 2 ^ 32.
Definition uint64 (x : Z) : Z := x mod 2 ^ 64.

(** Conversion of a 64-bit unsigned value to [off_t] (two's complement). *)
Definition to_off_t (x : Z) : Z :=
  let u := uint64 x in if u <? 2 ^ 63 then u else u - 2 ^ 64.

(** [unsigned long] is 64 bits wide (LP64). *)
Definition ULONG_MAX : Z := 2 ^ 64 - 1.

(** [x & m] used as a C truth value. *)
Definition flag_set (x m : Z) : bool := negb (Z.land x m =? 0).

(** ** Bytes and C strings *)

Definition bytes_of_string (s : string) : list Z :=
  map (fun c => Z.of_N (N_of_ascii c)) (list_ascii_of_string s).

(** The C string that starts at the head of [l]: the bytes before the
    first NUL. *)
Fixpoint c_str (l : list Z) : list Z :=
  match l with
  | [] => []
  | b :: t => if b =? 0 then [] else b :: c_str t
  end.

Definition zlen {A} (l : list A) : Z := Z.of_nat (List.length l).

(** [n] bytes of [l] from offset [pos]. *)
Definition load_bytes (pos n : Z) (l : list Z) : list Z :=
  firstn (Z.to_nat n) (skipn (Z.to_nat pos) l).

(** [l] with [bs] copied in at offset [pos] (memcpy into the array). *)
Definition store_bytes (pos : Z) (bs l : list Z) : list Z :=
  firstn (Z.to_nat pos) l ++ bs ++ skipn (Z.to_nat pos + List.length bs) l.

Definition load_byte (pos : Z) (l : list Z) : Z := nth (Z.to_nat pos) l 0.

(** ** [strtoul] in base 10

    The C library function, on the NUL-terminated memory it is given:
    white space is skipped, one sign is accepted, then the digits are
    read.  The result is the value as an [unsigned long] and the index the
    end pointer is left at (0, the start, when no digit was read). *)

Definition isspace (c : Z) : bool := (c =? 32) || ((9 <=? c) && (c <=? 13)).
Definition isdigit (c : Z) : bool := (48 <=? c) && (c <=? 57).

Fixpoint skip_spaces (s : list Z) : nat :=
  match s with
  | c :: t => if isspace c then S (skip_spaces t) else O
  | [] => O
  end.

Fixpoint strtoul_digits (s : list Z) (acc : Z) (n : nat) : Z * nat :=
  match s with
  | c :: t =>
      if isdigit c then strtoul_digits t (acc * 10 + (c - 48)) (S n)
      else (acc, n)
  | [] => (acc, n)
  end.

Definition strtoul (s : list Z) : Z * nat :=
  let i := skip_spaces s in
  let s1 := skipn i s in
  let '(neg, j) :=
    match s1 with
    | c :: _ =>
        if c =? 45 then (true, 1%nat)
        else if c =? 43 then (false, 1%nat) else (false, O)
    | [] => (false, O)
    end in
  let '(v, k) := strtoul_digits (skipn j s1) 0 O in
  match k with
  | O => (0, O)
  | _ =>
      let v := Z.min v ULONG_MAX in
      (if neg then uint64 (- v) else v, (i + j + k)%nat)
  end.

(** [l] with element [n] replaced. *)
Fixpoint update_nth {A} (n : nat) (x : A) (l : list A) : list A :=
  match l, n with
  | [], _ => []
  | _ :: t, O => x :: t
  | a :: t, S n' => a :: update_nth n' x t
  end.

(** ** Data model *)

(** [buff_t]: [p_data] is kept as the offset of the pointer into [data]. *)
Record buff_t := mk_buff {
  count : Z;
  p_data : Z;
  data : list Z
}.

Record buff_save_t := mk_save {
  save_count : Z;
  save_p_data : Z
}.

Record attrs_t := mk_attrs {
  flags : Z;
  permissions : Z;
  size : Z;
  uid : Z;
  gid : Z;
  atime : Z;
  mtime : Z
}.

Definition attrs_zero : attrs_t := mk_attrs 0 0 0 0 0 0 0.

Inductive handle_use_t := HANDLE_FREE | HANDLE_FILE | HANDLE_DIR.

Definition handle_use_eqb (a b : handle_use_t) : bool :=
  match a, b with
  | HANDLE_FREE, HANDLE_FREE | HANDLE_FILE, HANDLE_FILE
  | HANDLE_DIR, HANDLE_DIR => true
  | _, _ => false
  end.

(** [fd] is an [int]; [p_dir] is the [DIR*], with 0 for the null pointer. *)
Record fxp_handle_t := mk_handle {
  use : handle_use_t;
  fd : Z;
  p_dir : Z
}.

Definition handle_zero : fxp_handle_t := mk_handle HANDLE_FREE 0 0.

(** [struct stat], the fields the server reads. *)
Record stat_t := mk_stat {
  st_size : Z;
  st_uid : Z;
  st_gid : Z;
  st_mode : Z;
  st_atime : Z;
  st_mtime : Z
}.

Definition stat_zero : stat_t := mk_stat 0 0 0 0 0 0.

(** ** The host interface *)

(** Values of <errno.h> and <fcntl.h>, which the source takes from the
    host's headers. *)
Class Platform := {
  ENOENT : Z; ENOTDIR : Z; EBADF : Z; ELOOP : Z;
  EPERM : Z; EACCES : Z; EFAULT : Z;
  ENAMETOOLONG : Z; EINVAL : Z;
  O_RDONLY : Z; O_WRONLY : Z; O_RDWR : Z;
  O_CREAT : Z; O_TRUNC : Z; O_EXCL : Z
}.

(** The library and system calls the server makes, with their arguments.
    Paths and names are C strings (without the terminator). *)
Inductive syscall :=
| SYS_select_stdin
| SYS_select_stdout
| SYS_read_stdin (len : Z)
| SYS_write_stdout (bytes : list Z)
| SYS_open (path : list Z) (oflags mode : Z)
| SYS_open_dir (path : list Z) (oflags : Z)
| SYS_close (fd : Z)
| SYS_closedir (dir : Z)
| SYS_lseek (fd offset : Z)
| SYS_read (fd len : Z)
| SYS_write (fd : Z) (bytes : list Z)
| SYS_stat (path : list Z)
| SYS_lstat (path : list Z)
| SYS_fstat (fd : Z)
| SYS_fstatat (fd : Z) (name : list Z)
| SYS_chmod (path : list Z) (mode : Z)
| SYS_utimes (path : list Z) (atime mtime : Z)
| SYS_chown (path : list Z) (uid gid : Z)
| SYS_fchmod (fd mode : Z)
| SYS_futimes (fd atime mtime : Z)
| SYS_fchown (fd uid gid : Z)
| SYS_fdopendir (fd : Z)
| SYS_telldir (dir : Z)
| SYS_readdir (dir : Z)
| SYS_seekdir (dir pos : Z)
| SYS_remove (path : list Z)
| SYS_mkdir (path : list Z) (mode : Z)
| SYS_rmdir (path : list Z)
| SYS_realpath (path : list Z)
| SYS_rename (old new : list Z)
| SYS_readlink (path : list Z) (space : Z)
| SYS_symlink (target link : list Z).

(** What a call gives back: the C return value ([ret_val]; for calls that
    return a pointer, 0 is the null pointer), the bytes it stored through a
    buffer or string result ([ret_bytes]) and the [struct stat] it filled
    ([ret_stat]). *)
Record sysret := mk_sysret {
  ret_val : Z;
  ret_bytes : list Z;
  ret_stat : stat_t
}.

Class Host := {
  World : Type;
  sys : syscall -> World -> sysret * World;
  errno : World -> Z
}.

(** ** Program state and the monad of the handlers *)

Section Server.

Context {P : Platform} {H : Host}.

(** The private data of the program ([ibuff], [obuff], [have_init],
    [handles]) together with the state of the host. *)
Record state := mk_state {
  ibuff : buff_t;
  obuff : buff_t;
  have_init : bool;
  handles : list fxp_handle_t;
  world : World
}.

(** A computation returns, fails an [assert] ([Abort]), calls [exit]
    ([Exit], with the state the process ends in), or is still inside a
    loop when the fuel given to it is used up ([OutOfFuel]). *)
Inductive result (A : Type) :=
| Ret (a : A) (s : state)
| Abort
| Exit (code : Z) (s : state)
| OutOfFuel.

Arguments Ret {A} a s.
Arguments Abort {A}.
Arguments Exit {A} code s.
Arguments OutOfFuel {A}.

Definition M (A : Type) : Type := state -> result A.

Definition ret {A} (a : A) : M A := fun s => Ret a s.

Definition bind {A B} (m : M A) (f : A -> M B) : M B :=
  fun s =>
    match m s with
    | Ret a s' => f a s'
    | Abort => Abort
    | Exit c s' => Exit c s'
    | OutOfFuel => OutOfFuel
    end.

Notation "x <- m ;; k" := (bind m (fun x => k))
  (at level 61, m at next level, right associativity).
Notation "' pat <- m ;; k" := (bind m (fun x => match x with pat => k end))
  (at level 61, pat pattern, m at next level, right associativity).
Notation "m ;; k" := (bind m (fun _ => k))
  (at level 61, right associativity).

Definition assert (b : bool) : M unit :=
  fun s => if b then Ret tt s else Abort.

Definition exit {A} (code : Z) : M A := fun s => Exit code s.

Definition get_ibuff : M buff_t := fun s => Ret (ibuff s) s.
Definition get_obuff : M buff_t := fun s => Ret (obuff s) s.
Definition get_handles : M (list fxp_handle_t) := fun s => Ret (handles s) s.
Definition get_have_init : M bool := fun s => Ret (have_init s) s.
Definition get_errno : M Z := fun s => Ret (errno (world s)) s.

Definition set_ibuff (b : buff_t) : M unit :=
  fun s => Ret tt (mk_state b (obuff s) (have_init s) (handles s) (world s)).
Definition set_obuff (b : buff_t) : M unit :=
  fun s => Ret tt (mk_state (ibuff s) b (have_init s) (handles s) (world s)).
Definition set_have_init (b : bool) : M unit :=
  fun s => Ret tt (mk_state (ibuff s) (obuff s) b (handles s) (world s)).
Definition set_handles (hs : list fxp_handle_t) : M unit :=
  fun s => Ret tt (mk_state (ibuff s) (obuff s) (have_init s) hs (world s)).

(** A call into the host. *)
Definition call (c : syscall) : M sysret :=
  fun s =>
    let (r, w) := sys c (world s) in
    Ret r (mk_state (ibuff s) (obuff s) (have_init s) (handles s) w).

(** ** Buffer pointer save and swap *)

Definition buff_save : M buff_save_t :=
  ob <- get_obuff ;;
  ret (mk_save (count ob) (p_data ob)).

(** [buff_swap] exchanges the live cursor with the saved one; the new
    content of the caller's [buff_save_t] is returned. *)
Definition buff_swap (p_buff : buff_save_t) : M buff_save_t :=
  ob <- get_obuff ;;
  let temp := count ob in
  let p_temp := p_data ob in
  set_obuff (mk_buff (save_count p_buff) (save_p_data p_buff) (data ob)) ;;
  ret (mk_save temp p_temp).

(** ** Wire codec *)

Definition get_byte : M Z :=
  ib <- get_ibuff ;;
  assert (count ib >? 0) ;;
  let d := load_byte (p_data ib) (data ib) in
  set_ibuff (mk_buff (count ib - 1) (p_data ib + 1) (data ib)) ;;
  ret d.

Definition put_byte (d : Z) : M unit :=
  ob <- get_obuff ;;
  assert (count ob >? 0) ;;
  set_obuff (mk_buff (count ob - 1) (p_data ob + 1)
               (store_bytes (p_data ob) [uint8 d] (data ob))).

Definition get_uint32 : M Z :=
  ib <- get_ibuff ;;
  assert (count ib >=? 4) ;;
  let p := p_data ib in
  let d :=
    Z.lor (Z.lor (Z.lor (Z.shiftl (load_byte p (data ib)) 24)
                        (Z.shiftl (load_byte (p + 1) (data ib)) 16))
                 (Z.shiftl (load_byte (p + 2) (data ib)) 8))
          (load_byte (p + 3) (data ib)) in
  set_ibuff (mk_buff (count ib - 4) (p_data ib + 4) (data ib)) ;;
  ret d.

Definition get_uint64 : M Z :=
  d <- get_uint32 ;;
  lo <- get_uint32 ;;
  ret (Z.lor (uint64 (Z.shiftl d 32)) lo).

(** The four bytes of a [uint32_t] in network byte order. *)
Definition be32 (d : Z) : list Z :=
  [uint8 (Z.shiftr d 24); uint8 (Z.shiftr d 16); uint8 (Z.shiftr d 8);
   uint8 d].

Definition put_uint32 (d : Z) : M unit :=
  let d := uint32 d in
  ob <- get_obuff ;;
  assert (count ob >=? 4) ;;
  set_obuff (mk_buff (count ob - 4) (p_data ob + 4)
               (store_bytes (p_data ob) (be32 d) (data ob))).

Definition put_uint64 (d : Z) : M unit :=
  put_uint32 (uint32 (Z.shiftr d 32)) ;;
  put_uint32 (uint32 d).

(** [get_string] gives the bytes of the string and its length.  The
    pointer the C function returns addresses these bytes followed by the
    NUL it stores: the string is moved four bytes down, over its own
    length field. *)
Definition get_string : M (list Z * Z) :=
  ib0 <- get_ibuff ;;
  let p_sz := p_data ib0 in
  len_bytes <- get_uint32 ;;
  ib <- get_ibuff ;;
  assert (len_bytes <=? count ib) ;;
  let str := load_bytes (p_data ib) len_bytes (data ib) in
  set_ibuff (mk_buff (count ib - len_bytes) (p_data ib + len_bytes)
               (store_bytes p_sz (str ++ [0]) (data ib))) ;;
  ret (str, len_bytes).

Definition get_data : M (list Z * Z) :=
  len_bytes <- get_uint32 ;;
  ib <- get_ibuff ;;
  assert (len_bytes <=? count ib) ;;
  let p := load_bytes (p_data ib) len_bytes (data ib) in
  set_ibuff (mk_buff (count ib - len_bytes) (p_data ib + len_bytes) (data ib)) ;;
  ret (p, len_bytes).

(** [put_cstring] is given the memory at [sz_str]; [strlen] stops at the
    first NUL. *)
Definition put_cstring (sz_str : list Z) : M unit :=
  let str := c_str sz_str in
  let len := zlen str in
  put_uint32 len ;;
  ob <- get_obuff ;;
  assert (len <=? count ob) ;;
  set_obuff (mk_buff (count ob - len) (p_data ob + len)
               (store_bytes (p_data ob) str (data ob))).

(** The [while (count--)] loop of [get_attrs] that discards the extension
    pairs. *)
Fixpoint get_attrs_discard (n : nat) : M unit :=
  match n with
  | O => ret tt
  | S n' => get_string ;; get_string ;; get_attrs_discard n'
  end.

Definition get_attrs : M attrs_t :=
  fl <- get_uint32 ;;
  sz <- (if flag_set fl SSH_FILEXFER_ATTR_SIZE then get_uint64 else ret 0) ;;
  ' (u, g) <- (if flag_set fl SSH_FILEXFER_ATTR_UIDGID
               then u <- get_uint32 ;; g <- get_uint32 ;; ret (u, g)
               else ret (0, 0)) ;;
  pm <- (if flag_set fl SSH_FILEXFER_ATTR_PERMISSIONS
         then get_uint32 else ret 0) ;;
  ' (at_, mt) <- (if flag_set fl SSH_FILEXFER_ATTR_ACMODTIME
                  then a <- get_uint32 ;; m <- get_uint32 ;; ret (a, m)
                  else ret (0, 0)) ;;
  (if flag_set fl SSH_FILEXFER_ATTR_EXTENDED
   then cnt <- get_uint32 ;; get_attrs_discard (Z.to_nat cnt)
   else ret tt) ;;
  ret (mk_attrs fl pm sz u g at_ mt).

Definition put_attrs (p_attrs : attrs_t) : M unit :=
  put_uint32 (flags p_attrs) ;;
  (if flag_set (flags p_attrs) SSH_FILEXFER_ATTR_SIZE
   then put_uint64 (size p_attrs) else ret tt) ;;
  (if flag_set (flags p_attrs) SSH_FILEXFER_ATTR_UIDGID
   then put_uint32 (uid p_attrs) ;; put_uint32 (gid p_attrs) else ret tt) ;;
  (if flag_set (flags p_attrs) SSH_FILEXFER_ATTR_PERMISSIONS
   then put_uint32 (permissions p_attrs) else ret tt) ;;
  (if flag_set (flags p_attrs) SSH_FILEXFER_ATTR_ACMODTIME
   then put_uint32 (atime p_attrs) ;; put_uint32 (mtime p_attrs) else ret tt).

(** ** Portability and POSIX <-> SFTP conversion *)

Definition pflags_to_unix (pflags : Z) : Z :=
  let fl :=
    if flag_set pflags SSH_FXF_READ && flag_set pflags SSH_FXF_WRITE
    then O_RDWR
    else if flag_set pflags SSH_FXF_READ then O_RDONLY
    else if flag_set pflags SSH_FXF_WRITE then O_WRONLY
    else 0 in
  let fl := if flag_set pflags SSH_FXF_CREAT then Z.lor fl O_CREAT else fl in
  let fl := if flag_set pflags SSH_FXF_TRUNC then Z.lor fl O_TRUNC else fl in
  let fl := if flag_set pflags SSH_FXF_EXCL then Z.lor fl O_EXCL else fl in
  fl.

Definition errno_to_sftp (unix_error : Z) : Z :=
  if unix_error =? 0 then SSH_FX_OK
  else if (unix_error =? ENOENT) || (unix_error =? ENOTDIR)
          || (unix_error =? EBADF) || (unix_error =? ELOOP)
  then SSH_FX_NO_SUCH_FILE
  else if (unix_error =? EPERM) || (unix_error =? EACCES)
          || (unix_error =? EFAULT)
  then SSH_FX_PERMISSION_DENIED
  else if (unix_error =? ENAMETOOLONG) || (unix_error =? EINVAL)
  then SSH_FX_BAD_MESSAGE
  else SSH_FX_FAILURE.

Definition stat_to_attr (p_stat : stat_t) : attrs_t :=
  mk_attrs
    (Z.lor (Z.lor (Z.lor SSH_FILEXFER_ATTR_SIZE SSH_FILEXFER_ATTR_UIDGID)
                  SSH_FILEXFER_ATTR_PERMISSIONS)
           SSH_FILEXFER_ATTR_ACMODTIME)
    (uint32 (st_mode p_stat))
    (uint64 (st_size p_stat))
    (uint32 (st_uid p_stat))
    (uint32 (st_gid p_stat))
    (uint32 (st_atime p_stat))
    (uint32 (st_mtime p_stat)).

(** ** Responses *)

Definition status_message (status : Z) : string :=
  if status =? SSH_FX_OK then "Success"
  else if status =? SSH_FX_EOF then "End of file"
  else if status =? SSH_FX_NO_SUCH_FILE then "No such file"
  else if status =? SSH_FX_PERMISSION_DENIED then "Permission denied"
  else if status =? SSH_FX_FAILURE then "Failure"
  else if status =? SSH_FX_BAD_MESSAGE then "Bad message"
  else if status =? SSH_FX_OP_UNSUPPORTED then "Operation unsupported"
  else "Unknown error".

Definition put_status (id status : Z) : M unit :=
  put_byte SSH_FXP_STATUS ;;
  put_uint32 id ;;
  put_uint32 status ;;
  put_cstring (bytes_of_string (status_message (uint32 status))) ;;
  put_cstring (bytes_of_string "en").

(** [sprintf(buff, "%02lu", handle)] for a handle that passed the two
    assertions. *)
Definition handle_digits (handle : Z) : list Z :=
  [48 + handle / 10; 48 + handle mod 10].

Definition put_handle (id handle : Z) : M unit :=
  assert (handle >? 0) ;;
  assert (handle <=? MAX_HANDLES) ;;
  put_byte SSH_FXP_HANDLE ;;
  put_uint32 id ;;
  put_cstring (handle_digits handle).

(** ** Handle management *)

(** A pointer into [handles] is the index of the slot. *)
Definition slot (hs : list fxp_handle_t) (i : nat) : fxp_handle_t :=
  nth i hs handle_zero.

Definition get_handle : M (option nat) :=
  ' (sz_handle, handle_len) <- get_string ;;
  if negb (handle_len =? MAX_HANDLE_DIGITS) then ret None
  else
    let mem := sz_handle ++ [0] in
    let '(handle, ep) := strtoul mem in
    if negb (nth ep mem 0 =? 0) then ret None
    else if handle =? 0 then ret None
    else if handle >? MAX_HANDLES then ret None
    else
      hs <- get_handles ;;
      match use (slot hs (Z.to_nat (handle - 1))) with
      | HANDLE_FREE => ret None
      | _ => ret (Some (Z.to_nat (handle - 1)))
      end.

(** The index of the first free slot at or after [handle]. *)
Fixpoint first_free (hs : list fxp_handle_t) (handle : nat) : option nat :=
  match hs with
  | [] => None
  | h :: t =>
      match use h with
      | HANDLE_FREE => Some handle
      | _ => first_free t (S handle)
      end
  end.

(** The diagnostic written to stderr when the table is full is not
    modelled. *)
Definition handle_alloc_file (fd_ : Z) : M Z :=
  hs <- get_handles ;;
  match first_free hs O with
  | Some handle =>
      set_handles
        (update_nth handle (mk_handle HANDLE_FILE fd_ (p_dir (slot hs handle)))
           hs) ;;
      ret (Z.of_nat handle + 1)
  | None => ret 0
  end.

Definition handle_alloc_dir (fd_ p_dir_ : Z) : M Z :=
  hs <- get_handles ;;
  match first_free hs O with
  | Some handle =>
      set_handles (update_nth handle (mk_handle HANDLE_DIR fd_ p_dir_) hs) ;;
      ret (Z.of_nat handle + 1)
  | None => ret 0
  end.

(** ** Request handlers *)

Definition sftp_init : M unit :=
  version <- get_uint32 ;;
  assert (version >=? SFTP_PROTOCOL_VERSION) ;;
  put_byte SSH_FXP_VERSION ;;
  put_uint32 SFTP_PROTOCOL_VERSION.

Definition sftp_open : M unit :=
  id <- get_uint32 ;;
  ' (sz_filename, _) <- get_string ;;
  pflags <- get_uint32 ;;
  attrs <- get_attrs ;;
  let oflags := pflags_to_unix pflags in
  let mode :=
    if flag_set (flags attrs) SSH_FILEXFER_ATTR_PERMISSIONS
    then permissions attrs else DEFAULT_FILE_PERM in
  r <- call (SYS_open (c_str sz_filename) oflags mode) ;;
  let fd_ := ret_val r in
  if fd_ <? 0 then
    e <- get_errno ;;
    put_status id (errno_to_sftp e)
  else
    handle <- handle_alloc_file fd_ ;;
    if handle =? 0 then
      call (SYS_close fd_) ;;
      put_status id SSH_FX_FAILURE
    else put_handle id handle.

Definition sftp_close : M unit :=
  id <- get_uint32 ;;
  p_handle <- get_handle ;;
  match p_handle with
  | None => put_status id SSH_FX_FAILURE
  | Some i =>
      hs <- get_handles ;;
      let h := slot hs i in
      status <-
        match use h with
        | HANDLE_FILE =>
            r <- call (SYS_close (fd h)) ;;
            if ret_val r =? -1
            then e <- get_errno ;; ret (errno_to_sftp e)
            else ret SSH_FX_OK
        | HANDLE_DIR =>
            r <- call (SYS_closedir (p_dir h)) ;;
            if ret_val r =? -1
            then e <- get_errno ;; ret (errno_to_sftp e)
            else ret SSH_FX_OK
        | HANDLE_FREE => ret SSH_FX_OK
        end ;;
      hs <- get_handles ;;
      set_handles
        (update_nth i (mk_handle HANDLE_FREE (fd (slot hs i))
                                 (p_dir (slot hs i))) hs) ;;
      put_status id status
  end.

(** The slot behind [p_handle] when it is non-null and in use as a file. *)
Definition file_slot (hs : list fxp_handle_t) (p_handle : option nat)
  : option fxp_handle_t :=
  match p_handle with
  | Some i =>
      match use (slot hs i) with
      | HANDLE_FILE => Some (slot hs i)
      | _ => None
      end
  | None => None
  end.

Definition sftp_read : M unit :=
  let hdr_size := 1 + 4 + 4 in
  id <- get_uint32 ;;
  p_handle <- get_handle ;;
  offset <- get_uint64 ;;
  len <- get_uint32 ;;
  ob <- get_obuff ;;
  let max_len := uint32 (count ob - hdr_size) in
  let len := if len >? max_len then max_len else len in
  hs <- get_handles ;;
  match file_slot hs p_handle with
  | Some h =>
      r <- call (SYS_lseek (fd h) (to_off_t offset)) ;;
      if ret_val r <? 0 then
        e <- get_errno ;;
        put_status id (errno_to_sftp e)
      else
        r <- call (SYS_read (fd h) len) ;;
        let ret_ := ret_val r in
        (* the host has stored the bytes it read at [&obuff.p_data[hdr_size]] *)
        (if ret_ >? 0
         then set_obuff (mk_buff (count ob) (p_data ob)
                (store_bytes (p_data ob + hdr_size)
                   (firstn (Z.to_nat ret_) (ret_bytes r)) (data ob)))
         else ret tt) ;;
        if ret_ <? 0 then
          e <- get_errno ;;
          put_status id (errno_to_sftp e)
        else if ret_ =? 0 then put_status id SSH_FX_EOF
        else
          assert (ret_ <=? len) ;;
          put_byte SSH_FXP_DATA ;;
          put_uint32 id ;;
          put_uint32 ret_ ;;
          ob <- get_obuff ;;
          set_obuff (mk_buff (uint32 (count ob - ret_)) (p_data ob + ret_)
                       (data ob))
  | None => put_status id SSH_FX_FAILURE
  end.

Definition sftp_write : M unit :=
  id <- get_uint32 ;;
  p_handle <- get_handle ;;
  offset <- get_uint64 ;;
  ' (p_data_, data_len) <- get_data ;;
  hs <- get_handles ;;
  match file_slot hs p_handle with
  | Some h =>
      r <- call (SYS_lseek (fd h) (to_off_t offset)) ;;
      if ret_val r <? 0 then
        e <- get_errno ;;
        put_status id (errno_to_sftp e)
      else
        r <- call (SYS_write (fd h) p_data_) ;;
        let ret_ := ret_val r in
        if ret_ <? 0 then
          e <- get_errno ;;
          put_status id (errno_to_sftp e)
        else if uint32 ret_ =? data_len then put_status id SSH_FX_OK
        else put_status id SSH_FX_FAILURE
  | None => put_status id SSH_FX_FAILURE
  end.

Definition do_stat (follow_symlinks : bool) : M unit :=
  id <- get_uint32 ;;
  ' (sz_path, _) <- get_string ;;
  r <- call (if follow_symlinks then SYS_stat (c_str sz_path)
             else SYS_lstat (c_str sz_path)) ;;
  if ret_val r <? 0 then
    e <- get_errno ;;
    put_status id (errno_to_sftp e)
  else
    put_byte SSH_FXP_ATTRS ;;
    put_uint32 id ;;
    put_attrs (stat_to_attr (ret_stat r)).

Definition sftp_stat : M unit := do_stat true.
Definition sftp_lstat : M unit := do_stat false.

Definition sftp_fstat : M unit :=
  id <- get_uint32 ;;
  p_handle <- get_handle ;;
  hs <- get_handles ;;
  match file_slot hs p_handle with
  | Some h =>
      r <- call (SYS_fstat (fd h)) ;;
      if ret_val r =? 0 then
        put_byte SSH_FXP_ATTRS ;;
        put_uint32 id ;;
        put_attrs (stat_to_attr (ret_stat r))
      else
        e <- get_errno ;;
        put_status id (errno_to_sftp e)
  | None => put_status id SSH_FX_FAILURE
  end.

(** The three optional steps of SETSTAT and FSETSTAT: each is skipped when
    its flag is clear, and a failing step sends the status and returns. *)
Definition setstat_steps (id : Z) (attr : attrs_t)
    (c_chmod c_utimes c_chown : syscall) : M unit :=
  r1 <- (if flag_set (flags attr) SSH_FILEXFER_ATTR_PERMISSIONS
         then call c_chmod else ret (mk_sysret 0 [] stat_zero)) ;;
  if ret_val r1 <? 0 then e <- get_errno ;; put_status id (errno_to_sftp e)
  else
    r2 <- (if flag_set (flags attr) SSH_FILEXFER_ATTR_ACMODTIME
           then call c_utimes else ret (mk_sysret 0 [] stat_zero)) ;;
    if ret_val r2 <? 0 then e <- get_errno ;; put_status id (errno_to_sftp e)
    else
      r3 <- (if flag_set (flags attr) SSH_FILEXFER_ATTR_UIDGID
             then call c_chown else ret (mk_sysret 0 [] stat_zero)) ;;
      if ret_val r3 <? 0
      then e <- get_errno ;; put_status id (errno_to_sftp e)
      else put_status id SSH_FX_OK.

Definition sftp_setstat : M unit :=
  id <- get_uint32 ;;
  ' (sz_path, _) <- get_string ;;
  attr <- get_attrs ;;
  let path := c_str sz_path in
  setstat_steps id attr
    (SYS_chmod path (Z.land (permissions attr) PERM_MASK))
    (SYS_utimes path (atime attr) (mtime attr))
    (SYS_chown path (uid attr) (gid attr)).

(** [_BSD_SOURCE] is defined, so this is the [futimes] branch. *)
Definition sftp_fsetstat : M unit :=
  id <- get_uint32 ;;
  p_handle <- get_handle ;;
  attr <- get_attrs ;;
  hs <- get_handles ;;
  match file_slot hs p_handle with
  | Some h =>
      setstat_steps id attr
        (SYS_fchmod (fd h) (Z.land (permissions attr) 511))
        (SYS_futimes (fd h) (atime attr) (mtime attr))
        (SYS_fchown (fd h) (uid attr) (gid attr))
  | None => put_status id SSH_FX_FAILURE
  end.

Definition sftp_opendir : M unit :=
  id <- get_uint32 ;;
  ' (sz_path, _) <- get_string ;;
  r <- call (SYS_open_dir (c_str sz_path) O_RDONLY) ;;
  let fd_ := ret_val r in
  if fd_ =? -1 then
    e <- get_errno ;;
    put_status id (errno_to_sftp e)
  else
    r <- call (SYS_fdopendir fd_) ;;
    let p_dir_ := ret_val r in
    if p_dir_ =? 0 then
      e <- get_errno ;;
      put_status id (errno_to_sftp e)
    else
      handle <- handle_alloc_dir fd_ p_dir_ ;;
      if negb (handle =? 0) then put_handle id handle
      else put_status id SSH_FX_FAILURE.

(** One pass through the body of the [do ... while (p_entry)] loop of
    [sftp_readdir].  The result is the loop condition ([p_entry] non-null)
    and the new [count]. *)
Definition readdir_body (p_handle : nat) (cnt : Z) : M (bool * Z) :=
  hs <- get_handles ;;
  let h := slot hs p_handle in
  r <- call (SYS_telldir (p_dir h)) ;;
  let dir_posn := ret_val r in
  p_entry <- call (SYS_readdir (p_dir h)) ;;
  if ret_val p_entry =? 0 then ret (false, cnt)
  else
    let d_name := c_str (ret_bytes p_entry) in
    st <- call (SYS_fstatat (fd h) d_name) ;;
    if ret_val st <? 0 then ret (true, cnt)
    else
      ob <- get_obuff ;;
      if (zlen d_name + 4) * 2 + MAX_ATTRS_BYTES <=? count ob then
        put_cstring d_name ;;
        put_cstring d_name ;;
        put_attrs (stat_to_attr (ret_stat st)) ;;
        ret (true, uint32 (cnt + 1))
      else if cnt >? 0 then
        call (SYS_seekdir (p_dir h) dir_posn) ;;
        ret (true, cnt)
      else ret (true, cnt).

Fixpoint readdir_loop (fuel : nat) (p_handle : nat) (cnt : Z) : M Z :=
  match fuel with
  | O => fun _ => OutOfFuel
  | S fuel' =>
      ' (again, cnt') <- readdir_body p_handle cnt ;;
      if again then readdir_loop fuel' p_handle cnt' else ret cnt'
  end.

Definition sftp_readdir (fuel : nat) : M unit :=
  id <- get_uint32 ;;
  p_handle <- get_handle ;;
  match p_handle with
  | None => put_status id SSH_FX_FAILURE
  | Some i =>
      save1 <- buff_save ;;
      put_byte SSH_FXP_NAME ;;
      put_uint32 id ;;
      save2 <- buff_save ;;
      put_uint32 0 ;;
      cnt <- readdir_loop fuel i 0 ;;
      if cnt >? 0 then
        save2 <- buff_swap save2 ;;
        put_uint32 cnt ;;
        buff_swap save2 ;;
        ret tt
      else
        buff_swap save1 ;;
        put_status id SSH_FX_EOF
  end.

Definition sftp_remove : M unit :=
  id <- get_uint32 ;;
  ' (sz_filename, _) <- get_string ;;
  r <- call (SYS_remove (c_str sz_filename)) ;;
  if ret_val r =? -1 then e <- get_errno ;; put_status id (errno_to_sftp e)
  else put_status id SSH_FX_OK.

Definition sftp_mkdir : M unit :=
  id <- get_uint32 ;;
  ' (sz_path, _) <- get_string ;;
  attr <- get_attrs ;;
  let mode :=
    if flag_set (flags attr) SSH_FILEXFER_ATTR_PERMISSIONS
    then Z.land (permissions attr) PERM_MASK else DEFAULT_DIR_PERM in
  r <- call (SYS_mkdir (c_str sz_path) mode) ;;
  if ret_val r =? -1 then e <- get_errno ;; put_status id (errno_to_sftp e)
  else put_status id SSH_FX_OK.

Definition sftp_rmdir : M unit :=
  id <- get_uint32 ;;
  ' (sz_path, _) <- get_string ;;
  r <- call (SYS_rmdir (c_str sz_path)) ;;
  if ret_val r =? -1 then e <- get_errno ;; put_status id (errno_to_sftp e)
  else put_status id SSH_FX_OK.

(** [_XOPEN_SOURCE] is 700, so this is the [realpath] branch. *)
Definition sftp_realpath : M unit :=
  id <- get_uint32 ;;
  ' (sz_path, _) <- get_string ;;
  r <- call (SYS_realpath (c_str sz_path)) ;;
  if ret_val r =? 0 then e <- get_errno ;; put_status id (errno_to_sftp e)
  else
    put_byte SSH_FXP_NAME ;;
    put_uint32 id ;;
    put_uint32 1 ;;
    put_cstring (ret_bytes r) ;;
    put_cstring (ret_bytes r) ;;
    put_attrs attrs_zero.

Definition sftp_rename : M unit :=
  id <- get_uint32 ;;
  ' (sz_old_path, _) <- get_string ;;
  ' (sz_new_path, _) <- get_string ;;
  r <- call (SYS_rename (c_str sz_old_path) (c_str sz_new_path)) ;;
  if ret_val r =? -1 then e <- get_errno ;; put_status id (errno_to_sftp e)
  else put_status id SSH_FX_OK.

Definition sftp_readlink : M unit :=
  id <- get_uint32 ;;
  ' (sz_path, _) <- get_string ;;
  save <- buff_save ;;
  put_byte SSH_FXP_NAME ;;
  put_uint32 id ;;
  put_uint32 1 ;;
  ob <- get_obuff ;;
  let space := uint32 (uint32 (count ob - MAX_ATTRS_BYTES) / 2 - 4) in
  let p_target := p_data ob + 4 in
  r <- call (SYS_readlink (c_str sz_path) space) ;;
  let len := ret_val r in
  if len =? -1 then
    buff_swap save ;;
    e <- get_errno ;;
    put_status id (errno_to_sftp e)
  else
    (* the host has stored the target at [p_target] *)
    set_obuff (mk_buff (count ob) (p_data ob)
      (store_bytes p_target (firstn (Z.to_nat len) (ret_bytes r)) (data ob))) ;;
    put_uint32 len ;;
    ob <- get_obuff ;;
    set_obuff (mk_buff (uint32 (count ob - len)) (p_data ob + len)
                 (store_bytes (p_target + len) [0] (data ob))) ;;
    ob <- get_obuff ;;
    put_cstring (skipn (Z.to_nat p_target) (data ob)) ;;
    put_attrs attrs_zero.

Definition sftp_symlink : M unit :=
  id <- get_uint32 ;;
  ' (sz_link_path, _) <- get_string ;;
  ' (sz_target_path, _) <- get_string ;;
  r <- call (SYS_symlink (c_str sz_target_path) (c_str sz_link_path)) ;;
  if ret_val r =? -1 then e <- get_errno ;; put_status id (errno_to_sftp e)
  else put_status id SSH_FX_OK.

(** ** Dispatcher *)

Definition sftp_in (fuel : nat) : M unit :=
  opcode <- get_byte ;;
  init <- get_have_init ;;
  if negb init then
    assert (opcode =? SSH_FXP_INIT) ;;
    sftp_init ;;
    set_have_init true
  else if opcode =? SSH_FXP_INIT then exit EXIT_FAILURE
  else if opcode =? SSH_FXP_OPEN then sftp_open
  else if opcode =? SSH_FXP_CLOSE then sftp_close
  else if opcode =? SSH_FXP_READ then sftp_read
  else if opcode =? SSH_FXP_WRITE then sftp_write
  else if opcode =? SSH_FXP_LSTAT then sftp_lstat
  else if opcode =? SSH_FXP_FSTAT then sftp_fstat
  else if opcode =? SSH_FXP_SETSTAT then sftp_setstat
  else if opcode =? SSH_FXP_FSETSTAT then sftp_fsetstat
  else if opcode =? SSH_FXP_OPENDIR then sftp_opendir
  else if opcode =? SSH_FXP_READDIR then sftp_readdir fuel
  else if opcode =? SSH_FXP_REMOVE then sftp_remove
  else if opcode =? SSH_FXP_MKDIR then sftp_mkdir
  else if opcode =? SSH_FXP_RMDIR then sftp_rmdir
  else if opcode =? SSH_FXP_REALPATH then sftp_realpath
  else if opcode =? SSH_FXP_STAT then sftp_stat
  else if opcode =? SSH_FXP_RENAME then sftp_rename
  else if opcode =? SSH_FXP_READLINK then sftp_readlink
  else if opcode =? SSH_FXP_SYMLINK then sftp_symlink
  else
    id <- get_uint32 ;;
    put_status id SSH_FX_OP_UNSUPPORTED.

(** ** Frame I/O *)

(** The [while (ibuff.count < len)] loop of [read_input]. *)
Fixpoint read_input_loop (fuel : nat) (len : Z) : M unit :=
  ib <- get_ibuff ;;
  if count ib <? len then
    match fuel with
    | O => fun _ => OutOfFuel
    | S fuel' =>
        r <- call SYS_select_stdin ;;
        if ret_val r =? -1 then exit EXIT_FAILURE
        else
          r <- call (SYS_read_stdin (uint32 (len - count ib))) ;;
          let temp := ret_val r in
          if temp <? 0 then exit EXIT_FAILURE
          else if temp =? 0 then exit EXIT_SUCCESS
          else
            set_ibuff (mk_buff (uint32 (count ib + temp)) (p_data ib)
              (store_bytes (count ib)
                 (firstn (Z.to_nat temp) (ret_bytes r)) (data ib))) ;;
            read_input_loop fuel' len
    end
  else ret tt.

Definition read_input (fuel : nat) (len : Z) : M unit :=
  ib <- get_ibuff ;;
  set_ibuff (mk_buff 0 0 (data ib)) ;;
  read_input_loop fuel len.

(** The [while (packet_len > 0)] loop at the end of [main]. *)
Fixpoint write_output_loop (fuel : nat) (p_out packet_len : Z) : M unit :=
  if packet_len >? 0 then
    match fuel with
    | O => fun _ => OutOfFuel
    | S fuel' =>
        r <- call SYS_select_stdout ;;
        if ret_val r =? -1 then exit EXIT_FAILURE
        else
          ob <- get_obuff ;;
          r <- call (SYS_write_stdout (load_bytes p_out packet_len (data ob))) ;;
          let temp := ret_val r in
          if temp <? 0 then exit EXIT_FAILURE
          else write_output_loop fuel' (p_out + temp)
                 (uint32 (packet_len - temp))
    end
  else ret tt.

(** The body of the [for (;;)] loop of [main], in its three phases: a
    request frame is read and the output buffer is set up
    ([main_receive]), the packet is handled, and the response frame, if
    there is one, is written ([main_send]).  [io_fuel] bounds the two
    transfer loops and [fuel] the directory loop of [sftp_readdir]. *)
Definition main_receive (io_fuel : nat) : M (Z * buff_save_t) :=
  read_input io_fuel 4 ;;
  payload_len <- get_uint32 ;;
  assert (payload_len <=? MAX_PACKET) ;;
  read_input io_fuel payload_len ;;
  ob <- get_obuff ;;
  set_obuff (mk_buff MAX_PACKET 0 (data ob)) ;;
  save <- buff_save ;;
  put_uint32 0 ;;
  ret (payload_len, save).

Definition main_send (io_fuel : nat) (save : buff_save_t) : M unit :=
  ob <- get_obuff ;;
  let packet_len := uint32 (MAX_PACKET - count ob) in
  let payload_len := uint32 (packet_len - 4) in
  if payload_len >? 0 then
    save <- buff_swap save ;;
    put_uint32 payload_len ;;
    write_output_loop io_fuel 0 packet_len
  else ret tt.

Definition main_iteration (io_fuel fuel : nat) : M unit :=
  ' (payload_len, save) <- main_receive io_fuel ;;
  (if payload_len >? 0 then sftp_in fuel else ret tt) ;;
  main_send io_fuel save.

(** [main]: the loop runs until the process exits; [n] bounds the number
    of frames. *)
Fixpoint main (n io_fuel fuel : nat) : M unit :=
  match n with
  | O => fun _ => OutOfFuel
  | S n' => main_iteration io_fuel fuel ;; main n' io_fuel fuel
  end.

(** The program's static storage before [main] runs. *)
Definition initial_state (w : World) : state :=
  mk_state (mk_buff 0 0 (repeat 0 (Z.to_nat MAX_PACKET)))
           (mk_buff 0 0 (repeat 0 (Z.to_nat MAX_PACKET)))
           false
           (repeat handle_zero (Z.to_nat MAX_HANDLES))
           w.

End Server.

Arguments Ret {H A} a s.
Arguments Abort {H A}.
Arguments Exit {H A} code s.
Arguments OutOfFuel {H A}.

Notation "x <- m ;; k" := (bind m (fun x => k))
  (at level 61, m at next level, right associativity).
Notation "m ;; k" := (bind m (fun _ => k))
  (at level 61, right associativity).

(** ** Concrete hosts *)

(** The values of the constants on Linux. *)
#[export] Instance linux : Platform := {|
  ENOENT := 2; ENOTDIR := 20; EBADF := 9; ELOOP := 40;
  EPERM := 1; EACCES := 13; EFAULT := 14;
  ENAMETOOLONG := 36; EINVAL := 22;
  O_RDONLY := 0; O_WRONLY := 1; O_RDWR := 2;
  O_CREAT := 64; O_TRUNC := 512; O_EXCL := 128
|}.

Definition linux_O_APPEND : Z := 1024.

(** A host that records every call made to it on top of another host. *)
Definition traced (H : Host) : Host := {|
  World := (@World H * list syscall)%type;
  sys := fun c wl =>
    let (r, w') := @sys H c (fst wl) in (r, (w', snd wl ++ [c]));
  errno := fun wl => @errno H (fst wl)
|}.

(** A small simulated host: a file system of regular files and
    directories, a descriptor table, and the two standard streams.
    Directory streams follow POSIX: [telldir] gives the current position,
    [readdir] returns the entry there and moves on, [seekdir] goes back to
    a position [telldir] gave. *)
Module Sim.

Inductive node :=
| File (content : list Z)
| Dir (entries : list (list Z)).

(** An open descriptor: the node it was opened on and its position. *)
Record open_file := mk_open {
  of_fd : Z;
  of_node : node;
  of_pos : Z
}.

Record world := mk_world {
  stdin : list Z;
  stdout : list Z;
  err : Z;
  fs : list (list Z * node);
  fds : list open_file
}.

Definition bytes_eqb (a b : list Z) : bool :=
  if list_eq_dec Z.eq_dec a b then true else false.

Fixpoint lookup_path (p : list Z) (l : list (list Z * node)) : option node :=
  match l with
  | [] => None
  | (q, n) :: t => if bytes_eqb p q then Some n else lookup_path p t
  end.

Fixpoint lookup_fd (d : Z) (l : list open_file) : option open_file :=
  match l with
  | [] => None
  | o :: t => if of_fd o =? d then Some o else lookup_fd d t
  end.

Fixpoint set_pos (d pos : Z) (l : list open_file) : list open_file :=
  match l with
  | [] => []
  | o :: t =>
      if of_fd o =? d then mk_open d (of_node o) pos :: t
      else o :: set_pos d pos t
  end.

Fixpoint set_node (d : Z) (n : node) (pos : Z) (l : list open_file)
  : list open_file :=
  match l with
  | [] => []
  | o :: t =>
      if of_fd o =? d then mk_open d n pos :: t
      else o :: set_node d n pos t
  end.

Fixpoint remove_fd (d : Z) (l : list open_file) : list open_file :=
  match l with
  | [] => []
  | o :: t => if of_fd o =? d then t else o :: remove_fd d t
  end.

Definition with_err (w : world) (e : Z) : world :=
  mk_world (stdin w) (stdout w) e (fs w) (fds w).
Definition with_fds (w : world) (l : list open_file) : world :=
  mk_world (stdin w) (stdout w) (err w) (fs w) l.

Definition ok (v : Z) (w : world) : sysret * world :=
  (mk_sysret v [] stat_zero, w).
Definition fail (v e : Z) (w : world) : sysret * world :=
  (mk_sysret v [] stat_zero, with_err w e).

(** Descriptors are handed out from 3; the [DIR*] of descriptor [d] is
    the address [dir_base + d]. *)
Definition fresh_fd (w : world) : Z := 3 + zlen (fds w).
Definition dir_base : Z := 4096.

Definition the_stat (n : node) : stat_t :=
  match n with
  | File c => mk_stat (zlen c) 1000 1000 33188 0 0
  | Dir _ => mk_stat 4096 1000 1000 16877 0 0
  end.

Definition do_open (path : list Z) (oflags : Z) (w : world)
  : sysret * world :=
  match lookup_path path (fs w) with
  | Some n =>
      ok (fresh_fd w) (with_fds w (fds w ++ [mk_open (fresh_fd w) n 0]))
  | None =>
      if flag_set oflags 64 then
        ok (fresh_fd w)
           (mk_world (stdin w) (stdout w) (err w)
              (fs w ++ [(path, File [])])
              (fds w ++ [mk_open (fresh_fd w) (File []) 0]))
      else fail (-1) 2 w
  end.

Definition do_stat_path (path : list Z) (w : world) : sysret * world :=
  match lookup_path path (fs w) with
  | Some n => (mk_sysret 0 [] (the_stat n), w)
  | None => fail (-1) 2 w
  end.

Definition sim_sys (c : syscall) (w : world) : sysret * world :=
  match c with
  | SYS_select_stdin | SYS_select_stdout => ok 1 w
  | SYS_read_stdin len =>
      let bs := firstn (Z.to_nat len) (stdin w) in
      (mk_sysret (zlen bs) bs stat_zero,
       mk_world (skipn (Z.to_nat len) (stdin w)) (stdout w) (err w)
         (fs w) (fds w))
  | SYS_write_stdout bs =>
      (mk_sysret (zlen bs) [] stat_zero,
       mk_world (stdin w) (stdout w ++ bs) (err w) (fs w) (fds w))
  | SYS_open path oflags _ => do_open path oflags w
  | SYS_open_dir path oflags => do_open path oflags w
  | SYS_close d =>
      match lookup_fd d (fds w) with
      | Some _ => ok 0 (with_fds w (remove_fd d (fds w)))
      | None => fail (-1) 9 w
      end
  | SYS_closedir p =>
      match lookup_fd (p - dir_base) (fds w) with
      | Some _ => ok 0 (with_fds w (remove_fd (p - dir_base) (fds w)))
      | None => fail (-1) 9 w
      end
  | SYS_lseek d off =>
      match lookup_fd d (fds w) with
      | Some _ =>
          if off <? 0 then fail (-1) 22 w
          else ok off (with_fds w (set_pos d off (fds w)))
      | None => fail (-1) 9 w
      end
  | SYS_read d len =>
      match lookup_fd d (fds w) with
      | Some (mk_open _ (File content) pos) =>
          let bs := firstn (Z.to_nat len) (skipn (Z.to_nat pos) content) in
          (mk_sysret (zlen bs) bs stat_zero,
           with_fds w (set_pos d (pos + zlen bs) (fds w)))
      | Some (mk_open _ (Dir _) _) => fail (-1) 21 w
      | None => fail (-1) 9 w
      end
  | SYS_write d bs =>
      match lookup_fd d (fds w) with
      | Some (mk_open _ (File content) pos) =>
          let content' :=
            firstn (Z.to_nat pos) (content ++ repeat 0 (Z.to_nat pos))
            ++ bs ++ skipn (Z.to_nat pos + List.length bs) content in
          (mk_sysret (zlen bs) [] stat_zero,
           with_fds w (set_node d (File content') (pos + zlen bs) (fds w)))
      | Some (mk_open _ (Dir _) _) => fail (-1) 9 w
      | None => fail (-1) 9 w
      end
  | SYS_stat path | SYS_lstat path => do_stat_path path w
  | SYS_fstat d =>
      match lookup_fd d (fds w) with
      | Some o => (mk_sysret 0 [] (the_stat (of_node o)), w)
      | None => fail (-1) 9 w
      end
  | SYS_fstatat d name =>
      match lookup_fd d (fds w) with
      | Some (mk_open _ (Dir entries) _) =>
          if existsb (bytes_eqb name) entries
          then (mk_sysret 0 [] (the_stat (File [])), w)
          else fail (-1) 2 w
      | Some (mk_open _ (File _) _) => fail (-1) 20 w
      | None => fail (-1) 9 w
      end
  | SYS_fdopendir d =>
      match lookup_fd d (fds w) with
      | Some (mk_open _ (Dir _) _) => ok (dir_base + d) w
      | Some (mk_open _ (File _) _) => fail 0 20 w
      | None => fail 0 9 w
      end
  | SYS_telldir p =>
      match lookup_fd (p - dir_base) (fds w) with
      | Some o => ok (of_pos o) w
      | None => fail (-1) 9 w
      end
  | SYS_readdir p =>
      match lookup_fd (p - dir_base) (fds w) with
      | Some (mk_open _ (Dir entries) pos) =>
          match nth_error entries (Z.to_nat pos) with
          | Some name =>
              (mk_sysret 1 name stat_zero,
               with_fds w (set_pos (p - dir_base) (pos + 1) (fds w)))
          | None => ok 0 w
          end
      | _ => fail 0 9 w
      end
  | SYS_seekdir p pos =>
      match lookup_fd (p - dir_base) (fds w) with
      | Some _ => ok 0 (with_fds w (set_pos (p - dir_base) pos (fds w)))
      | None => ok 0 w
      end
  | SYS_realpath path =>
      match lookup_path path (fs w) with
      | Some _ => (mk_sysret 1 path stat_zero, w)
      | None => fail 0 2 w
      end
  | SYS_chmod path _ | SYS_utimes path _ _ | SYS_chown path _ _
  | SYS_remove path | SYS_rmdir path | SYS_readlink path _ =>
      match lookup_path path (fs w) with
      | Some _ => fail (-1) 1 w
      | None => fail (-1) 2 w
      end
  | SYS_fchmod d _ | SYS_futimes d _ _ | SYS_fchown d _ _ =>
      match lookup_fd d (fds w) with
      | Some _ => ok 0 w
      | None => fail (-1) 9 w
      end
  | SYS_mkdir path _ =>
      match lookup_path path (fs w) with
      | Some _ => fail (-1) 17 w
      | None =>
          ok 0 (mk_world (stdin w) (stdout w) (err w)
                  (fs w ++ [(path, Dir [])]) (fds w))
      end
  | SYS_rename _ _ | SYS_symlink _ _ => fail (-1) 1 w
  end.

#[export] Instance host : Host := {|
  World := world;
  sys := sim_sys;
  errno := err
|}.

End Sim.


(** * Vocabulary of the statements *)

Section Vocabulary.

Context {P : Platform} {H : Host}.

Definition with_ibuff (s : state) (b : buff_t) : state :=
  mk_state b (obuff s) (have_init s) (handles s) (world s).
Definition with_obuff (s : state) (b : buff_t) : state :=
  mk_state (ibuff s) b (have_init s) (handles s) (world s).
Definition with_world (s : state) (w : World) : state :=
  mk_state (ibuff s) (obuff s) (have_init s) (handles s) w.

(** A buffer whose cursor and remaining count lie inside its array of
    [MAX_PACKET] bytes. *)
Definition wf_buff (b : buff_t) : Prop :=
  0 <= p_data b /\ 0 <= count b /\
  p_data b + count b <= zlen (data b) /\ zlen (data b) = MAX_PACKET.

(** The buffer after [bs] has been written at the cursor. *)
Definition buff_put (bs : list Z) (b : buff_t) : buff_t :=
  mk_buff (count b - zlen bs) (p_data b + zlen bs)
          (store_bytes (p_data b) bs (data b)).

(** The buffer after [n] bytes have been consumed at the cursor. *)
Definition buff_skip (n : Z) (b : buff_t) : buff_t :=
  mk_buff (count b - n) (p_data b + n) (data b).

(** The bytes before the cursor, and the bytes from the cursor on. *)
Definition written (b : buff_t) : list Z :=
  firstn (Z.to_nat (p_data b)) (data b).
Definition unread (b : buff_t) : list Z :=
  skipn (Z.to_nat (p_data b)) (data b).

(** [m] writes exactly [bs] to the output buffer and does nothing else,
    whenever the buffer has room for them. *)
Definition emits (m : M unit) (bs : list Z) : Prop :=
  forall s, wf_buff (obuff s) -> zlen bs <= count (obuff s) ->
    m s = Ret tt (with_obuff s (buff_put bs (obuff s))).

(** [m] consumes exactly [bs] from the input buffer, returns [v] and does
    nothing else, whenever [bs] is what lies at the read cursor. *)
Definition parses {A} (m : M A) (bs : list Z) (v : A) : Prop :=
  forall s rest, 0 <= p_data (ibuff s) -> zlen bs <= count (ibuff s) ->
    unread (ibuff s) = bs ++ rest ->
    m s = Ret v (with_ibuff s (buff_skip (zlen bs) (ibuff s))).

Definition be64 (d : Z) : list Z := be32 (Z.shiftr d 32) ++ be32 d.

Definition string_bytes (str : list Z) : list Z := be32 (zlen str) ++ str.

(** The body of a STATUS response. *)
Definition status_bytes (id status : Z) : list Z :=
  [SSH_FXP_STATUS] ++ be32 id ++ be32 status
  ++ string_bytes (bytes_of_string (status_message (uint32 status)))
  ++ string_bytes (bytes_of_string "en").

(** The body of a DATA response. *)
Definition data_bytes (id : Z) (payload : list Z) : list Z :=
  [SSH_FXP_DATA] ++ be32 id ++ string_bytes payload.

(** The serialization of an attribute record by [put_attrs]. *)
Definition attrs_bytes (a : attrs_t) : list Z :=
  be32 (flags a)
  ++ (if flag_set (flags a) SSH_FILEXFER_ATTR_SIZE
      then be64 (size a) else [])
  ++ (if flag_set (flags a) SSH_FILEXFER_ATTR_UIDGID
      then be32 (uid a) ++ be32 (gid a) else [])
  ++ (if flag_set (flags a) SSH_FILEXFER_ATTR_PERMISSIONS
      then be32 (permissions a) else [])
  ++ (if flag_set (flags a) SSH_FILEXFER_ATTR_ACMODTIME
      then be32 (atime a) ++ be32 (mtime a) else []).

(** The record with every field whose flag is clear set to zero. *)
Definition attrs_gated (a : attrs_t) : attrs_t :=
  mk_attrs (flags a)
    (if flag_set (flags a) SSH_FILEXFER_ATTR_PERMISSIONS
     then permissions a else 0)
    (if flag_set (flags a) SSH_FILEXFER_ATTR_SIZE then size a else 0)
    (if flag_set (flags a) SSH_FILEXFER_ATTR_UIDGID then uid a else 0)
    (if flag_set (flags a) SSH_FILEXFER_ATTR_UIDGID then gid a else 0)
    (if flag_set (flags a) SSH_FILEXFER_ATTR_ACMODTIME then atime a else 0)
    (if flag_set (flags a) SSH_FILEXFER_ATTR_ACMODTIME then mtime a else 0).

(** The fields hold values of their C types. *)
Definition attrs_in_range (a : attrs_t) : Prop :=
  0 <= flags a < 2 ^ 32 /\ 0 <= permissions a < 2 ^ 32 /\
  0 <= size a < 2 ^ 64 /\ 0 <= uid a < 2 ^ 32 /\ 0 <= gid a < 2 ^ 32 /\
  0 <= atime a < 2 ^ 32 /\ 0 <= mtime a < 2 ^ 32.

End Vocabulary.

(** The fields whose flag is clear are zero, as in every record the
    server builds ([memset] to zero, then the flagged fields). *)
Definition attrs_ungated_zero (a : attrs_t) : Prop :=
  (flag_set (flags a) SSH_FILEXFER_ATTR_SIZE = false -> size a = 0) /\
  (flag_set (flags a) SSH_FILEXFER_ATTR_UIDGID = false ->
     uid a = 0 /\ gid a = 0) /\
  (flag_set (flags a) SSH_FILEXFER_ATTR_PERMISSIONS = false ->
     permissions a = 0) /\
  (flag_set (flags a) SSH_FILEXFER_ATTR_ACMODTIME = false ->
     atime a = 0 /\ mtime a = 0).

(** All four field groups are present. *)
Definition attrs_fully_populated (a : attrs_t) : Prop :=
  flag_set (flags a) SSH_FILEXFER_ATTR_SIZE = true /\
  flag_set (flags a) SSH_FILEXFER_ATTR_UIDGID = true /\
  flag_set (flags a) SSH_FILEXFER_ATTR_PERMISSIONS = true /\
  flag_set (flags a) SSH_FILEXFER_ATTR_ACMODTIME = true.

Section ReadBack.

Context {P : Platform} {H : Host}.

Definition empty_buff : buff_t :=
  mk_buff MAX_PACKET 0 (repeat 0 (Z.to_nat MAX_PACKET)).

(** A buffer holding [bytes], to be read from the start. *)
Definition buff_holding (bytes : list Z) : buff_t :=
  mk_buff (zlen bytes) 0
    (store_bytes 0 bytes (repeat 0 (Z.to_nat MAX_PACKET))).

(** [a] is written with [put_attrs] into an empty output buffer, and the
    bytes written are read back with [get_attrs]. *)
Definition attrs_read_back (w : World) (a : attrs_t) : option attrs_t :=
  match put_attrs a (with_obuff (initial_state w) empty_buff) with
  | Ret _ s1 =>
      match get_attrs
              (with_ibuff (initial_state w)
                 (buff_holding (written (obuff s1)))) with
      | Ret a' _ => Some a'
      | _ => None
      end
  | _ => None
  end.

End ReadBack.

(** The decision [get_handle] takes once it has the handle string. *)
Definition handle_lookup (hs : list fxp_handle_t) (sz_handle : list Z)
    (handle_len : Z) : option nat :=
  if negb (handle_len =? MAX_HANDLE_DIGITS) then None
  else
    let mem := sz_handle ++ [0] in
    let '(handle, ep) := strtoul mem in
    if negb (nth ep mem 0 =? 0) then None
    else if handle =? 0 then None
    else if handle >? MAX_HANDLES then None
    else
      match use (slot hs (Z.to_nat (handle - 1))) with
      | HANDLE_FREE => None
      | _ => Some (Z.to_nat (handle - 1))
      end.

(** [m] does not call the host. *)
Definition keeps_world {P : Platform} {H : Host} {A} (m : M A) : Prop :=
  forall s v s', m s = Ret v s' -> world s' = world s.

(** The mode [sftp_open] gives to the host's [open]. *)
Definition open_mode (attrs : attrs_t) : Z :=
  if flag_set (flags attrs) SSH_FILEXFER_ATTR_PERMISSIONS
  then permissions attrs else DEFAULT_FILE_PERM.

(** The output buffer holds the NAME header and whatever entries have
    been written, all of it from the cursor [ob] had. *)
Definition name_in_progress {H : Host} (id : Z) (ob : buff_t) (s : state)
  : Prop :=
  exists entries,
    obuff s
    = buff_put (([SSH_FXP_NAME] ++ be32 id ++ be32 0) ++ entries) ob /\
    zlen (([SSH_FXP_NAME] ++ be32 id ++ be32 0) ++ entries) <= count ob.

(** * Client sessions against the simulated host *)

#[local] Existing Instance Sim.host.

Definition frame (payload : list Z) : list Z :=
  be32 (zlen payload) ++ payload.

Definition req_init (version : Z) : list Z :=
  [SSH_FXP_INIT] ++ be32 version.
Definition req_open (id : Z) (path : list Z) (pflags : Z) (a : attrs_t)
  : list Z :=
  [SSH_FXP_OPEN] ++ be32 id ++ string_bytes path ++ be32 pflags
  ++ attrs_bytes a.
Definition req_close (id : Z) (handle : list Z) : list Z :=
  [SSH_FXP_CLOSE] ++ be32 id ++ string_bytes handle.
Definition req_read (id : Z) (handle : list Z) (offset len : Z) : list Z :=
  [SSH_FXP_READ] ++ be32 id ++ string_bytes handle ++ be64 offset
  ++ be32 len.
Definition req_write (id : Z) (handle : list Z) (offset : Z)
    (payload : list Z) : list Z :=
  [SSH_FXP_WRITE] ++ be32 id ++ string_bytes handle ++ be64 offset
  ++ string_bytes payload.
Definition req_opendir (id : Z) (path : list Z) : list Z :=
  [SSH_FXP_OPENDIR] ++ be32 id ++ string_bytes path.
Definition req_readdir (id : Z) (handle : list Z) : list Z :=
  [SSH_FXP_READDIR] ++ be32 id ++ string_bytes handle.

(** The body of a HANDLE response. *)
Definition handle_bytes (id : Z) (handle : list Z) : list Z :=
  [SSH_FXP_HANDLE] ++ be32 id ++ string_bytes handle.

(** The simulated host at start-up: a file system and the bytes the
    client will send. *)
Definition sim_world (files : list (list Z * Sim.node)) (input : list Z)
  : Sim.world :=
  Sim.mk_world input [] 0 files [].

(** The server started on the simulated host (Linux constants). *)
Definition sim_start (files : list (list Z * Sim.node)) (input : list Z)
  : @state Sim.host :=
  @initial_state Sim.host (sim_world files input).

Definition sim_main (n io_fuel fuel : nat) : @M Sim.host unit :=
  @main linux Sim.host n io_fuel fuel.

(** How a run ended: the exit code, whether INIT has been seen, and
    everything written to standard output. *)
Definition sim_outcome {A} (r : @result Sim.host A)
  : option (Z * bool * list Z) :=
  match r with
  | Exit c s => Some (c, have_init s, Sim.stdout (world s))
  | _ => None
  end.

(** The same on the recording host, with the calls made. *)
Definition traced_main (n io_fuel fuel : nat)
  : @M (traced Sim.host) unit :=
  @main linux (traced Sim.host) n io_fuel fuel.

Definition traced_start (files : list (list Z * Sim.node)) (input : list Z)
  : @state (traced Sim.host) :=
  @initial_state (traced Sim.host) (sim_world files input, []).

Definition calls_made {A} (r : @result (traced Sim.host) A)
  : list syscall :=
  match r with
  | Exit _ s | Ret _ s => snd (world s)
  | _ => []
  end.

Definition is_open_call (c : syscall) : bool :=
  match c with SYS_open _ _ _ => true | _ => false end.

Definition file_f : list Z := bytes_of_string "/f".
Definition dir_d : list Z := bytes_of_string "/d".
Definition tmp_x : list Z := bytes_of_string "/tmp/x".

(** A file system with the regular file "/f" holding "hello world". *)
Definition fs_one_file : list (list Z * Sim.node) :=
  [(file_f, Sim.File (bytes_of_string "hello world"))].

Definition is_dir_call (c : syscall) : bool :=
  match c with
  | SYS_telldir _ | SYS_readdir _ | SYS_seekdir _ _ | SYS_fstatat _ _ => true
  | _ => false
  end.

(** OPEN of "/tmp/x" with READ|WRITE|CREAT|TRUNC and permissions 04755
    (2541): the set-user-id bit on top of rwxr-xr-x. *)
Definition open_setuid_session : list Z :=
  frame (req_init 3)
  ++ frame (req_open 7 tmp_x 27 (mk_attrs SSH_FILEXFER_ATTR_PERMISSIONS
                                           2541 0 0 0 0 0)).

(** OPEN of "/f" for reading, answered with handle "01", then CLOSE with
    the handle string given. *)
Definition open_close_session (handle : list Z) : list Z :=
  frame (req_init 3)
  ++ frame (req_open 1 file_f SSH_FXF_READ attrs_zero)
  ++ frame (req_close 2 handle).

(** OPEN of "/f" for reading, answered with handle "01", then READDIR on
    that handle. *)
Definition open_readdir_session : list Z :=
  frame (req_init 3)
  ++ frame (req_open 1 file_f SSH_FXF_READ attrs_zero)
  ++ frame (req_readdir 2 (bytes_of_string "01")).

(** The state a computation ends in ([d] when it has none). *)
Definition state_of {H : Host} {A} (r : @result H A) (d : @state H)
  : @state H :=
  match r with
  | Ret _ s | Exit _ s => s
  | _ => d
  end.

(** [r] is a return of the value [v]. *)
Definition returns {H : Host} {A} (r : @result H A) (v : A) : Prop :=
  match r with
  | Ret a _ => a = v
  | _ => False
  end.

(** [n] passes through the body of the directory loop, each of which
    leaves the loop condition true. *)
Fixpoint readdir_steps {P : Platform} {H : Host} (n : nat) (p_handle : nat)
    (cnt : Z) : M (bool * Z) :=
  match n with
  | O => ret (true, cnt)
  | S n' =>
      bind (readdir_body p_handle cnt)
        (fun r => if fst r then readdir_steps n' p_handle (snd r)
                  else ret r)
  end.

(** What [sftp_readdir] does once the loop has ended with [cnt]. *)
Definition readdir_finish {P : Platform} {H : Host} (id : Z)
    (save1 save2 : buff_save_t) (cnt : Z) : M unit :=
  if cnt >? 0 then
    bind (buff_swap save2) (fun save2 =>
    bind (put_uint32 cnt) (fun _ =>
    bind (buff_swap save2) (fun _ => ret tt)))
  else
    bind (buff_swap save1) (fun _ => put_status id SSH_FX_EOF).

(** A directory "/d" with ".", ".." and 64 entries whose names are 255
    bytes long: 254 times 'a' and one more character. *)
Definition long_name (i : nat) : list Z := repeat 97 254 ++ [48 + Z.of_nat i].

Definition big_dir_entries : list (list Z) :=
  [[46]; [46; 46]] ++ map long_name (seq 0 64).

Definition fs_big_dir : list (list Z * Sim.node) :=
  [(dir_d, Sim.Dir big_dir_entries)].

(** OPENDIR of "/d", answered with handle "01", then READDIR on it. *)
Definition opendir_readdir_session : list Z :=
  frame (req_init 3)
  ++ frame (req_opendir 1 dir_d)
  ++ frame (req_readdir 2 (bytes_of_string "01")).

(** The server after INIT and OPENDIR have been answered, with the
    READDIR frame waiting on standard input. *)
Definition readdir_pending : @state Sim.host :=
  let s0 := sim_start fs_big_dir opendir_readdir_session in
  state_of
    (bind (main_iteration 1 0)
       (fun _ => main_iteration 1 0) s0) s0.

(** The stages of the third pass through [main]: the frame is in the
    input buffer; the opcode has been read; the request id has been read;
    the handle has been decoded; the NAME header has been written; 63 entries have been emitted. *)
Definition readdir_received : @state Sim.host :=
  state_of (main_receive 1 readdir_pending) readdir_pending.
Definition readdir_dispatched : @state Sim.host :=
  state_of (get_byte readdir_received) readdir_received.
Definition readdir_id_read : @state Sim.host :=
  state_of (get_uint32 readdir_dispatched) readdir_dispatched.
Definition readdir_parsed : @state Sim.host :=
  state_of (get_handle readdir_id_read) readdir_id_read.
Definition readdir_started : @state Sim.host :=
  with_obuff readdir_parsed
    (buff_put ([SSH_FXP_NAME] ++ be32 2 ++ be32 0) (obuff readdir_parsed)).
Definition readdir_full : @state Sim.host :=
  state_of (readdir_steps 63 0 0 readdir_started)
    readdir_started.

(** Equality of states of the simulated host is decidable, so that two
    states can be compared by computation. *)
Definition bytes_eq_dec : forall a b : list Z, {a = b} + {a <> b} :=
  list_eq_dec Z.eq_dec.

Definition buff_eq_dec (a b : buff_t) : {a = b} + {a <> b}.
Proof. decide equality; auto using bytes_eq_dec, Z.eq_dec. Defined.

Definition handle_eq_dec (a b : fxp_handle_t) : {a = b} + {a <> b}.
Proof. decide equality; auto using Z.eq_dec. decide equality. Defined.

Definition node_eq_dec (a b : Sim.node) : {a = b} + {a <> b}.
Proof. decide equality; auto using bytes_eq_dec, list_eq_dec. Defined.

Definition open_file_eq_dec (a b : Sim.open_file) : {a = b} + {a <> b}.
Proof. decide equality; auto using Z.eq_dec, node_eq_dec. Defined.

Definition world_eq_dec (a b : Sim.world) : {a = b} + {a <> b}.
Proof.
  decide equality;
    auto using Z.eq_dec, bytes_eq_dec, list_eq_dec, open_file_eq_dec.
  apply list_eq_dec. decide equality; auto using node_eq_dec, bytes_eq_dec.
Defined.

Definition sim_state_eq_dec (a b : @state Sim.host) : {a = b} + {a <> b}.
Proof.
  decide equality;
    auto using world_eq_dec, list_eq_dec, handle_eq_dec, bool_dec,
      buff_eq_dec.
Defined.

(** [r] is a return in the state [s]. *)
Definition returns_to {A} (r : @result Sim.host A) (s : @state Sim.host)
  : bool :=
  match r with
  | Ret _ s' => if sim_state_eq_dec s' s then true else false
  | _ => false
  end.

(** [n] frames served one after the other. *)
Fixpoint serve (n : nat) : @M Sim.host unit :=
  match n with
  | O => ret tt
  | S n' => bind (main_iteration 1 0) (fun _ => serve n')
  end.

(** The state in which the handler of frame [n + 1] is entered: [n]
    frames have been answered, the next one has been read and its opcode
    consumed. *)
Definition handler_entry (files : list (list Z * Sim.node))
    (input : list Z) (n : nat) : @state Sim.host :=
  let s0 := sim_start files input in
  let s1 := state_of (serve n s0) s0 in
  let s2 := state_of (main_receive 1 s1) s1 in
  state_of (get_byte s2) s2.

(** READ of 100 bytes at offset 6 of "/f" ("hello world"). *)
Definition read_session : list Z :=
  frame (req_init 3)
  ++ frame (req_open 1 file_f SSH_FXF_READ attrs_zero)
  ++ frame (req_read 2 (bytes_of_string "01") 6 100).

Definition read_entry : @state Sim.host :=
  handler_entry fs_one_file read_session 2.
Definition read_s1 : @state Sim.host :=
  state_of (get_uint32 read_entry) read_entry.
Definition read_s2 : @state Sim.host :=
  state_of (get_handle read_s1) read_s1.
Definition read_s3 : @state Sim.host :=
  state_of (get_uint64 read_s2) read_s2.
Definition read_s4 : @state Sim.host :=
  state_of (get_uint32 read_s3) read_s3.
Definition read_seek : sysret * Sim.world :=
  Sim.sim_sys (SYS_lseek 3 6) (world read_s4).
Definition read_result : sysret * Sim.world :=
  Sim.sim_sys (SYS_read 3 100) (snd read_seek).

(** WRITE of "HELLO" at offset 0 of "/f". *)
Definition write_session : list Z :=
  frame (req_init 3)
  ++ frame (req_open 1 file_f SSH_FXF_WRITE attrs_zero)
  ++ frame (req_write 2 (bytes_of_string "01") 0 (bytes_of_string "HELLO")).

Definition write_entry : @state Sim.host :=
  handler_entry fs_one_file write_session 2.
Definition write_s1 : @state Sim.host :=
  state_of (get_uint32 write_entry) write_entry.
Definition write_s2 : @state Sim.host :=
  state_of (get_handle write_s1) write_s1.
Definition write_s3 : @state Sim.host :=
  state_of (get_uint64 write_s2) write_s2.
Definition write_s4 : @state Sim.host :=
  state_of (get_data write_s3) write_s3.
Definition write_seek : sysret * Sim.world :=
  Sim.sim_sys (SYS_lseek 3 0) (world write_s4).
Definition write_result : sysret * Sim.world :=
  Sim.sim_sys (SYS_write 3 (bytes_of_string "HELLO")) (snd write_seek).

(** The attributes of a regular file, all four groups present. *)
Definition attrs_regular_file : attrs_t :=
  mk_attrs 15 33188 11 1000 1000 1700000000 1700000001.

Definition attrs_out_state : @state Sim.host :=
  with_obuff (initial_state (sim_world [] [])) empty_buff.
Definition attrs_in_state : @state Sim.host :=
  with_ibuff (initial_state (sim_world [] []))
    (buff_holding (attrs_bytes attrs_regular_file)).
Definition attrs_in_rest : list Z :=
  skipn (0 + List.length (attrs_bytes attrs_regular_file))
    (repeat 0 (Z.to_nat MAX_PACKET)).

(** * Vocabulary of the further properties *)

(** An input buffer whose cursor and remaining count lie inside its
    array. *)
Definition ibuff_ok (b : buff_t) : Prop :=
  0 <= p_data b /\ 0 <= count b /\ p_data b + count b <= zlen (data b).

(** [m] consumes exactly [bs] from the input buffer and returns [v]; it
    may write into the part of the array it has consumed, but what lies
    after [bs] is still there to be read. *)
Definition reads_past {H : Host} {A} (m : M A) (bs : list Z) (v : A)
  : Prop :=
  forall s rest,
    ibuff_ok (ibuff s) -> zlen bs <= count (ibuff s) ->
    unread (ibuff s) = bs ++ rest ->
    exists d',
      m s = Ret v (with_ibuff s
                     (mk_buff (count (ibuff s) - zlen bs)
                              (p_data (ibuff s) + zlen bs) d')) /\
      zlen d' = zlen (data (ibuff s)) /\
      skipn (Z.to_nat (p_data (ibuff s) + zlen bs)) d' = rest.

(** The simulated server with an empty output buffer, and with an input
    buffer holding [bytes] followed by zeros. *)
Definition sim_writing : @state Sim.host :=
  with_obuff (initial_state (sim_world [] [])) empty_buff.
Definition sim_reading (bytes : list Z) : @state Sim.host :=
  with_ibuff (initial_state (sim_world [] [])) (buff_holding bytes).
Definition sim_tail (bytes : list Z) : list Z :=
  skipn (0 + List.length bytes) (repeat 0 (Z.to_nat MAX_PACKET)).

(** [sz_str] is written with [put_cstring] into an empty output buffer
    and the bytes written are read back with [get_string]. *)
Definition string_read_back {H : Host} (w : World) (sz_str : list Z)
  : option (list Z * Z) :=
  match put_cstring sz_str (with_obuff (initial_state w) empty_buff) with
  | Ret _ s1 =>
      match get_string
              (with_ibuff (initial_state w)
                 (buff_holding (written (obuff s1)))) with
      | Ret r _ => Some r
      | _ => None
      end
  | _ => None
  end.

(** The reserve-and-patch idiom of [main] and [sftp_readdir]: the cursor
    is saved, a zero placeholder is written, [body] runs, and then the
    placeholder is overwritten with [n] through two swaps. *)
Definition reserve_and_patch {H : Host} (body : M unit) (n : Z) : M unit :=
  bind buff_save (fun save =>
  bind (put_uint32 0) (fun _ =>
  bind body (fun _ =>
  bind (buff_swap save) (fun save =>
  bind (put_uint32 n) (fun _ =>
  bind (buff_swap save) (fun _ => ret tt)))))).

Definition with_handles {H : Host} (s : state) (hs : list fxp_handle_t)
  : state :=
  mk_state (ibuff s) (obuff s) (have_init s) hs (world s).

(** The slot [h] after [handle_alloc_file] and [handle_alloc_dir] have
    taken it, and after [sftp_close] has released it. *)
Definition as_file (h : fxp_handle_t) (fd_ : Z) : fxp_handle_t :=
  mk_handle HANDLE_FILE fd_ (p_dir h).
Definition as_dir (fd_ p_dir_ : Z) : fxp_handle_t :=
  mk_handle HANDLE_DIR fd_ p_dir_.
Definition as_free (h : fxp_handle_t) : fxp_handle_t :=
  mk_handle HANDLE_FREE (fd h) (p_dir h).

(** The call by which [sftp_close] releases what an in-use slot holds. *)
Definition close_call (h : fxp_handle_t) : option syscall :=
  match use h with
  | HANDLE_FILE => Some (SYS_close (fd h))
  | HANDLE_DIR => Some (SYS_closedir (p_dir h))
  | HANDLE_FREE => None
  end.

(** No slot of the table is free. *)
Definition table_full (hs : list fxp_handle_t) : Prop :=
  forall j, (j < List.length hs)%nat -> use (slot hs j) <> HANDLE_FREE.

(** Slot [i] is the first free slot of the table. *)
Definition first_free_at (hs : list fxp_handle_t) (i : nat) : Prop :=
  (i < List.length hs)%nat /\ use (slot hs i) = HANDLE_FREE /\
  forall j, (j < i)%nat -> use (slot hs j) <> HANDLE_FREE.

(** A table of 99 slots with the first two in use. *)
Definition table_two_open : list fxp_handle_t :=
  [mk_handle HANDLE_FILE 3 0; mk_handle HANDLE_DIR 4 4100]
  ++ repeat handle_zero 97.

Definition sim_with_table (hs : list fxp_handle_t) : @state Sim.host :=
  with_handles sim_writing hs.

(** A table with every slot in use. *)
Definition table_all_open : list fxp_handle_t :=
  repeat (mk_handle HANDLE_FILE 3 0) (Z.to_nat MAX_HANDLES).

(** The input buffer holds [bytes] and the table is [hs]. *)
Definition sim_reading_with (bytes : list Z) (hs : list fxp_handle_t)
  : @state Sim.host :=
  with_handles (sim_reading bytes) hs.

(** CLOSE of the handle "01" that OPEN returned, and CLOSE of "07", which
    names a free slot. *)
Definition close_entry : @state Sim.host :=
  handler_entry fs_one_file (open_close_session (bytes_of_string "01")) 2.
Definition close_s1 : @state Sim.host :=
  state_of (get_uint32 close_entry) close_entry.
Definition close_s2 : @state Sim.host :=
  state_of (get_handle close_s1) close_s1.
Definition close_result : sysret * Sim.world :=
  Sim.sim_sys (SYS_close 3) (world close_s2).

Definition close_free_entry : @state Sim.host :=
  handler_entry fs_one_file (open_close_session (bytes_of_string "07")) 2.
Definition close_free_s1 : @state Sim.host :=
  state_of (get_uint32 close_free_entry) close_free_entry.
Definition close_free_s2 : @state Sim.host :=
  state_of (get_handle close_free_s1) close_free_s1.

(** The simulated server about to dispatch a packet: the input buffer
    holds [bytes], the output buffer is empty, and [init] tells whether
    INIT has been seen. *)
Definition sim_serving (init : bool) (bytes : list Z) : @state Sim.host :=
  mk_state (buff_holding bytes) empty_buff init
    (repeat handle_zero (Z.to_nat MAX_HANDLES)) (sim_world [] []).

(** The state after the opcode, and after the four bytes that follow
    it. *)
Definition sim_dispatched (init : bool) (bytes : list Z)
  : @state Sim.host :=
  state_of (get_byte (sim_serving init bytes)) (sim_serving init bytes).
Definition sim_id_read (init : bool) (bytes : list Z) : @state Sim.host :=
  state_of (get_uint32 (sim_dispatched init bytes))
    (sim_dispatched init bytes).

(** The mode [sftp_mkdir] gives to the host's [mkdir]. *)
Definition mkdir_mode (attr : attrs_t) : Z :=
  if flag_set (flags attr) SSH_FILEXFER_ATTR_PERMISSIONS
  then Z.land (permissions attr) PERM_MASK else DEFAULT_DIR_PERM.

(** Requests made of an id and one path, of two paths, and of a path and
    attributes. *)
Definition req_path (opcode id : Z) (path : list Z) : list Z :=
  [opcode] ++ be32 id ++ string_bytes path.
Definition req_two_paths (opcode id : Z) (first second : list Z)
  : list Z :=
  [opcode] ++ be32 id ++ string_bytes first ++ string_bytes second.
Definition req_path_attrs (opcode id : Z) (path : list Z) (a : attrs_t)
  : list Z :=
  [opcode] ++ be32 id ++ string_bytes path ++ attrs_bytes a.

(** The simulated server, after INIT, entering the handler of [request]
    on the file system [files]: the opcode has been consumed. *)
Definition sim_handling (files : list (list Z * Sim.node))
    (request : list Z) : @state Sim.host :=
  let s := mk_state (buff_holding request) empty_buff true
             (repeat handle_zero (Z.to_nat MAX_HANDLES))
             (sim_world files []) in
  state_of (get_byte s) s.

(** The state [m] leaves. *)
Definition past {A} (m : @M Sim.host A) (s : @state Sim.host)
  : @state Sim.host :=
  state_of (m s) s.

Definition new_dir : list Z := bytes_of_string "/new".
Definition fs_empty_dir : list (list Z * Sim.node) := [(dir_d, Sim.Dir [])].

(** OPEN of "/f" for reading. *)
Definition open_f_entry : @state Sim.host :=
  sim_handling fs_one_file (req_open 1 file_f SSH_FXF_READ attrs_zero).
Definition open_f_s1 : @state Sim.host := past get_uint32 open_f_entry.
Definition open_f_s2 : @state Sim.host := past get_string open_f_s1.
Definition open_f_s3 : @state Sim.host := past get_uint32 open_f_s2.
Definition open_f_s4 : @state Sim.host := past get_attrs open_f_s3.
Definition open_f_result : sysret * Sim.world :=
  Sim.sim_sys (SYS_open file_f 0 438) (world open_f_s4).

(** OPENDIR of the empty directory "/d". *)
Definition opendir_d_entry : @state Sim.host :=
  sim_handling fs_empty_dir (req_opendir 1 dir_d).
Definition opendir_d_s1 : @state Sim.host := past get_uint32 opendir_d_entry.
Definition opendir_d_s2 : @state Sim.host := past get_string opendir_d_s1.
Definition opendir_d_open : sysret * Sim.world :=
  Sim.sim_sys (SYS_open_dir dir_d 0) (world opendir_d_s2).
Definition opendir_d_stream : sysret * Sim.world :=
  Sim.sim_sys (SYS_fdopendir 3) (snd opendir_d_open).

(** MKDIR of "/new" with permissions 04755 (2541). *)
Definition attrs_setuid : attrs_t :=
  mk_attrs SSH_FILEXFER_ATTR_PERMISSIONS 2541 0 0 0 0 0.
Definition mkdir_entry : @state Sim.host :=
  sim_handling fs_one_file
    (req_path_attrs SSH_FXP_MKDIR 1 new_dir attrs_setuid).
Definition mkdir_s1 : @state Sim.host := past get_uint32 mkdir_entry.
Definition mkdir_s2 : @state Sim.host := past get_string mkdir_s1.
Definition mkdir_s3 : @state Sim.host := past get_attrs mkdir_s2.
Definition mkdir_result : sysret * Sim.world :=
  Sim.sim_sys (SYS_mkdir new_dir 493) (world mkdir_s3).

(** REMOVE of "/f". *)
Definition remove_entry : @state Sim.host :=
  sim_handling fs_one_file (req_path SSH_FXP_REMOVE 1 file_f).
Definition remove_s1 : @state Sim.host := past get_uint32 remove_entry.
Definition remove_s2 : @state Sim.host := past get_string remove_s1.

(** SYMLINK with the strings "/f" and "/new", in that order. *)
Definition symlink_entry : @state Sim.host :=
  sim_handling fs_one_file
    (req_two_paths SSH_FXP_SYMLINK 1 file_f new_dir).
Definition symlink_s1 : @state Sim.host := past get_uint32 symlink_entry.
Definition symlink_s2 : @state Sim.host := past get_string symlink_s1.
Definition symlink_s3 : @state Sim.host := past get_string symlink_s2.

(** One optional step of SETSTAT, from the host in [w] to the host in
    [w']: the step is [applied] when its flag is clear, which leaves the
    host alone, or when the call [c] is made and does not fail; it is
    [refused] when its flag is set and the call fails. *)
Definition applied {H : Host} (flagged : bool) (c : syscall)
    (w w' : World) : Prop :=
  if flagged then exists r, sys c w = (r, w') /\ 0 <= ret_val r
  else w' = w.
Definition refused {H : Host} (flagged : bool) (c : syscall)
    (w w' : World) : Prop :=
  flagged = true /\ exists r, sys c w = (r, w') /\ ret_val r < 0.

(** SETSTAT of "/f" with times and owner, and no permissions. *)
Definition attrs_times_owner : attrs_t :=
  mk_attrs (Z.lor SSH_FILEXFER_ATTR_UIDGID SSH_FILEXFER_ATTR_ACMODTIME)
    0 0 1000 1000 5 6.
Definition setstat_entry : @state Sim.host :=
  sim_handling fs_one_file
    (req_path_attrs SSH_FXP_SETSTAT 1 file_f attrs_times_owner).
Definition setstat_s1 : @state Sim.host := past get_uint32 setstat_entry.
Definition setstat_s2 : @state Sim.host := past get_string setstat_s1.
Definition setstat_s3 : @state Sim.host := past get_attrs setstat_s2.
Definition setstat_result : sysret * Sim.world :=
  Sim.sim_sys (SYS_utimes file_f 5 6) (world setstat_s3).

(** STAT and REALPATH of "/f". *)
Definition stat_entry : @state Sim.host :=
  sim_handling fs_one_file (req_path SSH_FXP_STAT 1 file_f).
Definition stat_s1 : @state Sim.host := past get_uint32 stat_entry.
Definition stat_s2 : @state Sim.host := past get_string stat_s1.
Definition stat_result : sysret * Sim.world :=
  Sim.sim_sys (SYS_stat file_f) (world stat_s2).
Definition realpath_entry : @state Sim.host :=
  sim_handling fs_one_file (req_path SSH_FXP_REALPATH 1 file_f).
Definition realpath_s1 : @state Sim.host := past get_uint32 realpath_entry.
Definition realpath_s2 : @state Sim.host := past get_string realpath_s1.
Definition realpath_result : sysret * Sim.world :=
  Sim.sim_sys (SYS_realpath file_f) (world realpath_s2).

(** READDIR on the handle of the empty directory "/d". *)
Definition readdir_end_entry : @state Sim.host :=
  handler_entry fs_empty_dir opendir_readdir_session 2.
Definition readdir_end_s1 : @state Sim.host :=
  past get_uint32 readdir_end_entry.
Definition readdir_end_s2 : @state Sim.host := past get_handle readdir_end_s1.
Definition readdir_end_tell : sysret * Sim.world :=
  Sim.sim_sys (SYS_telldir 4099) (world readdir_end_s2).
Definition readdir_end_read : sysret * Sim.world :=
  Sim.sim_sys (SYS_readdir 4099) (snd readdir_end_tell).

(** [p_handle] is null, or the slot behind it is not in use as a file. *)
Definition not_a_file (hs : list fxp_handle_t) (p_handle : option nat)
  : Prop :=
  match p_handle with
  | Some i => use (slot hs i) <> HANDLE_FILE
  | None => True
  end.

(** The cursor [main] saves before the handler runs: the start of the
    output buffer. *)
Definition frame_start : buff_save_t := mk_save MAX_PACKET 0.

(** The server started with nothing on standard input, and with a frame
    that announces 40000 bytes. *)
Definition idle_start : @state Sim.host := sim_start [] [].
Definition idle_select : sysret * Sim.world :=
  Sim.sim_sys SYS_select_stdin (world idle_start).
Definition idle_read : sysret * Sim.world :=
  Sim.sim_sys (SYS_read_stdin 4) (snd idle_select).
Definition oversized_start : @state Sim.host := sim_start [] (be32 40000).
Definition oversized_select : sysret * Sim.world :=
  Sim.sim_sys SYS_select_stdin (world oversized_start).
Definition oversized_read : sysret * Sim.world :=
  Sim.sim_sys (SYS_read_stdin 4) (snd oversized_select).

(** The server after the handler of INIT has run, before the response is
    sent. *)
Definition init_handled : @state Sim.host :=
  past (bind (main_receive 1) (fun _ => sftp_in 0))
    (sim_start [] (frame (req_init 3))).
Definition init_select : sysret * Sim.world :=
  Sim.sim_sys SYS_select_stdout (world init_handled).
Definition init_written : sysret * Sim.world :=
  Sim.sim_sys
    (SYS_write_stdout
       (be32 (p_data (obuff init_handled) - 4)
        ++ load_bytes 4 (p_data (obuff init_handled) - 4)
             (data (obuff init_handled))))
    (snd init_select).

(** OPENDIR of "/d", answered with handle "01", then READ on that
    handle. *)
Definition read_dir_session : list Z :=
  frame (req_init 3)
  ++ frame (req_opendir 1 dir_d)
  ++ frame (req_read 2 (bytes_of_string "01") 0 10).
Definition read_dir_entry : @state Sim.host :=
  handler_entry fs_empty_dir read_dir_session 2.
Definition read_dir_s1 : @state Sim.host := past get_uint32 read_dir_entry.
Definition read_dir_s2 : @state Sim.host := past get_handle read_dir_s1.
Definition read_dir_s3 : @state Sim.host := past get_uint64 read_dir_s2.
Definition read_dir_s4 : @state Sim.host := past get_uint32 read_dir_s3.

(** The state READDIR leaves on the handle of the empty directory. *)
Definition readdir_end_done : @state Sim.host :=
  past (sftp_readdir 1) readdir_end_entry.

(** OPEN of "/f", answered with handle "01", then READ on it at offset
    2^63, which is negative as an [off_t]. *)
Definition read_far_session : list Z :=
  frame (req_init 3)
  ++ frame (req_open 1 file_f SSH_FXF_READ attrs_zero)
  ++ frame (req_read 2 (bytes_of_string "01") (2 ^ 63) 10).
Definition read_far_entry : @state Sim.host :=
  handler_entry fs_one_file read_far_session 2.
Definition read_far_s1 : @state Sim.host := past get_uint32 read_far_entry.
Definition read_far_s2 : @state Sim.host := past get_handle read_far_s1.
Definition read_far_s3 : @state Sim.host := past get_uint64 read_far_s2.
Definition read_far_s4 : @state Sim.host := past get_uint32 read_far_s3.
Definition read_far_seek : sysret * Sim.world :=
  Sim.sim_sys (SYS_lseek 3 (to_off_t (2 ^ 63))) (world read_far_s4).
(** * Properties *)

(** ** Bits and bytes *)

Lemma testbit_byte_field (d k n : Z) :
  0 <= k -> 0 <= n ->
  Z.testbit (Z.shiftl (uint8 (Z.shiftr d k)) k) n
  = (k <=? n) && (n <? k + 8) && Z.testbit d n.
Proof.
  intros Hk Hn. unfold uint8.
  rewrite Z.shiftl_spec by lia.
  rewrite Z.testbit_mod_pow2 by lia.
  destruct (Z.leb_spec k n) as [Hle | Hlt].
  - rewrite Z.shiftr_spec by lia.
    replace (n - k + k) with n by lia.
    replace (n - k <? 8) with (n <? k + 8); [reflexivity |].
    destruct (Z.ltb_spec n (k + 8)), (Z.ltb_spec (n - k) 8); auto; lia.
  - rewrite (Z.testbit_neg_r _ (n - k)) by lia.
    now rewrite andb_false_r.
Qed.

Lemma uint8_shiftr_uint32 (d k : Z) :
  0 <= k -> k + 8 <= 32 ->
  uint8 (Z.shiftr (uint32 d) k) = uint8 (Z.shiftr d k).
Proof.
  intros Hk Hk8. unfold uint8, uint32.
  apply Z.bits_inj'. intros n Hn.
  rewrite !Z.testbit_mod_pow2 by lia.
  rewrite !Z.shiftr_spec by lia.
  rewrite Z.testbit_mod_pow2 by lia.
  destruct (Z.ltb_spec n 8); simpl; auto.
  destruct (Z.ltb_spec (n + k) 32); simpl; auto. lia.
Qed.

Lemma uint8_uint32 (d : Z) : uint8 (uint32 d) = uint8 d.
Proof.
  rewrite <- (Z.shiftr_0_r (uint32 d)), uint8_shiftr_uint32 by lia.
  now rewrite Z.shiftr_0_r.
Qed.

Lemma be32_uint32 (d : Z) : be32 (uint32 d) = be32 d.
Proof.
  unfold be32.
  rewrite !uint8_shiftr_uint32 by lia.
  now rewrite uint8_uint32.
Qed.

(** Reading four bytes big-endian undoes [be32]. *)
Lemma be32_decode (d : Z) :
  Z.lor (Z.lor (Z.lor (Z.shiftl (uint8 (Z.shiftr d 24)) 24)
                      (Z.shiftl (uint8 (Z.shiftr d 16)) 16))
               (Z.shiftl (uint8 (Z.shiftr d 8)) 8))
        (uint8 d)
  = uint32 d.
Proof.
  assert (E : uint8 d = Z.shiftl (uint8 (Z.shiftr d 0)) 0)
    by now rewrite Z.shiftr_0_r, Z.shiftl_0_r.
  rewrite E. clear E.
  apply Z.bits_inj'. intros n Hn.
  rewrite !Z.lor_spec, !testbit_byte_field by lia.
  unfold uint32. rewrite Z.testbit_mod_pow2 by lia.
  destruct (Z.leb_spec 24 n), (Z.leb_spec 16 n), (Z.leb_spec 8 n),
    (Z.leb_spec 0 n), (Z.ltb_spec n (24 + 8)), (Z.ltb_spec n (16 + 8)),
    (Z.ltb_spec n (8 + 8)), (Z.ltb_spec n (0 + 8)), (Z.ltb_spec n 32);
    simpl; try lia; now rewrite ?orb_false_r.
Qed.

(** A 64-bit value is recovered from its two halves. *)
Lemma uint64_halves (d : Z) :
  Z.lor (uint64 (Z.shiftl (uint32 (Z.shiftr d 32)) 32)) (uint32 d)
  = uint64 d.
Proof.
  unfold uint64, uint32.
  apply Z.bits_inj'. intros n Hn.
  rewrite Z.lor_spec, !Z.testbit_mod_pow2 by lia.
  rewrite Z.shiftl_spec by lia.
  rewrite Z.testbit_mod_pow2 by lia.
  destruct (Z.ltb_spec n 32).
  - rewrite (Z.testbit_neg_r _ (n - 32)) by lia.
    rewrite andb_false_r. simpl.
    destruct (Z.ltb_spec n 64); simpl; auto. lia.
  - rewrite Z.shiftr_spec by lia.
    replace (n - 32 + 32) with n by lia.
    destruct (Z.ltb_spec n 64), (Z.ltb_spec (n - 32) 32); simpl;
      try lia; now rewrite ?orb_false_r.
Qed.

Lemma uint32_small (x : Z) : 0 <= x < 2 ^ 32 -> uint32 x = x.
Proof. intros. unfold uint32. now apply Z.mod_small. Qed.

Lemma uint64_small (x : Z) : 0 <= x < 2 ^ 64 -> uint64 x = x.
Proof. intros. unfold uint64. now apply Z.mod_small. Qed.

Lemma uint32_idem (x : Z) : uint32 (uint32 x) = uint32 x.
Proof. unfold uint32. apply Z.mod_mod. lia. Qed.

(** ** Lists as arrays *)

Lemma zlen_app {A} (a b : list A) : zlen (a ++ b) = zlen a + zlen b.
Proof. unfold zlen. rewrite length_app. lia. Qed.

Lemma zlen_nonneg {A} (a : list A) : 0 <= zlen a.
Proof. unfold zlen. lia. Qed.

Lemma firstn_exact {A} (a b : list A) (k : nat) :
  List.length a = k -> firstn k (a ++ b) = a.
Proof.
  intros <-. rewrite firstn_app, Nat.sub_diag, firstn_all. simpl.
  apply app_nil_r.
Qed.

Lemma skipn_past {A} (a b : list A) (k m : nat) :
  List.length a = k -> skipn (k + m) (a ++ b) = skipn m b.
Proof.
  intros <-. rewrite skipn_app.
  rewrite skipn_all2 by lia. simpl. f_equal. lia.
Qed.

Lemma store_bytes_zlen (p : Z) (bs l : list Z) :
  0 <= p -> p + zlen bs <= zlen l -> zlen (store_bytes p bs l) = zlen l.
Proof.
  unfold store_bytes, zlen. intros Hp Hle.
  rewrite !length_app, length_firstn, length_skipn. lia.
Qed.

Lemma store_bytes_app (p : Z) (b1 b2 l : list Z) :
  0 <= p -> p + zlen b1 <= zlen l ->
  store_bytes (p + zlen b1) b2 (store_bytes p b1 l)
  = store_bytes p (b1 ++ b2) l.
Proof.
  unfold store_bytes, zlen. intros Hp Hle.
  set (n := Z.to_nat p).
  assert (Hn : List.length (firstn n l) = n)
    by (rewrite length_firstn; lia).
  replace (Z.to_nat (p + Z.of_nat (List.length b1)))
    with (n + List.length b1)%nat by lia.
  rewrite (app_assoc (firstn n l) b1).
  rewrite firstn_exact by (rewrite length_app; lia).
  replace (n + List.length b1 + List.length b2)%nat
    with ((n + List.length b1) + List.length b2)%nat by lia.
  rewrite skipn_past by (rewrite length_app; lia).
  rewrite skipn_skipn, length_app, <- !app_assoc.
  do 4 f_equal. lia.
Qed.

(** Bytes stored just after a header that is written later. *)
Lemma store_bytes_under (p : Z) (hdr bs l : list Z) :
  0 <= p -> p + zlen hdr + zlen bs <= zlen l ->
  store_bytes p hdr (store_bytes (p + zlen hdr) bs l)
  = store_bytes p (hdr ++ bs) l.
Proof.
  unfold store_bytes, zlen. intros Hp Hle.
  set (n := Z.to_nat p).
  replace (Z.to_nat (p + Z.of_nat (List.length hdr)))
    with (n + List.length hdr)%nat by lia.
  assert (Hn : List.length (firstn (n + List.length hdr) l)
               = (n + List.length hdr)%nat)
    by (rewrite length_firstn; lia).
  rewrite firstn_app, firstn_firstn, Hn.
  replace (Nat.min n (n + List.length hdr)) with n by lia.
  replace (n - (n + List.length hdr))%nat with O by lia.
  rewrite firstn_0, app_nil_r.
  rewrite skipn_app, Hn, Nat.sub_diag, skipn_0.
  rewrite (skipn_all2 (firstn (n + List.length hdr) l)) by lia.
  rewrite length_app, <- app_assoc. simpl.
  do 4 f_equal. lia.
Qed.

Lemma firstn_store_bytes (p : Z) (bs l : list Z) :
  0 <= p -> p <= zlen l ->
  firstn (Z.to_nat (p + zlen bs)) (store_bytes p bs l)
  = firstn (Z.to_nat p) l ++ bs.
Proof.
  unfold store_bytes, zlen. intros Hp Hle.
  rewrite app_assoc. apply firstn_exact.
  rewrite length_app, length_firstn. lia.
Qed.

(** ** The codec on buffers *)

Section Codec.

Context {P : Platform} {H : Host}.

Lemma with_obuff_twice (s : state) (a b : buff_t) :
  with_obuff (with_obuff s a) b = with_obuff s b.
Proof. reflexivity. Qed.

Lemma with_ibuff_twice (s : state) (a b : buff_t) :
  with_ibuff (with_ibuff s a) b = with_ibuff s b.
Proof. reflexivity. Qed.

Lemma bind_Ret {A B} (m : M A) (f : A -> M B) (s s' : state) (a : A) :
  m s = Ret a s' -> bind m f s = f a s'.
Proof. intros E. unfold bind. now rewrite E. Qed.

Lemma buff_put_app (b1 b2 : list Z) (b : buff_t) :
  wf_buff b -> zlen b1 <= count b ->
  buff_put b2 (buff_put b1 b) = buff_put (b1 ++ b2) b.
Proof.
  intros (Hp & Hc & Hle & _) Hroom. unfold buff_put. simpl.
  rewrite store_bytes_app by lia.
  rewrite zlen_app. f_equal; lia.
Qed.

Lemma wf_buff_put (bs : list Z) (b : buff_t) :
  wf_buff b -> zlen bs <= count b -> wf_buff (buff_put bs b).
Proof.
  intros (Hp & Hc & Hle & Hsz) Hroom. unfold wf_buff, buff_put. simpl.
  pose proof (zlen_nonneg bs).
  rewrite store_bytes_zlen by lia. lia.
Qed.

Lemma buff_put_nil (b : buff_t) : buff_put [] b = b.
Proof.
  destruct b as [c p d]. unfold buff_put, store_bytes, zlen.
  cbn [List.length count p_data data app].
  change (Z.of_nat 0) with 0.
  now rewrite Z.sub_0_r, Z.add_0_r, Nat.add_0_r, firstn_skipn.
Qed.

Lemma written_buff_put (bs : list Z) (b : buff_t) :
  wf_buff b -> zlen bs <= count b ->
  written (buff_put bs b) = written b ++ bs.
Proof.
  intros (Hp & Hc & Hle & _) Hroom. unfold written, buff_put. simpl.
  apply firstn_store_bytes; lia.
Qed.

Lemma emits_ret : emits (ret tt) [].
Proof.
  intros s _ _. unfold ret. rewrite buff_put_nil. now destruct s.
Qed.

Lemma emits_bind (m1 m2 : M unit) (b1 b2 : list Z) :
  emits m1 b1 -> emits m2 b2 -> emits (m1 ;; m2) (b1 ++ b2).
Proof.
  intros E1 E2 s Hwf Hroom. rewrite zlen_app in Hroom.
  pose proof (zlen_nonneg b1). pose proof (zlen_nonneg b2).
  rewrite (bind_Ret _ _ _ _ _ (E1 s Hwf ltac:(lia))).
  rewrite E2.
  - rewrite with_obuff_twice. simpl. now rewrite buff_put_app by (auto; lia).
  - simpl. apply wf_buff_put; auto; lia.
  - simpl. lia.
Qed.

Lemma emits_put_byte (d : Z) : emits (put_byte d) [uint8 d].
Proof.
  intros s _ Hroom. change (zlen [uint8 d]) with 1 in Hroom.
  unfold put_byte, bind, get_obuff, assert.
  destruct (Z.gtb_spec (count (obuff s)) 0); [reflexivity | lia].
Qed.

Lemma emits_put_uint32 (d : Z) : emits (put_uint32 d) (be32 d).
Proof.
  intros s _ Hroom. change (zlen (be32 d)) with 4 in Hroom.
  unfold put_uint32, bind, get_obuff, assert.
  destruct (Z.geb_spec (count (obuff s)) 4); [| lia].
  unfold set_obuff. rewrite be32_uint32. reflexivity.
Qed.

Lemma emits_put_uint64 (d : Z) : emits (put_uint64 d) (be64 d).
Proof.
  unfold put_uint64, be64.
  rewrite <- (be32_uint32 (Z.shiftr d 32)), <- (be32_uint32 d).
  apply emits_bind; apply emits_put_uint32.
Qed.

Lemma zlen_be32 (d : Z) : zlen (be32 d) = 4.
Proof. reflexivity. Qed.

Lemma emits_put_cstring (sz_str : list Z) :
  emits (put_cstring sz_str) (string_bytes (c_str sz_str)).
Proof.
  intros s Hwf Hroom. unfold string_bytes in *.
  rewrite zlen_app in Hroom. change (zlen (be32 _)) with 4 in Hroom.
  pose proof (zlen_nonneg (c_str sz_str)).
  unfold put_cstring.
  rewrite (bind_Ret _ _ _ _ _
             (emits_put_uint32 _ s Hwf ltac:(rewrite zlen_be32; lia))).
  unfold bind at 1. unfold get_obuff.
  unfold bind at 1. unfold assert.
  cbn [obuff with_obuff buff_put count].
  rewrite zlen_be32.
  destruct (Z.leb_spec (zlen (c_str sz_str)) (count (obuff s) - 4)); [| lia].
  rewrite <- buff_put_app by (auto; rewrite zlen_be32; lia).
  reflexivity.
Qed.

Lemma c_str_status_message (st : Z) :
  c_str (bytes_of_string (status_message st))
  = bytes_of_string (status_message st).
Proof.
  unfold status_message.
  repeat match goal with |- context [if ?b then _ else _] => destruct b end;
    reflexivity.
Qed.

Lemma zlen_status_message (st : Z) :
  zlen (bytes_of_string (status_message st)) <= 21.
Proof.
  unfold status_message.
  repeat match goal with |- context [if ?b then _ else _] => destruct b end;
    vm_compute; discriminate.
Qed.

Lemma zlen_status_bytes (id st : Z) : zlen (status_bytes id st) <= 40.
Proof.
  unfold status_bytes, string_bytes. rewrite !zlen_app.
  pose proof (zlen_status_message (uint32 st)).
  change (zlen (be32 id)) with 4. change (zlen (be32 st)) with 4.
  change (zlen (be32 (zlen (bytes_of_string (status_message (uint32 st))))))
    with 4.
  change (zlen [SSH_FXP_STATUS]) with 1.
  change (zlen (be32 (zlen (bytes_of_string "en")))) with 4.
  change (zlen (bytes_of_string "en")) with 2.
  lia.
Qed.

Lemma emits_put_status (id st : Z) :
  emits (put_status id st) (status_bytes id st).
Proof.
  unfold put_status, status_bytes.
  apply (emits_bind _ _ [SSH_FXP_STATUS]); [apply (emits_put_byte 101) |].
  apply emits_bind; [apply emits_put_uint32 |].
  apply emits_bind; [apply emits_put_uint32 |].
  apply emits_bind.
  - pose proof (emits_put_cstring
                  (bytes_of_string (status_message (uint32 st)))) as E.
    now rewrite c_str_status_message in E.
  - apply (emits_put_cstring (bytes_of_string "en")).
Qed.

Lemma emits_if (b : bool) (m : M unit) (bs : list Z) :
  emits m bs -> emits (if b then m else ret tt) (if b then bs else []).
Proof. destruct b; auto using emits_ret. Qed.

Lemma emits_put_attrs (a : attrs_t) : emits (put_attrs a) (attrs_bytes a).
Proof.
  unfold put_attrs, attrs_bytes.
  apply emits_bind; [apply emits_put_uint32 |].
  apply emits_bind; [apply emits_if, emits_put_uint64 |].
  apply emits_bind;
    [apply emits_if, emits_bind; apply emits_put_uint32 |].
  apply emits_bind; [apply emits_if, emits_put_uint32 |].
  apply emits_if, emits_bind; apply emits_put_uint32.
Qed.

End Codec.

(** ** POSIX <-> SFTP conversion *)

Section Conversions.

Context {P : Platform}.

Ltac split_nodup :=
  repeat match goal with
  | ND : NoDup (_ :: _) |- _ =>
      let Hnotin := fresh "Hnotin" in
      apply NoDup_cons_iff in ND; destruct ND as [Hnotin ND];
      cbn [In] in Hnotin
  end;
  repeat match goal with
  | Hn : ~ (_ \/ _) |- _ =>
      let Hne := fresh "Hne" in
      apply Decidable.not_or in Hn; destruct Hn as [Hne Hn]
  end.

Ltac eqb_cases :=
  repeat match goal with
  | |- context [?a =? ?b] =>
      destruct (Z.eqb_spec a b); try congruence; cbn [orb]
  end.

(** C5.  The errno-to-status mapping: 0 gives OK; ENOENT, ENOTDIR, EBADF
    and ELOOP give NO_SUCH_FILE; EPERM, EACCES and EFAULT give
    PERMISSION_DENIED; ENAMETOOLONG and EINVAL give BAD_MESSAGE; every
    other value gives FAILURE.  The nine errno constants are distinct and
    non-zero, as the labels of a C [switch] must be. *)
Theorem errno_to_sftp_mapping :
  NoDup [0; ENOENT; ENOTDIR; EBADF; ELOOP; EPERM; EACCES; EFAULT;
         ENAMETOOLONG; EINVAL] ->
  errno_to_sftp 0 = SSH_FX_OK /\
  (forall e, In e [ENOENT; ENOTDIR; EBADF; ELOOP] ->
             errno_to_sftp e = SSH_FX_NO_SUCH_FILE) /\
  (forall e, In e [EPERM; EACCES; EFAULT] ->
             errno_to_sftp e = SSH_FX_PERMISSION_DENIED) /\
  (forall e, In e [ENAMETOOLONG; EINVAL] ->
             errno_to_sftp e = SSH_FX_BAD_MESSAGE) /\
  (forall e, ~ In e [0; ENOENT; ENOTDIR; EBADF; ELOOP; EPERM; EACCES;
                     EFAULT; ENAMETOOLONG; EINVAL] ->
             errno_to_sftp e = SSH_FX_FAILURE) /\
  SSH_FX_OK = 0 /\ SSH_FX_NO_SUCH_FILE = 2 /\
  SSH_FX_PERMISSION_DENIED = 3 /\ SSH_FX_BAD_MESSAGE = 5 /\
  SSH_FX_FAILURE = 4.
Proof.
  intros ND. split_nodup.
  repeat split; try reflexivity.
  - intros e He. cbn [In] in He. unfold errno_to_sftp.
    repeat destruct He as [<- | He]; try contradiction;
      eqb_cases; reflexivity.
  - intros e He. cbn [In] in He. unfold errno_to_sftp.
    repeat destruct He as [<- | He]; try contradiction;
      eqb_cases; reflexivity.
  - intros e He. cbn [In] in He. unfold errno_to_sftp.
    repeat destruct He as [<- | He]; try contradiction;
      eqb_cases; reflexivity.
  - intros e He. cbn [In] in He. unfold errno_to_sftp.
    repeat match goal with
    | Hn : ~ (_ \/ _) |- _ =>
        let Hne := fresh "Hne" in
        apply Decidable.not_or in Hn; destruct Hn as [Hne Hn]
    end.
    eqb_cases; reflexivity.
Qed.

Lemma flag_set_clear (x bit m : Z) :
  Z.land (Z.lnot bit) m = m ->
  flag_set (Z.land x (Z.lnot bit)) m = flag_set x m.
Proof.
  intros E. unfold flag_set. now rewrite <- Z.land_assoc, E.
Qed.

Lemma flag_set_raise (x bit m : Z) :
  Z.land bit m = 0 -> flag_set (Z.lor x bit) m = flag_set x m.
Proof.
  intros E. unfold flag_set.
  now rewrite Z.land_lor_distr_l, E, Z.lor_0_r.
Qed.

(** C10.  The APPEND bit of [pflags] has no effect on the flags given to
    [open]: clearing it (or setting it) leaves the result unchanged, and
    when [O_APPEND] shares no bit with the six flags the translation can
    produce, [O_APPEND] is not in the result. *)
Theorem pflags_append_ignored (pflags O_APPEND : Z) :
  Z.land O_RDONLY O_APPEND = 0 -> Z.land O_WRONLY O_APPEND = 0 ->
  Z.land O_RDWR O_APPEND = 0 -> Z.land O_CREAT O_APPEND = 0 ->
  Z.land O_TRUNC O_APPEND = 0 -> Z.land O_EXCL O_APPEND = 0 ->
  pflags_to_unix (Z.land pflags (Z.lnot SSH_FXF_APPEND))
    = pflags_to_unix pflags /\
  pflags_to_unix (Z.lor pflags SSH_FXF_APPEND) = pflags_to_unix pflags /\
  Z.land (pflags_to_unix pflags) O_APPEND = 0.
Proof.
  intros Hrd Hwr Hrw Hcr Htr Hex. repeat split.
  - unfold pflags_to_unix.
    now rewrite !flag_set_clear by reflexivity.
  - unfold pflags_to_unix.
    now rewrite !flag_set_raise by reflexivity.
  - unfold pflags_to_unix.
    repeat match goal with
    | |- context [if ?b then _ else _] => destruct b
    end;
      rewrite ?Z.land_lor_distr_l, ?Hrd, ?Hwr, ?Hrw, ?Hcr, ?Htr, ?Hex,
        ?Z.land_0_l; reflexivity.
Qed.

End Conversions.

Lemma linux_errno_distinct :
  NoDup [0; @ENOENT linux; @ENOTDIR linux; @EBADF linux; @ELOOP linux;
         @EPERM linux; @EACCES linux; @EFAULT linux; @ENAMETOOLONG linux;
         @EINVAL linux].
Proof.
  repeat (apply NoDup_cons; [cbn; intuition discriminate |]).
  apply NoDup_nil.
Qed.

(** On Linux: ELOOP (40) is NO_SUCH_FILE, EACCES (13) is
    PERMISSION_DENIED, EINVAL (22) is BAD_MESSAGE, and EIO (5) and EEXIST
    (17), which the switch does not list, are FAILURE. *)
Lemma errno_to_sftp_mapping_linux :
  NoDup [0; @ENOENT linux; @ENOTDIR linux; @EBADF linux; @ELOOP linux;
         @EPERM linux; @EACCES linux; @EFAULT linux; @ENAMETOOLONG linux;
         @EINVAL linux] /\
  @errno_to_sftp linux 40 = 2 /\ @errno_to_sftp linux 13 = 3 /\
  @errno_to_sftp linux 22 = 5 /\ @errno_to_sftp linux 5 = 4 /\
  @errno_to_sftp linux 17 = 4.
Proof.
  split; [exact linux_errno_distinct |].
  destruct (@errno_to_sftp_mapping linux linux_errno_distinct)
    as (_ & Hnsf & Hperm & Hbad & Hfail & _).
  refine (conj _ (conj _ (conj _ (conj _ _)))).
  - apply Hnsf. cbn. tauto.
  - apply Hperm. cbn. tauto.
  - apply Hbad. cbn. tauto.
  - apply Hfail. cbn. intuition discriminate.
  - apply Hfail. cbn. intuition discriminate.
Defined.

(** On Linux, with READ|WRITE|APPEND|CREAT (0x0F) against O_APPEND =
    02000. *)
Lemma pflags_append_ignored_linux :
  @pflags_to_unix linux (Z.land 15 (Z.lnot SSH_FXF_APPEND))
    = @pflags_to_unix linux 15 /\
  @pflags_to_unix linux (Z.lor 15 SSH_FXF_APPEND) = @pflags_to_unix linux 15 /\
  Z.land (@pflags_to_unix linux 15) linux_O_APPEND = 0.
Proof.
  apply (@pflags_append_ignored linux 15 linux_O_APPEND); reflexivity.
Defined.

(** ** Sessions *)

(** C8.  INIT is answered with VERSION.  On any host, once the frame
    payload [01 00 00 00 03] is in the input buffer and the output buffer
    is set up as [main] does, the dispatcher sets [have_init] and leaves
    [02 00 00 00 03] after the four bytes kept for the length (whatever
    the buffers held before); and on the
    simulated host the whole program, fed [00 00 00 05 01 00 00 00 03],
    writes exactly [00 00 00 05 02 00 00 00 03] before it exits at the end
    of its input, with [have_init] set. *)
Theorem init_answered_with_version :
  (forall (P : Platform) (H : Host) (w : World) (hs : list fxp_handle_t)
          (fuel : nat) (b1 b2 b3 b4 b5 : Z) (junk_in junk_out : list Z),
     exists s',
       sftp_in fuel
         (mk_state (mk_buff 5 0 ([1; 0; 0; 0; 3] ++ junk_in))
                   (mk_buff (MAX_PACKET - 4) 4
                      ([0; 0; 0; 0; b1; b2; b3; b4; b5] ++ junk_out))
                   false hs w)
       = Ret tt s' /\
       have_init s' = true /\
       written (obuff s') = [0; 0; 0; 0; 2; 0; 0; 0; 3] /\
       count (obuff s') = MAX_PACKET - 9) /\
  sim_outcome (sim_main 2 1 0 (sim_start [] [0; 0; 0; 5; 1; 0; 0; 0; 3]))
  = Some (EXIT_SUCCESS, true, [0; 0; 0; 5; 2; 0; 0; 0; 3]).
Proof.
  split; [| vm_compute; reflexivity].
  intros P H w hs fuel b1 b2 b3 b4 b5 junk_in junk_out.
  eexists. split; [reflexivity |].
  split; [reflexivity |]. split; reflexivity.
Qed.

(** C1, at the failing input.  For OPEN with permissions 04755 the mode
    that reaches the host's [open] is 04755 (2541) itself, not 0755 (493):
    [sftp_open] does not apply [PERM_MASK]. *)
Theorem sftp_open_mode_not_masked :
  filter is_open_call
    (calls_made (traced_main 3 1 0 (traced_start [] open_setuid_session)))
  = [SYS_open tmp_x 578 2541] /\
  Z.land 2541 PERM_MASK = 493.
Proof. vm_compute. split; reflexivity. Qed.

(** C4, at the failing input.  With handle "01" open, CLOSE is accepted
    (STATUS OK, not FAILURE) for the handle strings " 1", "+1" and
    "1" followed by a NUL byte: each has length 2 and [strtoul] reads it
    as 1, although it is not made of two digits. *)
Theorem get_handle_accepts_non_digits :
  Forall
    (fun handle =>
       sim_outcome
         (sim_main 4 1 0 (sim_start fs_one_file (open_close_session handle)))
       = Some (EXIT_SUCCESS, true,
               frame [SSH_FXP_VERSION; 0; 0; 0; 3]
               ++ frame (handle_bytes 1 (bytes_of_string "01"))
               ++ frame (status_bytes 2 SSH_FX_OK)))
    [[32; 49]; [43; 49]; [49; 0]].
Proof. repeat constructor. Qed.

(** C3, at the failing input.  READDIR on the FILE handle "01" is not
    refused: the handler goes on to [telldir] and [readdir] with the
    slot's [p_dir], which is the null pointer, and answers with what the
    directory loop leaves, here STATUS(EOF). *)
Theorem sftp_readdir_on_file_handle :
  sim_outcome (sim_main 4 1 2 (sim_start fs_one_file open_readdir_session))
  = Some (EXIT_SUCCESS, true,
          frame [SSH_FXP_VERSION; 0; 0; 0; 3]
          ++ frame (handle_bytes 1 (bytes_of_string "01"))
          ++ frame (status_bytes 2 SSH_FX_EOF)) /\
  filter is_dir_call
    (calls_made
       (traced_main 4 1 2 (traced_start fs_one_file open_readdir_session)))
  = [SYS_telldir 0; SYS_readdir 0].
Proof. vm_compute. split; reflexivity. Qed.

(** ** The directory loop of READDIR *)

Section Readdir.

Context {P : Platform} {H : Host}.

Lemma Ret_state_of {A} (r : result A) (v : A) (d : state) :
  returns r v -> r = Ret v (state_of r d).
Proof. destruct r; simpl; intros E; try contradiction. now subst. Qed.

Lemma readdir_loop_S (fuel p_handle : nat) (cnt : Z) (s : state) :
  readdir_loop (S fuel) p_handle cnt s
  = bind (readdir_body p_handle cnt)
      (fun r => if fst r then readdir_loop fuel p_handle (snd r)
                else ret (snd r)) s.
Proof.
  simpl. unfold bind. destruct (readdir_body p_handle cnt s) as [[b c] s' | | |];
    reflexivity.
Qed.

(** A pass that leaves everything as it found it, with the loop
    condition true, repeats for ever. *)
Lemma readdir_loop_fixed_point (p_handle : nat) (cnt : Z) (s : state) :
  readdir_body p_handle cnt s = Ret (true, cnt) s ->
  forall fuel, readdir_loop fuel p_handle cnt s = OutOfFuel.
Proof.
  intros Hfix fuel. induction fuel as [| fuel IH]; [reflexivity |].
  rewrite readdir_loop_S, (bind_Ret _ _ _ _ _ Hfix). exact IH.
Qed.

Lemma readdir_loop_after_steps (n p_handle : nat) :
  forall (cnt cnt' : Z) (s s' : state),
    readdir_steps n p_handle cnt s = Ret (true, cnt') s' ->
    forall fuel,
      readdir_loop (n + fuel) p_handle cnt s
      = readdir_loop fuel p_handle cnt' s'.
Proof.
  induction n as [| n IH]; intros cnt cnt' s s' Hsteps fuel.
  - simpl in Hsteps. unfold ret in Hsteps. now inversion Hsteps.
  - simpl in Hsteps. unfold bind in Hsteps.
    change (S n + fuel)%nat with (S (n + fuel)).
    rewrite readdir_loop_S. unfold bind.
    destruct (readdir_body p_handle cnt s) as [[again c] s1 | | |];
      try discriminate.
    simpl in *. destruct again; [| discriminate].
    now apply IH.
Qed.

Lemma readdir_loop_within_steps (n p_handle : nat) :
  forall (cnt cnt' : Z) (s s' : state),
    readdir_steps n p_handle cnt s = Ret (true, cnt') s' ->
    forall fuel, (fuel <= n)%nat ->
      readdir_loop fuel p_handle cnt s = OutOfFuel.
Proof.
  induction n as [| n IH]; intros cnt cnt' s s' Hsteps fuel Hle.
  - now replace fuel with O by lia.
  - destruct fuel as [| fuel]; [reflexivity |].
    simpl in Hsteps. unfold bind in Hsteps.
    rewrite readdir_loop_S. unfold bind.
    destruct (readdir_body p_handle cnt s) as [[again c] s1 | | |];
      try discriminate.
    simpl in *. destruct again; [| discriminate].
    apply (IH _ _ _ _ Hsteps). lia.
Qed.

(** If the loop reaches, after some passes, a state that one more pass
    leaves unchanged with the loop condition true, it never ends. *)
Lemma readdir_loop_diverges (n p_handle : nat) (cnt cnt' : Z)
    (s s' : state) :
  readdir_steps n p_handle cnt s = Ret (true, cnt') s' ->
  readdir_body p_handle cnt' s' = Ret (true, cnt') s' ->
  forall fuel, readdir_loop fuel p_handle cnt s = OutOfFuel.
Proof.
  intros Hsteps Hfix fuel.
  destruct (Nat.le_gt_cases fuel n) as [Hle | Hgt].
  - eapply readdir_loop_within_steps; eauto.
  - replace fuel with (n + (fuel - n))%nat by lia.
    rewrite (readdir_loop_after_steps _ _ _ _ _ _ Hsteps).
    now apply readdir_loop_fixed_point.
Qed.

(** The pass of the loop for an entry that does not fit when [count > 0]:
    the directory is rewound, nothing else changes, and the loop condition
    is still true, so the loop goes round again. *)
Lemma readdir_body_rewinds_and_continues (s : state) (p_handle : nat)
    (cnt : Z) (r_tell r_entry r_stat r_seek : sysret) (w1 w2 w3 w4 : World) :
  let h := slot (handles s) p_handle in
  sys (SYS_telldir (p_dir h)) (world s) = (r_tell, w1) ->
  sys (SYS_readdir (p_dir h)) w1 = (r_entry, w2) ->
  ret_val r_entry <> 0 ->
  sys (SYS_fstatat (fd h) (c_str (ret_bytes r_entry))) w2 = (r_stat, w3) ->
  0 <= ret_val r_stat ->
  count (obuff s)
    < (zlen (c_str (ret_bytes r_entry)) + 4) * 2 + MAX_ATTRS_BYTES ->
  cnt > 0 ->
  sys (SYS_seekdir (p_dir h) (ret_val r_tell)) w3 = (r_seek, w4) ->
  readdir_body p_handle cnt s = Ret (true, cnt) (with_world s w4).
Proof.
  intros h Htell Hentry Hnonnull Hstat Hok Hnofit Hcnt Hseek.
  unfold readdir_body, bind, get_handles, call, get_obuff. fold h.
  rewrite Htell. cbn [world]. rewrite Hentry.
  destruct (Z.eqb_spec (ret_val r_entry) 0); [contradiction |].
  cbn [world]. rewrite Hstat.
  destruct (Z.ltb_spec (ret_val r_stat) 0); [lia |].
  cbn [obuff].
  destruct (Z.leb_spec
              ((zlen (c_str (ret_bytes r_entry)) + 4) * 2 + MAX_ATTRS_BYTES)
              (count (obuff s))); [lia |].
  destruct (Z.gtb_spec cnt 0); [| lia].
  cbn [world handles]. rewrite Hseek. reflexivity.
Qed.

Lemma sftp_in_readdir (fuel : nat) (s s' : state) :
  get_byte s = Ret SSH_FXP_READDIR s' -> have_init s' = true ->
  sftp_in fuel s = sftp_readdir fuel s'.
Proof.
  intros Hop Hinit. unfold sftp_in.
  rewrite (bind_Ret _ _ _ _ _ Hop).
  unfold bind at 1. unfold get_have_init. rewrite Hinit. reflexivity.
Qed.

(** [sftp_readdir] on a handle that decodes: the NAME header with a zero
    count is written, and the directory loop is entered. *)
Lemma sftp_readdir_enters_loop (fuel : nat) (s s1 s2 : state) (id : Z)
    (i : nat) :
  get_uint32 s = Ret id s1 ->
  get_handle s1 = Ret (Some i) s2 ->
  wf_buff (obuff s2) -> 9 <= count (obuff s2) ->
  sftp_readdir fuel s
  = bind (readdir_loop fuel i 0)
      (readdir_finish id
         (mk_save (count (obuff s2)) (p_data (obuff s2)))
         (mk_save (count (obuff s2) - 5) (p_data (obuff s2) + 5)))
      (with_obuff s2
         (buff_put ([SSH_FXP_NAME] ++ be32 id ++ be32 0) (obuff s2))).
Proof.
  intros Hid Hh Hwf Hroom. unfold sftp_readdir.
  rewrite (bind_Ret _ _ _ _ _ Hid), (bind_Ret _ _ _ _ _ Hh).
  unfold bind at 1. unfold buff_save at 1. unfold bind at 1.
  unfold get_obuff at 1. unfold ret at 1.
  assert (E : (put_byte SSH_FXP_NAME ;; put_uint32 id) s2
              = Ret tt (with_obuff s2
                  (buff_put ([SSH_FXP_NAME] ++ be32 id) (obuff s2)))).
  { apply (emits_bind _ _ [SSH_FXP_NAME] (be32 id)
             (emits_put_byte SSH_FXP_NAME) (emits_put_uint32 id));
      auto.
    rewrite zlen_app, zlen_be32. change (zlen [SSH_FXP_NAME]) with 1. lia. }
  unfold bind at 1. unfold bind in E.
  destruct (put_byte SSH_FXP_NAME s2) as [[] s3 | | |] eqn:E3;
    try discriminate.
  unfold bind at 1. rewrite E.
  unfold bind at 1. unfold buff_save at 1. unfold bind at 1.
  unfold get_obuff at 1. unfold ret at 1.
  set (ob1 := buff_put ([SSH_FXP_NAME] ++ be32 id) (obuff s2)).
  assert (Hwf1 : wf_buff ob1).
  { apply wf_buff_put; auto.
    rewrite zlen_app, zlen_be32. change (zlen [SSH_FXP_NAME]) with 1. lia. }
  assert (Hc1 : count ob1 = count (obuff s2) - 5).
  { unfold ob1, buff_put. cbn [count]. rewrite zlen_app, zlen_be32.
    change (zlen [SSH_FXP_NAME]) with 1. lia. }
  assert (Hp1 : p_data ob1 = p_data (obuff s2) + 5).
  { unfold ob1, buff_put. cbn [p_data]. rewrite zlen_app, zlen_be32.
    change (zlen [SSH_FXP_NAME]) with 1. lia. }
  rewrite (bind_Ret _ _ _ _ _
             (emits_put_uint32 0 (with_obuff s2 ob1) Hwf1
                ltac:(cbn [obuff with_obuff]; rewrite zlen_be32; lia))).
  cbn [obuff with_obuff]. rewrite with_obuff_twice.
  unfold ob1 at 3. rewrite buff_put_app;
    [| auto | rewrite zlen_app, zlen_be32;
              change (zlen [SSH_FXP_NAME]) with 1; lia].
  rewrite Hc1, Hp1, <- app_assoc. reflexivity.
Qed.

End Readdir.


Lemma Ret_of_returns {A} (r : @result Sim.host A) (v : A)
    (s : @state Sim.host) :
  returns r v -> returns_to r s = true -> r = Ret v s.
Proof.
  destruct r as [a s0 | | |]; simpl; try discriminate. intros ->.
  destruct (sim_state_eq_dec s0 s); [now subst | discriminate].
Qed.

(** C2, at the failing input.  With 63 entries already in the NAME
    response and the next entry too long for what is left of the buffer,
    the pass through the loop rewinds the directory and leaves the state
    exactly as it was, loop condition true: READDIR never answers,
    whatever fuel the directory loop is given. *)
Theorem sftp_readdir_never_returns :
  readdir_body 0 63 readdir_full = Ret (true, 63) readdir_full /\
  forall fuel, main_iteration 1 fuel readdir_pending = OutOfFuel.
Proof.
  assert (Hfix : readdir_body 0 63 readdir_full = Ret (true, 63) readdir_full)
    by (apply Ret_of_returns; vm_compute; reflexivity).
  split; [exact Hfix |]. intros fuel.
  assert (Hrecv : main_receive 1 readdir_pending
                  = Ret (11, mk_save MAX_PACKET 0) readdir_received)
    by (apply Ret_state_of; vm_compute; reflexivity).
  assert (Hop : get_byte readdir_received
                = Ret SSH_FXP_READDIR readdir_dispatched)
    by (apply Ret_state_of; vm_compute; reflexivity).
  assert (Hinit : have_init readdir_dispatched = true)
    by (vm_compute; reflexivity).
  assert (Hid : get_uint32 readdir_dispatched = Ret 2 readdir_id_read)
    by (apply Ret_state_of; vm_compute; reflexivity).
  assert (Hparse : get_handle readdir_id_read = Ret (Some O) readdir_parsed)
    by (apply Ret_state_of; vm_compute; reflexivity).
  assert (Hsteps : readdir_steps 63 0 0 readdir_started
                   = Ret (true, 63) readdir_full)
    by (apply Ret_state_of; vm_compute; reflexivity).
  assert (Hwf : wf_buff (obuff readdir_parsed))
    by (vm_compute; repeat split; discriminate).
  assert (Hroom : 9 <= count (obuff readdir_parsed))
    by (vm_compute; discriminate).
  unfold main_iteration. rewrite (bind_Ret _ _ _ _ _ Hrecv).
  change (11 >? 0) with true. cbv iota.
  unfold bind at 1.
  rewrite (sftp_in_readdir _ _ _ Hop Hinit).
  rewrite (sftp_readdir_enters_loop _ _ _ _ _ _ Hid Hparse Hwf Hroom).
  fold readdir_started. unfold bind at 1.
  rewrite (readdir_loop_diverges _ _ _ _ _ _ Hsteps Hfix).
  reflexivity.
Qed.

(** ** READ and WRITE *)

Section Handlers.

Context {P : Platform} {H : Host}.

(** A STATUS response written by a handler that has got as far as the
    state [s]. *)
Lemma put_status_at (s : state) (id st : Z) :
  wf_buff (obuff s) -> 40 <= count (obuff s) ->
  put_status id st s
  = Ret tt (with_obuff s (buff_put (status_bytes id st) (obuff s))).
Proof.
  intros Hwf Hroom. apply emits_put_status; auto.
  pose proof (zlen_status_bytes id st). lia.
Qed.

Lemma call_at (c : syscall) (s : state) (r : sysret) (w : World) :
  sys c (world s) = (r, w) -> call c s = Ret r (with_world s w).
Proof. intros E. unfold call. now rewrite E. Qed.

(** C7.  WRITE on a valid FILE handle, once the seek has succeeded: a
    negative result of the host's [write] gives STATUS with the mapped
    errno, a result equal to the length of the request's data gives
    STATUS(OK), and a shorter write without an error gives
    STATUS(FAILURE). *)
Theorem sftp_write_response (s s1 s2 s3 s4 : state) (id off data_len : Z)
    (i : nat) (payload : list Z) (r_seek r_write : sysret) (w1 w2 : World) :
  get_uint32 s = Ret id s1 ->
  get_handle s1 = Ret (Some i) s2 ->
  get_uint64 s2 = Ret off s3 ->
  get_data s3 = Ret (payload, data_len) s4 ->
  0 <= data_len < 2 ^ 32 ->
  use (slot (handles s4) i) = HANDLE_FILE ->
  wf_buff (obuff s4) -> 40 <= count (obuff s4) ->
  sys (SYS_lseek (fd (slot (handles s4) i)) (to_off_t off)) (world s4)
    = (r_seek, w1) ->
  0 <= ret_val r_seek ->
  sys (SYS_write (fd (slot (handles s4) i)) payload) w1 = (r_write, w2) ->
  let respond status :=
    Ret tt (with_obuff (with_world s4 w2)
              (buff_put (status_bytes id status) (obuff s4))) in
  (ret_val r_write < 0 ->
     sftp_write s = respond (errno_to_sftp (errno w2))) /\
  (ret_val r_write = data_len -> sftp_write s = respond SSH_FX_OK) /\
  (0 <= ret_val r_write < data_len ->
     sftp_write s = respond SSH_FX_FAILURE).
Proof.
  intros Hid Hh Hoff Hdata Hlen Huse Hwf Hroom Hseek Hseekok Hwrite respond.
  assert (Hrun : sftp_write s
    = (if ret_val r_write <? 0
       then e <- get_errno ;; put_status id (errno_to_sftp e)
       else if uint32 (ret_val r_write) =? data_len
            then put_status id SSH_FX_OK
            else put_status id SSH_FX_FAILURE) (with_world s4 w2)).
  { unfold sftp_write.
    rewrite (bind_Ret _ _ _ _ _ Hid), (bind_Ret _ _ _ _ _ Hh),
      (bind_Ret _ _ _ _ _ Hoff), (bind_Ret _ _ _ _ _ Hdata).
    cbv beta iota. unfold bind at 1. unfold get_handles.
    unfold file_slot. rewrite Huse.
    rewrite (bind_Ret _ _ _ _ _ (call_at _ _ _ _ Hseek)).
    destruct (Z.ltb_spec (ret_val r_seek) 0); [lia |].
    now rewrite (bind_Ret _ _ _ _ _ (call_at _ (with_world s4 w1) _ _ Hwrite)). }
  rewrite Hrun. unfold respond.
  repeat split; intros Hret.
  - destruct (Z.ltb_spec (ret_val r_write) 0); [| lia].
    unfold bind, get_errno. cbn [world with_world].
    now rewrite put_status_at.
  - destruct (Z.ltb_spec (ret_val r_write) 0); [lia |].
    rewrite uint32_small by lia.
    destruct (Z.eqb_spec (ret_val r_write) data_len); [| lia].
    now rewrite put_status_at.
  - destruct (Z.ltb_spec (ret_val r_write) 0); [lia |].
    rewrite uint32_small by lia.
    destruct (Z.eqb_spec (ret_val r_write) data_len); [lia |].
    now rewrite put_status_at.
Qed.

(** C6.  READ on a valid FILE handle, once the seek has succeeded.  The
    host's [read] is asked for the requested length clamped to the room
    left in the output buffer less the 9 bytes of the DATA header.  A
    negative result gives STATUS with the mapped errno, zero gives
    STATUS(EOF), and a positive result [n], not above what was asked
    for, gives DATA with the id, the length [n] and the [n] bytes read. *)
Theorem sftp_read_response (s s1 s2 s3 s4 : state) (id off len : Z)
    (i : nat) (r_seek r_read : sysret) (w1 w2 : World) :
  get_uint32 s = Ret id s1 ->
  get_handle s1 = Ret (Some i) s2 ->
  get_uint64 s2 = Ret off s3 ->
  get_uint32 s3 = Ret len s4 ->
  use (slot (handles s4) i) = HANDLE_FILE ->
  wf_buff (obuff s4) -> 40 <= count (obuff s4) ->
  sys (SYS_lseek (fd (slot (handles s4) i)) (to_off_t off)) (world s4)
    = (r_seek, w1) ->
  0 <= ret_val r_seek ->
  let clamped := Z.min len (count (obuff s4) - 9) in
  sys (SYS_read (fd (slot (handles s4) i)) clamped) w1 = (r_read, w2) ->
  let respond bytes :=
    Ret tt (with_obuff (with_world s4 w2) (buff_put bytes (obuff s4))) in
  (ret_val r_read < 0 ->
     sftp_read s = respond (status_bytes id (errno_to_sftp (errno w2)))) /\
  (ret_val r_read = 0 ->
     sftp_read s = respond (status_bytes id SSH_FX_EOF)) /\
  (0 < ret_val r_read <= clamped ->
   zlen (ret_bytes r_read) = ret_val r_read ->
     sftp_read s = respond (data_bytes id (ret_bytes r_read))).
Proof.
  intros Hid Hh Hoff Hlen Huse Hwf Hroom Hseek Hseekok clamped Hread respond.
  pose proof Hwf as (Hp & Hc & Hin & Hsz). unfold MAX_PACKET in Hsz.
  set (ob := obuff s4) in *.
  set (n := ret_val r_read) in *.
  assert (Hclamp : (if len >? uint32 (count ob - (1 + 4 + 4))
                    then uint32 (count ob - (1 + 4 + 4)) else len) = clamped).
  { rewrite uint32_small by lia. unfold clamped.
    replace (1 + 4 + 4) with 9 by reflexivity.
    destruct (Z.gtb_spec len (count ob - 9)); lia. }
  assert (Hrun : sftp_read s
    = ((if n >? 0
        then set_obuff (mk_buff (count ob) (p_data ob)
               (store_bytes (p_data ob + (1 + 4 + 4))
                  (firstn (Z.to_nat n) (ret_bytes r_read)) (data ob)))
        else ret tt) ;;
       if n <? 0 then e <- get_errno ;; put_status id (errno_to_sftp e)
       else if n =? 0 then put_status id SSH_FX_EOF
       else
         assert (n <=? clamped) ;;
         put_byte SSH_FXP_DATA ;;
         put_uint32 id ;;
         put_uint32 n ;;
         ob' <- get_obuff ;;
         set_obuff (mk_buff (uint32 (count ob' - n)) (p_data ob' + n)
                      (data ob'))) (with_world s4 w2)).
  { unfold sftp_read.
    rewrite (bind_Ret _ _ _ _ _ Hid), (bind_Ret _ _ _ _ _ Hh),
      (bind_Ret _ _ _ _ _ Hoff), (bind_Ret _ _ _ _ _ Hlen).
    unfold bind at 1. unfold get_obuff at 1. fold ob. rewrite Hclamp.
    unfold bind at 1. unfold get_handles.
    unfold file_slot. rewrite Huse.
    rewrite (bind_Ret _ _ _ _ _ (call_at _ _ _ _ Hseek)).
    destruct (Z.ltb_spec (ret_val r_seek) 0); [lia |].
    now rewrite (bind_Ret _ _ _ _ _ (call_at _ (with_world s4 w1) _ _ Hread)). }
  rewrite Hrun. unfold respond. clear Hrun.
  refine (conj _ (conj _ _)).
  - intros Hret.
    destruct (Z.gtb_spec n 0); [lia |].
    destruct (Z.ltb_spec n 0); [| lia].
    unfold bind, ret, get_errno. cbn [world with_world].
    now rewrite put_status_at.
  - intros Hret.
    destruct (Z.gtb_spec n 0); [lia |].
    destruct (Z.ltb_spec n 0); [lia |].
    destruct (Z.eqb_spec n 0); [| lia].
    unfold bind at 1. unfold ret.
    now rewrite put_status_at.
  - intros Hret Hbytes.
    assert (Hmin : clamped <= count ob - 9) by (unfold clamped; lia).
    destruct (Z.gtb_spec n 0); [| lia].
    destruct (Z.ltb_spec n 0); [lia |].
    destruct (Z.eqb_spec n 0); [lia |].
    rewrite firstn_all2 by (unfold zlen in Hbytes; lia).
    unfold bind at 1. unfold set_obuff at 1.
    unfold bind at 1. unfold assert.
    destruct (Z.leb_spec n clamped); [| lia].
    set (ob1 := mk_buff (count ob) (p_data ob)
                  (store_bytes (p_data ob + (1 + 4 + 4)) (ret_bytes r_read)
                     (data ob))).
    set (s5 := mk_state _ ob1 _ _ _).
    assert (Hwf1 : wf_buff ob1).
    { unfold wf_buff, ob1. cbn [count p_data data].
      rewrite store_bytes_zlen by lia. unfold MAX_PACKET. lia. }
    set (hdr := [SSH_FXP_DATA] ++ be32 id ++ be32 n).
    assert (Hhdr : (put_byte SSH_FXP_DATA ;; put_uint32 id ;; put_uint32 n) s5
                   = Ret tt (with_obuff s5 (buff_put hdr ob1))).
    { apply (emits_bind _ _ [SSH_FXP_DATA] _ (emits_put_byte SSH_FXP_DATA)
               (emits_bind _ _ _ _ (emits_put_uint32 id)
                  (emits_put_uint32 n))); auto.
      change (9 <= count ob). lia. }
    unfold bind in Hhdr |- *.
    destruct (put_byte SSH_FXP_DATA s5) as [[] s6 | | |]; try discriminate.
    destruct (put_uint32 id s6) as [[] s7 | | |]; try discriminate.
    rewrite Hhdr. unfold get_obuff, set_obuff.
    cbn [obuff with_obuff ibuff have_init handles world with_world s5].
    unfold with_obuff, with_world.
    cbn [obuff ibuff have_init handles world].
    do 2 f_equal. unfold buff_put, ob1, data_bytes, string_bytes.
    cbn [count p_data data].
    change (zlen hdr) with 9.
    rewrite uint32_small by lia.
    replace (1 + 4 + 4) with (zlen hdr) by reflexivity.
    rewrite store_bytes_under by (change (zlen hdr) with 9; lia).
    replace ([SSH_FXP_DATA] ++ be32 id ++ be32 (zlen (ret_bytes r_read))
             ++ ret_bytes r_read)
      with (hdr ++ ret_bytes r_read)
      by (unfold hdr; rewrite Hbytes, <- !app_assoc; reflexivity).
    rewrite zlen_app. change (zlen hdr) with 9.
    f_equal; lia.
Qed.

End Handlers.

Ltac by_computation :=
  first [ apply Ret_state_of; vm_compute; reflexivity
        | vm_compute; repeat split; (reflexivity || discriminate) ].

(** READ of 100 bytes at offset 6 of an 11-byte file: the host reads 5
    bytes, and the response is DATA with "world". *)
Lemma sftp_read_response_sim :
  ret_bytes (fst read_result) = bytes_of_string "world" /\
  sftp_read read_entry
  = Ret tt (with_obuff (with_world read_s4 (snd read_result))
              (buff_put (data_bytes 2 (ret_bytes (fst read_result)))
                 (obuff read_s4))).
Proof.
  split; [vm_compute; reflexivity |].
  refine (proj2 (proj2
    (sftp_read_response read_entry read_s1 read_s2 read_s3 read_s4
       2 6 100 0 (fst read_seek) (fst read_result)
       (snd read_seek) (snd read_result) _ _ _ _ _ _ _ _ _ _)) _ _);
    by_computation.
Defined.

(** WRITE of 5 bytes: the host writes all 5 and the response is
    STATUS(OK). *)
Lemma sftp_write_response_sim :
  ret_val (fst write_result) = 5 /\
  sftp_write write_entry
  = Ret tt (with_obuff (with_world write_s4 (snd write_result))
              (buff_put (status_bytes 2 SSH_FX_OK) (obuff write_s4))).
Proof.
  split; [vm_compute; reflexivity |].
  refine (proj1 (proj2
    (sftp_write_response write_entry write_s1 write_s2 write_s3 write_s4
       2 0 5 0 (bytes_of_string "HELLO") (fst write_seek) (fst write_result)
       (snd write_seek) (snd write_result) _ _ _ _ _ _ _ _ _ _ _)) _);
    by_computation.
Defined.

(** ** Handles of the wrong kind *)

Section WrongKind.

Context {P : Platform} {H : Host}.

(** READ, WRITE, FSTAT and FSETSTAT test [p_handle->use == HANDLE_FILE]:
    on a missing handle or a DIR handle each answers STATUS(FAILURE)
    without calling the host. *)
Lemma sftp_read_wrong_kind (s s1 s2 s3 s4 : state) (id off len : Z)
    (p_handle : option nat) :
  get_uint32 s = Ret id s1 ->
  get_handle s1 = Ret p_handle s2 ->
  get_uint64 s2 = Ret off s3 ->
  get_uint32 s3 = Ret len s4 ->
  file_slot (handles s4) p_handle = None ->
  wf_buff (obuff s4) -> 40 <= count (obuff s4) ->
  sftp_read s
  = Ret tt (with_obuff s4
              (buff_put (status_bytes id SSH_FX_FAILURE) (obuff s4))).
Proof.
  intros Hid Hh Hoff Hlen Hkind Hwf Hroom. unfold sftp_read.
  rewrite (bind_Ret _ _ _ _ _ Hid), (bind_Ret _ _ _ _ _ Hh),
    (bind_Ret _ _ _ _ _ Hoff), (bind_Ret _ _ _ _ _ Hlen).
  unfold bind at 1. unfold get_obuff at 1.
  unfold bind at 1. unfold get_handles. rewrite Hkind.
  now apply put_status_at.
Qed.

Lemma sftp_write_wrong_kind (s s1 s2 s3 s4 : state) (id off data_len : Z)
    (payload : list Z) (p_handle : option nat) :
  get_uint32 s = Ret id s1 ->
  get_handle s1 = Ret p_handle s2 ->
  get_uint64 s2 = Ret off s3 ->
  get_data s3 = Ret (payload, data_len) s4 ->
  file_slot (handles s4) p_handle = None ->
  wf_buff (obuff s4) -> 40 <= count (obuff s4) ->
  sftp_write s
  = Ret tt (with_obuff s4
              (buff_put (status_bytes id SSH_FX_FAILURE) (obuff s4))).
Proof.
  intros Hid Hh Hoff Hdata Hkind Hwf Hroom. unfold sftp_write.
  rewrite (bind_Ret _ _ _ _ _ Hid), (bind_Ret _ _ _ _ _ Hh),
    (bind_Ret _ _ _ _ _ Hoff), (bind_Ret _ _ _ _ _ Hdata).
  cbv beta iota. unfold bind at 1. unfold get_handles. rewrite Hkind.
  now apply put_status_at.
Qed.

Lemma sftp_fstat_wrong_kind (s s1 s2 : state) (id : Z)
    (p_handle : option nat) :
  get_uint32 s = Ret id s1 ->
  get_handle s1 = Ret p_handle s2 ->
  file_slot (handles s2) p_handle = None ->
  wf_buff (obuff s2) -> 40 <= count (obuff s2) ->
  sftp_fstat s
  = Ret tt (with_obuff s2
              (buff_put (status_bytes id SSH_FX_FAILURE) (obuff s2))).
Proof.
  intros Hid Hh Hkind Hwf Hroom. unfold sftp_fstat.
  rewrite (bind_Ret _ _ _ _ _ Hid), (bind_Ret _ _ _ _ _ Hh).
  unfold bind at 1. unfold get_handles. rewrite Hkind.
  now apply put_status_at.
Qed.

Lemma sftp_fsetstat_wrong_kind (s s1 s2 s3 : state) (id : Z)
    (attr : attrs_t) (p_handle : option nat) :
  get_uint32 s = Ret id s1 ->
  get_handle s1 = Ret p_handle s2 ->
  get_attrs s2 = Ret attr s3 ->
  file_slot (handles s3) p_handle = None ->
  wf_buff (obuff s3) -> 40 <= count (obuff s3) ->
  sftp_fsetstat s
  = Ret tt (with_obuff s3
              (buff_put (status_bytes id SSH_FX_FAILURE) (obuff s3))).
Proof.
  intros Hid Hh Hattr Hkind Hwf Hroom. unfold sftp_fsetstat.
  rewrite (bind_Ret _ _ _ _ _ Hid), (bind_Ret _ _ _ _ _ Hh),
    (bind_Ret _ _ _ _ _ Hattr).
  unfold bind at 1. unfold get_handles. rewrite Hkind.
  now apply put_status_at.
Qed.

(** A DIR slot is not a file slot. *)
Lemma file_slot_dir (hs : list fxp_handle_t) (i : nat) :
  use (slot hs i) = HANDLE_DIR -> file_slot hs (Some i) = None.
Proof. intros E. unfold file_slot. now rewrite E. Qed.

End WrongKind.

(** ** Handle strings *)

Section HandleLookup.

Context {P : Platform} {H : Host}.

Lemma get_handle_lookup (s : state) :
  get_handle s
  = bind get_string
      (fun r s' => Ret (handle_lookup (handles s') (fst r) (snd r)) s') s.
Proof.
  unfold get_handle, bind.
  destruct (get_string s) as [[sz len] s' | | |]; try reflexivity.
  unfold handle_lookup. cbn [fst snd].
  destruct (negb (len =? MAX_HANDLE_DIGITS)); [reflexivity |].
  destruct (strtoul (sz ++ [0])) as [handle ep].
  destruct (negb (nth ep (sz ++ [0]) 0 =? 0)); [reflexivity |].
  destruct (handle =? 0); [reflexivity |].
  destruct (handle >? MAX_HANDLES); [reflexivity |].
  unfold get_handles, ret.
  destruct (use (slot (handles s') (Z.to_nat (handle - 1)))); reflexivity.
Qed.

(** A string of two digits decodes as the claim says: to the slot at its
    decimal value, unless the value is zero or the slot is free. *)
Lemma handle_lookup_two_digits (hs : list fxp_handle_t) (d1 d2 : Z) :
  0 <= d1 <= 9 -> 0 <= d2 <= 9 ->
  handle_lookup hs [48 + d1; 48 + d2] 2
  = if 10 * d1 + d2 =? 0 then None
    else match use (slot hs (Z.to_nat (10 * d1 + d2 - 1))) with
         | HANDLE_FREE => None
         | _ => Some (Z.to_nat (10 * d1 + d2 - 1))
         end.
Proof.
  intros H1 H2.
  assert (In1 : In d1 [0; 1; 2; 3; 4; 5; 6; 7; 8; 9]) by (cbn; lia).
  assert (In2 : In d2 [0; 1; 2; 3; 4; 5; 6; 7; 8; 9]) by (cbn; lia).
  cbn [In] in In1, In2.
  repeat destruct In1 as [<- | In1]; try contradiction;
    repeat destruct In2 as [<- | In2]; try contradiction;
    reflexivity.
Qed.

Lemma handle_lookup_other_length (hs : list fxp_handle_t)
    (sz_handle : list Z) (handle_len : Z) :
  handle_len <> MAX_HANDLE_DIGITS ->
  handle_lookup hs sz_handle handle_len = None.
Proof.
  intros Hlen. unfold handle_lookup.
  destruct (Z.eqb_spec handle_len MAX_HANDLE_DIGITS); [contradiction |].
  reflexivity.
Qed.

(** Whatever string is accepted names a slot of the table that is in
    use. *)
Lemma handle_lookup_in_use (hs : list fxp_handle_t) (sz_handle : list Z)
    (handle_len : Z) (i : nat) :
  handle_lookup hs sz_handle handle_len = Some i ->
  handle_len = MAX_HANDLE_DIGITS /\ (i < Z.to_nat MAX_HANDLES)%nat /\
  use (slot hs i) <> HANDLE_FREE.
Proof.
  unfold handle_lookup.
  destruct (Z.eqb_spec handle_len MAX_HANDLE_DIGITS); [| discriminate].
  cbn [negb].
  destruct (strtoul (sz_handle ++ [0])) as [handle ep].
  destruct (negb (nth ep (sz_handle ++ [0]) 0 =? 0)); [discriminate |].
  destruct (Z.eqb_spec handle 0); [discriminate |].
  destruct (Z.gtb_spec handle MAX_HANDLES); [discriminate |].
  destruct (use (slot hs (Z.to_nat (handle - 1)))) eqn:Huse;
    [discriminate | |];
    intros E; inversion E; subst i; rewrite Huse;
    (split; [assumption |]); (split; [| discriminate]);
    unfold MAX_HANDLES in *; lia.
Qed.

(** The strings [strtoul] is lenient about: white space or a sign before
    the digit, or a NUL after it. *)
Lemma handle_lookup_lenient (hs : list fxp_handle_t) :
  handle_lookup hs [32; 49] 2 = handle_lookup hs [48; 49] 2 /\
  handle_lookup hs [43; 49] 2 = handle_lookup hs [48; 49] 2 /\
  handle_lookup hs [9; 49] 2 = handle_lookup hs [48; 49] 2 /\
  handle_lookup hs [49; 0] 2 = handle_lookup hs [48; 49] 2.
Proof. repeat split. Qed.

End HandleLookup.

(** ** The mode of OPEN *)

Section OpenMode.

Context {P : Platform} {H : Host}.

Lemma keeps_world_bind {A B} (m : M A) (f : A -> M B) :
  keeps_world m -> (forall a, keeps_world (f a)) -> keeps_world (bind m f).
Proof.
  intros Hm Hf s v s' E. unfold bind in E.
  destruct (m s) as [a s1 | | |] eqn:E1; try discriminate.
  rewrite (Hf _ _ _ _ E). exact (Hm _ _ _ E1).
Qed.

Lemma keeps_world_ret {A} (a : A) : keeps_world (ret a).
Proof. intros s v s' E. now inversion E. Qed.

Lemma keeps_world_assert (b : bool) : keeps_world (assert b).
Proof. intros s v s' E. unfold assert in E. destruct b; now inversion E. Qed.

Lemma keeps_world_get_obuff : keeps_world get_obuff.
Proof. intros s v s' E. now inversion E. Qed.

Lemma keeps_world_set_obuff (b : buff_t) : keeps_world (set_obuff b).
Proof. intros s v s' E. now inversion E. Qed.

Lemma keeps_world_get_handles : keeps_world get_handles.
Proof. intros s v s' E. now inversion E. Qed.

Lemma keeps_world_set_handles (hs : list fxp_handle_t) :
  keeps_world (set_handles hs).
Proof. intros s v s' E. now inversion E. Qed.

Lemma keeps_world_get_errno : keeps_world get_errno.
Proof. intros s v s' E. now inversion E. Qed.

Ltac keeps_world_step :=
  match goal with
  | |- keeps_world (bind _ _) => apply keeps_world_bind; [| intros ?]
  | |- keeps_world (ret _) => apply keeps_world_ret
  | |- keeps_world (assert _) => apply keeps_world_assert
  | |- keeps_world get_obuff => apply keeps_world_get_obuff
  | |- keeps_world (set_obuff _) => apply keeps_world_set_obuff
  | |- keeps_world get_handles => apply keeps_world_get_handles
  | |- keeps_world (set_handles _) => apply keeps_world_set_handles
  | |- keeps_world get_errno => apply keeps_world_get_errno
  end.

Lemma keeps_world_put_byte (d : Z) : keeps_world (put_byte d).
Proof. unfold put_byte. repeat keeps_world_step. Qed.

Lemma keeps_world_put_uint32 (d : Z) : keeps_world (put_uint32 d).
Proof. unfold put_uint32. cbv zeta. repeat keeps_world_step. Qed.

Lemma keeps_world_put_cstring (sz_str : list Z) :
  keeps_world (put_cstring sz_str).
Proof.
  unfold put_cstring. cbv zeta.
  apply keeps_world_bind; [apply keeps_world_put_uint32 | intros ?].
  repeat keeps_world_step.
Qed.

Ltac keeps_world_put :=
  repeat match goal with
  | |- keeps_world (bind _ _) => apply keeps_world_bind; [| intros ?]
  | |- keeps_world (assert _) => apply keeps_world_assert
  | |- keeps_world (put_byte _) => apply keeps_world_put_byte
  | |- keeps_world (put_uint32 _) => apply keeps_world_put_uint32
  | |- keeps_world (put_cstring _) => apply keeps_world_put_cstring
  end.

Lemma keeps_world_put_status (id st : Z) : keeps_world (put_status id st).
Proof. unfold put_status. keeps_world_put. Qed.

Lemma keeps_world_put_handle (id handle : Z) :
  keeps_world (put_handle id handle).
Proof. unfold put_handle. keeps_world_put. Qed.

Lemma keeps_world_handle_alloc_file (fd_ : Z) :
  keeps_world (handle_alloc_file fd_).
Proof.
  unfold handle_alloc_file.
  apply keeps_world_bind; [apply keeps_world_get_handles | intros hs].
  destruct (first_free hs 0); repeat keeps_world_step.
Qed.

End OpenMode.

(** For every OPEN request, on every host: the first call the handler
    makes is [open] with the path, the translated flags, and as mode
    [attrs.permissions] as the client sent it when PERMISSIONS is set,
    0666 when it is not.  No mask is applied. *)
Lemma sftp_open_host_call {P : Platform} (H0 : Host)
    (s s1 s2 s3 s4 s' : @state (traced H0)) (id flen pflags : Z)
    (fname : list Z) (attrs : attrs_t) :
  get_uint32 s = Ret id s1 ->
  get_string s1 = Ret (fname, flen) s2 ->
  get_uint32 s2 = Ret pflags s3 ->
  get_attrs s3 = Ret attrs s4 ->
  sftp_open s = Ret tt s' ->
  exists later,
    snd (world s')
    = snd (world s4)
      ++ SYS_open (c_str fname) (pflags_to_unix pflags) (open_mode attrs)
         :: later.
Proof.
  intros Hid Hname Hflags Hattrs Hrun. unfold sftp_open in Hrun.
  rewrite (bind_Ret _ _ _ _ _ Hid), (bind_Ret _ _ _ _ _ Hname) in Hrun.
  cbv beta iota in Hrun.
  rewrite (bind_Ret _ _ _ _ _ Hflags), (bind_Ret _ _ _ _ _ Hattrs) in Hrun.
  fold (open_mode attrs) in Hrun.
  set (c := SYS_open _ _ _) in *.
  unfold bind at 1 in Hrun. unfold call in Hrun.
  cbn [sys traced] in Hrun.
  destruct (@sys H0 c (fst (world s4))) as [r w'].
  set (s5 := mk_state _ _ _ _ _) in Hrun.
  assert (Hlog : snd (world s5) = snd (world s4) ++ [c]) by reflexivity.
  clearbody s5.
  destruct (ret_val r <? 0).
  - exists []. rewrite <- Hlog. f_equal.
    refine (keeps_world_bind _ _ keeps_world_get_errno _ _ _ _ Hrun).
    intros e. apply keeps_world_put_status.
  - unfold bind at 1 in Hrun.
    destruct (handle_alloc_file (ret_val r) s5) as [handle s6 | | |] eqn:E6;
      try discriminate.
    pose proof (keeps_world_handle_alloc_file _ _ _ _ E6) as Hw6.
    destruct (handle =? 0).
    + unfold bind at 1 in Hrun. unfold call in Hrun.
      cbn [sys traced] in Hrun.
      destruct (@sys H0 (SYS_close (ret_val r)) (fst (world s6)))
        as [r7 w7].
      set (s7 := mk_state _ _ _ _ _) in Hrun.
      assert (Hlog7 : snd (world s7)
                      = snd (world s6) ++ [SYS_close (ret_val r)])
        by reflexivity.
      clearbody s7.
      exists [SYS_close (ret_val r)].
      rewrite (keeps_world_put_status _ _ _ _ _ Hrun), Hlog7, Hw6, Hlog.
      now rewrite <- app_assoc.
    + exists [].
      now rewrite (keeps_world_put_handle _ _ _ _ _ Hrun), Hw6, Hlog.
Qed.

(** ** The ATTRS codec *)

Section Attrs.

Context {P : Platform} {H : Host}.

Lemma unread_skip (ib : buff_t) (a rest : list Z) :
  0 <= p_data ib -> unread ib = a ++ rest ->
  unread (buff_skip (zlen a) ib) = rest.
Proof.
  unfold unread, buff_skip, zlen. cbn [p_data data]. intros Hp Hun.
  replace (Z.to_nat (p_data ib + Z.of_nat (List.length a)))
    with (List.length a + Z.to_nat (p_data ib))%nat by lia.
  rewrite <- skipn_skipn, Hun.
  rewrite <- (Nat.add_0_r (List.length a)).
  now rewrite skipn_past.
Qed.

Lemma parses_ret {A} (v : A) : parses (ret v) [] v.
Proof.
  intros s rest _ _ _. unfold ret, with_ibuff, buff_skip.
  change (zlen []) with 0. rewrite Z.sub_0_r, Z.add_0_r.
  destruct s as [ib ob hi hs w]. now destruct ib.
Qed.

Lemma parses_bind {A B} (m : M A) (f : A -> M B) (b1 b2 : list Z)
    (v1 : A) (v2 : B) :
  parses m b1 v1 -> parses (f v1) b2 v2 -> parses (bind m f) (b1 ++ b2) v2.
Proof.
  intros E1 E2 s rest Hp Hc Hun.
  rewrite zlen_app in Hc. rewrite <- app_assoc in Hun.
  pose proof (zlen_nonneg b1). pose proof (zlen_nonneg b2).
  rewrite (bind_Ret _ _ _ _ _ (E1 s (b2 ++ rest) Hp ltac:(lia) Hun)).
  rewrite (E2 _ rest).
  - rewrite with_ibuff_twice. cbn [ibuff with_ibuff].
    do 2 f_equal. unfold buff_skip. cbn [count p_data data].
    rewrite zlen_app. f_equal; lia.
  - cbn [ibuff with_ibuff buff_skip p_data]. lia.
  - cbn [ibuff with_ibuff buff_skip count]. lia.
  - cbn [ibuff with_ibuff]. now apply unread_skip.
Qed.

Lemma load_byte_unread (ib : buff_t) (k : nat) :
  0 <= p_data ib ->
  load_byte (p_data ib + Z.of_nat k) (data ib) = nth k (unread ib) 0.
Proof.
  intros Hp. unfold load_byte, unread. rewrite nth_skipn.
  f_equal. lia.
Qed.

Lemma parses_get_uint32 (d : Z) : parses get_uint32 (be32 d) (uint32 d).
Proof.
  intros s rest Hp Hc Hun. rewrite zlen_be32 in *.
  unfold get_uint32, bind, get_ibuff, assert.
  destruct (Z.geb_spec (count (ibuff s)) 4); [| lia].
  unfold set_ibuff, ret.
  rewrite <- (Z.add_0_r (p_data (ibuff s))) at 1.
  rewrite (load_byte_unread _ 0), (load_byte_unread _ 1),
    (load_byte_unread _ 2), (load_byte_unread _ 3) by assumption.
  rewrite Hun. cbn [be32 app nth].
  now rewrite be32_decode.
Qed.

Lemma parses_get_uint32_small (d : Z) :
  0 <= d < 2 ^ 32 -> parses get_uint32 (be32 d) d.
Proof.
  intros Hd. rewrite <- (uint32_small d) at 2 by assumption.
  apply parses_get_uint32.
Qed.

Lemma parses_get_uint64 (d : Z) :
  0 <= d < 2 ^ 64 -> parses get_uint64 (be64 d) d.
Proof.
  intros Hd. unfold get_uint64, be64.
  rewrite <- (app_nil_r (be32 d)).
  eapply parses_bind; [apply parses_get_uint32 |].
  eapply parses_bind; [apply parses_get_uint32 |].
  rewrite uint64_halves, uint64_small by assumption.
  apply parses_ret.
Qed.

Lemma parses_pair32 (x y : Z) :
  0 <= x < 2 ^ 32 -> 0 <= y < 2 ^ 32 ->
  parses (u <- get_uint32 ;; g <- get_uint32 ;; ret (u, g))
    (be32 x ++ be32 y) (x, y).
Proof.
  intros Hx Hy. rewrite <- (app_nil_r (be32 y)).
  eapply parses_bind; [now apply parses_get_uint32_small |].
  eapply parses_bind; [now apply parses_get_uint32_small |].
  apply parses_ret.
Qed.

Lemma zlen_attrs_bytes (a : attrs_t) :
  zlen (attrs_bytes a) <= MAX_ATTRS_BYTES /\
  (attrs_fully_populated a -> zlen (attrs_bytes a) = MAX_ATTRS_BYTES).
Proof.
  unfold attrs_fully_populated, attrs_bytes, be64, MAX_ATTRS_BYTES.
  destruct (flag_set (flags a) SSH_FILEXFER_ATTR_SIZE),
    (flag_set (flags a) SSH_FILEXFER_ATTR_UIDGID),
    (flag_set (flags a) SSH_FILEXFER_ATTR_PERMISSIONS),
    (flag_set (flags a) SSH_FILEXFER_ATTR_ACMODTIME);
    rewrite ?zlen_app, ?zlen_be32; change (zlen (@nil Z)) with 0;
    split; try lia; intros (? & ? & ? & ?); discriminate.
Qed.

Lemma attrs_gated_clean (a : attrs_t) :
  attrs_ungated_zero a -> attrs_gated a = a.
Proof.
  intros (Hsz & Hug & Hpm & Htm). unfold attrs_gated.
  destruct a as [fl pm sz u g at_ mt]. cbn [flags permissions size uid gid
    atime mtime] in *.
  destruct (flag_set fl SSH_FILEXFER_ATTR_SIZE),
    (flag_set fl SSH_FILEXFER_ATTR_UIDGID),
    (flag_set fl SSH_FILEXFER_ATTR_PERMISSIONS),
    (flag_set fl SSH_FILEXFER_ATTR_ACMODTIME);
    repeat match goal with
    | Hz : false = false -> _ |- _ => specialize (Hz eq_refl)
    | Hz : _ /\ _ |- _ => destruct Hz
    end; subst; reflexivity.
Qed.

(** Every record the server writes has its ungated fields zero. *)
Lemma attrs_ungated_zero_built (st : stat_t) :
  attrs_ungated_zero (stat_to_attr st) /\ attrs_ungated_zero attrs_zero.
Proof.
  split; repeat split; try reflexivity; intros;
    match goal with
    | E : _ = false |- _ => vm_compute in E; discriminate E
    end.
Qed.

(** [get_attrs] on the serialization of a record without EXTENDED. *)
Lemma parses_get_attrs (a : attrs_t) :
  attrs_in_range a ->
  flag_set (flags a) SSH_FILEXFER_ATTR_EXTENDED = false ->
  parses get_attrs (attrs_bytes a) (attrs_gated a).
Proof.
  intros (Hfl & Hpm & Hsz & Hu & Hg & Hat & Hmt) Hext.
  unfold get_attrs, attrs_bytes, attrs_gated.
  eapply parses_bind; [now apply parses_get_uint32_small |].
  cbv beta. rewrite Hext.
  destruct (flag_set (flags a) SSH_FILEXFER_ATTR_SIZE),
    (flag_set (flags a) SSH_FILEXFER_ATTR_UIDGID),
    (flag_set (flags a) SSH_FILEXFER_ATTR_PERMISSIONS),
    (flag_set (flags a) SSH_FILEXFER_ATTR_ACMODTIME);
    (eapply parses_bind;
       [first [now apply parses_get_uint64 | apply parses_ret] |]);
    (eapply parses_bind;
       [first [now apply parses_pair32 | apply parses_ret] |]);
    cbv beta iota;
    (eapply parses_bind;
       [first [now apply parses_get_uint32_small | apply parses_ret] |]);
    match goal with
    | |- parses _ ?bs _ => rewrite <- (app_nil_r bs)
    end;
    (eapply parses_bind;
       [first [now apply parses_pair32 | apply parses_ret] |]);
    cbv beta iota;
    eapply (parses_bind _ _ [] []); apply parses_ret.
Qed.

Lemma written_empty_put (bs : list Z) :
  zlen bs <= MAX_PACKET -> written (buff_put bs empty_buff) = bs.
Proof.
  intros Hle. rewrite written_buff_put.
  - reflexivity.
  - unfold wf_buff, empty_buff, zlen. cbn [count p_data data].
    rewrite repeat_length. unfold MAX_PACKET. lia.
  - exact Hle.
Qed.

Lemma unread_buff_holding (bs : list Z) :
  exists rest, unread (buff_holding bs) = bs ++ rest.
Proof.
  unfold unread, buff_holding, store_bytes. cbn [p_data data].
  change (Z.to_nat 0) with O. rewrite skipn_0, firstn_0.
  eexists. reflexivity.
Qed.

Lemma bind_inv {A B} (m : M A) (f : A -> M B) (s s' : state) (b : B) :
  bind m f s = Ret b s' ->
  exists a s1, m s = Ret a s1 /\ f a s1 = Ret b s'.
Proof.
  unfold bind. destruct (m s) as [a s1 | | |]; try discriminate.
  intros E. now exists a, s1.
Qed.

(** Whatever [get_attrs] returns has its ungated fields zero: the record
    is cleared first and only the flagged fields are read. *)
Lemma get_attrs_ungated_zero (s s' : state) (a : attrs_t) :
  get_attrs s = Ret a s' -> attrs_ungated_zero a.
Proof.
  intros E. unfold get_attrs in E.
  apply bind_inv in E as (fl & s1 & _ & E).
  apply bind_inv in E as (sz & s2 & Hsz & E).
  apply bind_inv in E as ([u g] & s3 & Hug & E).
  apply bind_inv in E as (pm & s4 & Hpm & E).
  apply bind_inv in E as ([at_ mt] & s5 & Htm & E).
  apply bind_inv in E as (x & s6 & _ & E).
  unfold ret in E. inversion E; subst a.
  unfold attrs_ungated_zero.
  cbn [flags permissions size uid gid atime mtime].
  refine (conj _ (conj _ (conj _ _))); intros F.
  - rewrite F in Hsz. unfold ret in Hsz. now inversion Hsz.
  - rewrite F in Hug. unfold ret in Hug. now inversion Hug.
  - rewrite F in Hpm. unfold ret in Hpm. now inversion Hpm.
  - rewrite F in Htm. unfold ret in Htm. now inversion Htm.
Qed.

(** C9.  The ATTRS codec is a round trip on the records the server
    holds.  Every such record has the fields whose flag is clear at zero:
    those [get_attrs] returns, those [stat_to_attr] builds, and the
    cleared record.  For every such record without EXTENDED (its fields
    holding values of their C types): [put_attrs] writes the
    serialization [attrs_bytes] -- the flags, then the fields gated by
    SIZE, UIDGID, PERMISSIONS and ACMODTIME in that order -- which is at
    most 32 bytes long and exactly 32 when all four groups are present;
    and [get_attrs] on that serialization returns the same record, having
    consumed exactly those bytes. *)
Theorem attrs_roundtrip (a : attrs_t) (s_out s_in : state)
    (rest : list Z) (w : World) :
  attrs_in_range a ->
  flag_set (flags a) SSH_FILEXFER_ATTR_EXTENDED = false ->
  attrs_ungated_zero a ->
  wf_buff (obuff s_out) -> MAX_ATTRS_BYTES <= count (obuff s_out) ->
  0 <= p_data (ibuff s_in) -> zlen (attrs_bytes a) <= count (ibuff s_in) ->
  unread (ibuff s_in) = attrs_bytes a ++ rest ->
  put_attrs a s_out
    = Ret tt (with_obuff s_out (buff_put (attrs_bytes a) (obuff s_out))) /\
  zlen (attrs_bytes a) <= MAX_ATTRS_BYTES /\
  (attrs_fully_populated a -> zlen (attrs_bytes a) = MAX_ATTRS_BYTES) /\
  get_attrs s_in
    = Ret a
        (with_ibuff s_in (buff_skip (zlen (attrs_bytes a)) (ibuff s_in))) /\
  attrs_read_back w a = Some a /\
  (forall s a' s', get_attrs s = Ret a' s' -> attrs_ungated_zero a') /\
  (forall st, attrs_ungated_zero (stat_to_attr st)) /\
  attrs_ungated_zero attrs_zero.
Proof.
  intros Hrange Hext Hclean Hwf Hroom Hp Hc Hun.
  destruct (zlen_attrs_bytes a) as [Hlen Hfull].
  pose proof (parses_get_attrs a Hrange Hext) as Hparse.
  rewrite (attrs_gated_clean a Hclean) in Hparse.
  refine (conj _ (conj Hlen (conj Hfull (conj _ (conj _
            (conj _ (conj _ _))))))).
  - apply emits_put_attrs; auto. lia.
  - exact (Hparse s_in rest Hp Hc Hun).
  - unfold attrs_read_back.
    rewrite emits_put_attrs.
    + cbn [obuff with_obuff].
      rewrite written_empty_put by (unfold MAX_ATTRS_BYTES, MAX_PACKET in *; lia).
      destruct (unread_buff_holding (attrs_bytes a)) as [rest' Hrest].
      rewrite (Hparse _ rest'); auto.
      * cbn [ibuff with_ibuff buff_holding p_data]. lia.
      * cbn [ibuff with_ibuff buff_holding count]. lia.
    + cbn [obuff with_obuff]. unfold wf_buff, empty_buff, zlen.
      cbn [count p_data data]. rewrite repeat_length.
      unfold MAX_PACKET. lia.
    + cbn [obuff with_obuff empty_buff count].
      unfold MAX_ATTRS_BYTES, MAX_PACKET in *. lia.
  - intros s a' s'. apply get_attrs_ungated_zero.
  - intros st. exact (proj1 (attrs_ungated_zero_built st)).
  - exact (proj2 (attrs_ungated_zero_built stat_zero)).
Qed.

End Attrs.

(** The attributes of a regular file go through the codec unchanged, in
    32 bytes. *)
Lemma attrs_roundtrip_sim :
  zlen (attrs_bytes attrs_regular_file) = MAX_ATTRS_BYTES /\
  attrs_read_back (sim_world [] []) attrs_regular_file
  = Some attrs_regular_file.
Proof.
  assert (Hrange : attrs_in_range attrs_regular_file)
    by (unfold attrs_in_range, attrs_regular_file; cbn; lia).
  assert (Hclean : attrs_ungated_zero attrs_regular_file)
    by (repeat split; intros;
        match goal with
        | E : _ = false |- _ => vm_compute in E; discriminate E
        end).
  assert (Hfull : attrs_fully_populated attrs_regular_file)
    by (repeat split).
  assert (Hwf : wf_buff (obuff attrs_out_state))
    by (vm_compute; repeat split; discriminate).
  assert (Hroom : MAX_ATTRS_BYTES <= count (obuff attrs_out_state))
    by (vm_compute; discriminate).
  assert (Hp : 0 <= p_data (ibuff attrs_in_state))
    by (vm_compute; discriminate).
  assert (Hc : zlen (attrs_bytes attrs_regular_file)
               <= count (ibuff attrs_in_state))
    by (vm_compute; discriminate).
  assert (Hun : unread (ibuff attrs_in_state)
                = attrs_bytes attrs_regular_file ++ attrs_in_rest)
    by reflexivity.
  destruct (attrs_roundtrip attrs_regular_file attrs_out_state
              attrs_in_state attrs_in_rest (sim_world [] []) Hrange
              eq_refl Hclean Hwf Hroom Hp Hc Hun)
    as (_ & _ & Hlen & _ & Hback & _).
  split; [exact (Hlen Hfull) | exact Hback].
Defined.

(** ** What READDIR can answer *)

Section ReaddirResponse.

Context {P : Platform} {H : Host}.

Lemma c_str_idem (l : list Z) : c_str (c_str l) = c_str l.
Proof.
  induction l as [| b t IH]; [reflexivity |].
  simpl. destruct (Z.eqb_spec b 0) as [E | E]; [reflexivity |].
  simpl. destruct (Z.eqb_spec b 0); [contradiction |]. now rewrite IH.
Qed.

Lemma load_bytes_store (p : Z) (bs l : list Z) :
  0 <= p -> p <= zlen l ->
  load_bytes p (zlen bs) (store_bytes p bs l) = bs.
Proof.
  unfold load_bytes, store_bytes, zlen. intros Hp Hle.
  rewrite <- (Nat.add_0_r (Z.to_nat p)) at 1.
  rewrite skipn_past by (rewrite length_firstn; lia).
  rewrite skipn_0, Nat2Z.id. now apply firstn_exact.
Qed.

Lemma load_byte_store_head (p b : Z) (bs l : list Z) :
  0 <= p -> p <= zlen l ->
  load_byte p (store_bytes p (b :: bs) l) = b.
Proof.
  unfold load_byte, store_bytes, zlen. intros Hp Hle.
  rewrite app_nth2 by (rewrite length_firstn; lia).
  rewrite length_firstn.
  replace (Z.to_nat p - Nat.min (Z.to_nat p) (List.length l))%nat
    with O by lia.
  reflexivity.
Qed.

Lemma load_byte_store_above (p q : Z) (bs l : list Z) :
  0 <= p < q -> q <= zlen l ->
  load_byte p (store_bytes q bs l) = load_byte p l.
Proof.
  unfold load_byte, store_bytes, zlen. intros Hp Hle.
  rewrite app_nth1 by (rewrite length_firstn; lia).
  rewrite nth_firstn.
  destruct (Nat.ltb_spec (Z.to_nat p) (Z.to_nat q)); [reflexivity | lia].
Qed.

Lemma name_in_progress_call (id : Z) (ob : buff_t) (s s' : state)
    (c : syscall) (r : sysret) :
  name_in_progress id ob s -> call c s = Ret r s' ->
  name_in_progress id ob s'.
Proof.
  intros Hinv Hcall. unfold call in Hcall.
  destruct (sys c (world s)) as [r0 w]. inversion Hcall; subst.
  exact Hinv.
Qed.

Lemma readdir_body_keeps_name (id : Z) (ob : buff_t) (i : nat)
    (cnt cnt' : Z) (again : bool) (s s' : state) :
  wf_buff ob ->
  name_in_progress id ob s ->
  readdir_body i cnt s = Ret (again, cnt') s' ->
  name_in_progress id ob s'.
Proof.
  intros Hwf Hinv Hbody. unfold readdir_body in Hbody.
  unfold bind at 1 in Hbody. unfold get_handles in Hbody.
  unfold bind at 1 in Hbody.
  destruct (call (SYS_telldir _) s) as [r1 s1 | | |] eqn:E1;
    try discriminate.
  pose proof (name_in_progress_call _ _ _ _ _ _ Hinv E1) as Hinv1.
  unfold bind at 1 in Hbody.
  destruct (call (SYS_readdir _) s1) as [r2 s2 | | |] eqn:E2;
    try discriminate.
  pose proof (name_in_progress_call _ _ _ _ _ _ Hinv1 E2) as Hinv2.
  destruct (ret_val r2 =? 0).
  { unfold ret in Hbody. inversion Hbody; subst. exact Hinv2. }
  unfold bind at 1 in Hbody.
  destruct (call (SYS_fstatat _ _) s2) as [r3 s3 | | |] eqn:E3;
    try discriminate.
  pose proof (name_in_progress_call _ _ _ _ _ _ Hinv2 E3) as Hinv3.
  destruct (ret_val r3 <? 0).
  { unfold ret in Hbody. inversion Hbody; subst. exact Hinv3. }
  unfold bind at 1 in Hbody. unfold get_obuff at 1 in Hbody.
  set (d_name := c_str (ret_bytes r2)) in *.
  destruct (Z.leb_spec ((zlen d_name + 4) * 2 + MAX_ATTRS_BYTES)
              (count (obuff s3))) as [Hfit | Hnofit].
  - destruct Hinv3 as (entries & Hob & Hroom).
    set (done := ([SSH_FXP_NAME] ++ be32 id ++ be32 0) ++ entries) in *.
    set (a := stat_to_attr (ret_stat r3)) in *.
    set (bs := string_bytes d_name ++ string_bytes d_name ++ attrs_bytes a).
    assert (Hbs : zlen bs <= count (obuff s3)).
    { unfold bs, string_bytes. rewrite !zlen_app, !zlen_be32.
      destruct (zlen_attrs_bytes a) as [Ha _]. lia. }
    assert (Hwf3 : wf_buff (obuff s3)).
    { rewrite Hob. apply wf_buff_put; auto. }
    assert (Hput : (put_cstring d_name ;; put_cstring d_name ;; put_attrs a)
                     s3
                   = Ret tt (with_obuff s3 (buff_put bs (obuff s3)))).
    { apply (emits_bind _ _ _ _
               (eq_ind _ (fun x => emits (put_cstring d_name)
                                     (string_bytes x))
                  (emits_put_cstring d_name) _ (c_str_idem _))
               (emits_bind _ _ _ _
                  (eq_ind _ (fun x => emits (put_cstring d_name)
                                        (string_bytes x))
                     (emits_put_cstring d_name) _ (c_str_idem _))
                  (emits_put_attrs a))); auto. }
    unfold bind in Hput, Hbody.
    destruct (put_cstring d_name s3) as [[] s4 | | |]; try discriminate.
    destruct (put_cstring d_name s4) as [[] s5 | | |]; try discriminate.
    destruct (put_attrs a s5) as [[] s6 | | |]; try discriminate.
    unfold ret in Hbody. inversion Hbody; subst.
    inversion Hput; subst.
    exists (entries ++ bs).
    replace (([SSH_FXP_NAME] ++ be32 id ++ be32 0) ++ entries ++ bs)
      with (done ++ bs) by (unfold done; now rewrite <- app_assoc).
    cbn [obuff with_obuff].
    rewrite Hob in *. cbn [count buff_put] in Hbs.
    rewrite buff_put_app by auto.
    split; [reflexivity |].
    rewrite zlen_app. lia.
  - destruct (cnt >? 0).
    + unfold bind at 1 in Hbody.
      destruct (call (SYS_seekdir _ _) s3) as [r4 s4 | | |] eqn:E4;
        try discriminate.
      unfold ret in Hbody. inversion Hbody; subst.
      exact (name_in_progress_call _ _ _ _ _ _ Hinv3 E4).
    + unfold ret in Hbody. inversion Hbody; subst. exact Hinv3.
Qed.

Lemma readdir_loop_keeps_name (id : Z) (ob : buff_t) (i : nat) (fuel : nat) :
  wf_buff ob ->
  forall (cnt cnt' : Z) (s s' : state),
    name_in_progress id ob s ->
    readdir_loop fuel i cnt s = Ret cnt' s' ->
    name_in_progress id ob s'.
Proof.
  intros Hwf. induction fuel as [| fuel IH]; intros cnt cnt' s s' Hinv Hloop.
  - discriminate.
  - rewrite readdir_loop_S in Hloop. unfold bind in Hloop.
    destruct (readdir_body i cnt s) as [[again c] s1 | | |] eqn:Hbody;
      try discriminate.
    pose proof (readdir_body_keeps_name _ _ _ _ _ _ _ _ Hwf Hinv Hbody)
      as Hinv1.
    cbn [fst snd] in Hloop. destruct again.
    + exact (IH _ _ _ _ Hinv1 Hloop).
    + unfold ret in Hloop. inversion Hloop; subst. exact Hinv1.
Qed.

(** X30.  Once the handle string has decoded to a slot -- of whatever kind --
    READDIR answers, if it answers at all, with a NAME packet or with
    STATUS(EOF): the bytes at the response position are never those of
    STATUS(FAILURE). *)
Lemma sftp_readdir_answers (fuel : nat) (s s1 s2 s' : state) (id : Z)
    (i : nat) :
  get_uint32 s = Ret id s1 ->
  get_handle s1 = Ret (Some i) s2 ->
  wf_buff (obuff s2) -> 40 <= count (obuff s2) ->
  sftp_readdir fuel s = Ret tt s' ->
  let p := p_data (obuff s2) in
  (load_byte p (data (obuff s')) = SSH_FXP_NAME \/
   load_bytes p (zlen (status_bytes id SSH_FX_EOF)) (data (obuff s'))
   = status_bytes id SSH_FX_EOF) /\
  load_bytes p (zlen (status_bytes id SSH_FX_FAILURE)) (data (obuff s'))
  <> status_bytes id SSH_FX_FAILURE.
Proof.
  intros Hid Hh Hwf Hroom Hrun p.
  rewrite (sftp_readdir_enters_loop _ _ _ _ _ _ Hid Hh Hwf ltac:(lia))
    in Hrun.
  unfold bind in Hrun.
  set (ob := obuff s2) in *.
  set (hdr := [SSH_FXP_NAME] ++ be32 id ++ be32 0) in *.
  destruct (readdir_loop fuel i 0 _) as [cnt s3 | | |] eqn:Hloop;
    try discriminate.
  assert (Hinv : name_in_progress id ob s3).
  { eapply readdir_loop_keeps_name; [exact Hwf | | exact Hloop].
    exists []. cbn [obuff with_obuff]. fold hdr.
    rewrite app_nil_r. split; [reflexivity |].
    change (zlen hdr) with 9. lia. }
  destruct Hinv as (entries & Hob & Hlen). fold hdr in Hob, Hlen.
  pose proof Hwf as (Hp & Hc & Hin & Hsz).
  pose proof (zlen_nonneg entries) as Hent.
  rewrite zlen_app in Hlen. change (zlen hdr) with 9 in Hlen.
  assert (Hcases :
    load_byte p (data (obuff s')) = SSH_FXP_NAME \/
    load_bytes p (zlen (status_bytes id SSH_FX_EOF)) (data (obuff s'))
    = status_bytes id SSH_FX_EOF).
  { unfold readdir_finish in Hrun.
    destruct (cnt >? 0).
    - left. unfold bind, buff_swap, get_obuff, set_obuff, ret in Hrun.
      cbn [obuff save_count save_p_data] in Hrun.
      unfold put_uint32, bind, get_obuff, assert in Hrun.
      cbn [obuff count p_data data] in Hrun.
      destruct (count ob - 5 >=? 4); [| discriminate].
      unfold set_obuff in Hrun. cbn [obuff count p_data data] in Hrun.
      inversion Hrun; subst s'. cbn [obuff data].
      rewrite Hob. unfold buff_put. cbn [data].
      rewrite load_byte_store_above.
      + unfold hdr. rewrite <- !app_assoc.
        apply load_byte_store_head; fold p; lia.
      + fold p. lia.
      + rewrite store_bytes_zlen; fold p;
          rewrite ?zlen_app; change (zlen hdr) with 9; lia.
    - right. unfold bind at 1 in Hrun.
      unfold buff_swap, bind, get_obuff, set_obuff, ret in Hrun.
      cbn [obuff save_count save_p_data] in Hrun.
      rewrite put_status_at in Hrun.
      + inversion Hrun; subst s'. cbn [obuff with_obuff].
        unfold buff_put at 1. cbn [data p_data]. fold p.
        apply load_bytes_store; [exact Hp |].
        rewrite Hob. unfold buff_put. cbn [data].
        rewrite store_bytes_zlen; fold p;
          rewrite ?zlen_app; change (zlen hdr) with 9; lia.
      + cbn [obuff]. unfold wf_buff. cbn [count p_data data].
        rewrite Hob. unfold buff_put. cbn [data].
        rewrite store_bytes_zlen; fold p;
          rewrite ?zlen_app; change (zlen hdr) with 9; lia.
      + cbn [obuff count]. exact Hroom. }
  split; [exact Hcases |].
  intros Hfail. destruct Hcases as [Hname | Heof].
  - assert (E : nth 0 (load_bytes p (zlen (status_bytes id SSH_FX_FAILURE))
                         (data (obuff s'))) 0 = SSH_FXP_NAME).
    { unfold load_bytes. rewrite nth_firstn.
      change (0 <? Z.to_nat (zlen (status_bytes id SSH_FX_FAILURE)))%nat
        with true.
      rewrite nth_skipn, Nat.add_0_r. exact Hname. }
    rewrite Hfail in E. discriminate E.
  - assert (E : nth 8 (load_bytes p (zlen (status_bytes id SSH_FX_FAILURE))
                         (data (obuff s'))) 0 = 1).
    { unfold load_bytes in *.
      replace (firstn (Z.to_nat (zlen (status_bytes id SSH_FX_FAILURE)))
                 (skipn (Z.to_nat p) (data (obuff s'))))
        with (firstn (Z.to_nat (zlen (status_bytes id SSH_FX_FAILURE)))
                (firstn (Z.to_nat (zlen (status_bytes id SSH_FX_EOF)))
                   (skipn (Z.to_nat p) (data (obuff s')))))
        by (rewrite firstn_firstn; reflexivity).
      rewrite Heof. reflexivity. }
    rewrite Hfail in E. discriminate E.
Qed.

End ReaddirResponse.

(** * Further properties of the code *)

(** ** Wire primitives *)

Section ExtraCodec.

Context {P : Platform} {H : Host}.

Lemma skipn_store_bytes_above (p q : Z) (bs l : list Z) :
  0 <= p -> p + zlen bs <= q -> p + zlen bs <= zlen l ->
  skipn (Z.to_nat q) (store_bytes p bs l) = skipn (Z.to_nat q) l.
Proof.
  unfold store_bytes, zlen. intros Hp Hq Hl.
  rewrite app_assoc.
  replace (Z.to_nat q)
    with ((Z.to_nat p + List.length bs)
          + (Z.to_nat q - (Z.to_nat p + List.length bs)))%nat by lia.
  rewrite skipn_past
    by (rewrite length_app, length_firstn; lia).
  rewrite skipn_skipn. f_equal. lia.
Qed.

Lemma store_bytes_overwrite (p : Z) (a a' b l : list Z) :
  0 <= p -> p + zlen a + zlen b <= zlen l -> zlen a' = zlen a ->
  store_bytes p a' (store_bytes p (a ++ b) l) = store_bytes p (a' ++ b) l.
Proof.
  unfold store_bytes, zlen. intros Hp Hl Ha.
  assert (Hn : List.length (firstn (Z.to_nat p) l) = Z.to_nat p)
    by (rewrite length_firstn; lia).
  rewrite firstn_exact by exact Hn.
  replace (Z.to_nat p + List.length a')%nat
    with (Z.to_nat p + List.length a)%nat by lia.
  rewrite skipn_past by exact Hn.
  rewrite <- (Nat.add_0_r (List.length a)) at 1.
  rewrite <- app_assoc, skipn_past by reflexivity.
  rewrite skipn_0, !length_app, <- !app_assoc.
  do 3 f_equal. f_equal. lia.
Qed.

Lemma get_uint32_short (s : state) :
  count (ibuff s) < 4 -> get_uint32 s = Abort.
Proof.
  intros Hc. unfold get_uint32, bind, get_ibuff, assert.
  destruct (Z.geb_spec (count (ibuff s)) 4); [lia | reflexivity].
Qed.

(** X1.  [put_uint32] stores the four bytes of its argument most
    significant first, and [get_uint32] on those four bytes gives the
    argument back, reduced modulo 2^32; the value 0x29b7f4aa is stored as
    29 b7 f4 aa. *)
Theorem uint32_wire_roundtrip (d : Z) (s_out s_in : state)
    (rest : list Z) :
  wf_buff (obuff s_out) -> 4 <= count (obuff s_out) ->
  0 <= p_data (ibuff s_in) -> 4 <= count (ibuff s_in) ->
  unread (ibuff s_in) = be32 d ++ rest ->
  put_uint32 d s_out
    = Ret tt (with_obuff s_out (buff_put (be32 d) (obuff s_out))) /\
  written (buff_put (be32 d) (obuff s_out))
    = written (obuff s_out) ++ be32 d /\
  get_uint32 s_in
    = Ret (uint32 d) (with_ibuff s_in (buff_skip 4 (ibuff s_in))) /\
  unread (buff_skip 4 (ibuff s_in)) = rest /\
  (0 <= d < 2 ^ 32 -> uint32 d = d) /\
  be32 699921578 = [41; 183; 244; 170].
Proof.
  intros Hwf Hroom Hp Hc Hun.
  refine (conj _ (conj _ (conj _ (conj _ (conj _ _))))).
  - now apply emits_put_uint32.
  - apply written_buff_put; [exact Hwf | now rewrite zlen_be32].
  - exact (parses_get_uint32 d s_in rest Hp
             ltac:(now rewrite zlen_be32) Hun).
  - rewrite <- (zlen_be32 d). now apply unread_skip.
  - apply uint32_small.
  - reflexivity.
Qed.

(** X2.  [put_uint64] stores the high word and then the low word, eight
    bytes in all, and [get_uint64] on them gives the value back, reduced
    modulo 2^64. *)
Theorem uint64_wire_roundtrip (d : Z) (s_out s_in : state)
    (rest : list Z) :
  wf_buff (obuff s_out) -> 8 <= count (obuff s_out) ->
  0 <= p_data (ibuff s_in) -> 8 <= count (ibuff s_in) ->
  0 <= d < 2 ^ 64 ->
  unread (ibuff s_in) = be64 d ++ rest ->
  put_uint64 d s_out
    = Ret tt (with_obuff s_out (buff_put (be64 d) (obuff s_out))) /\
  be64 d = be32 (d / 2 ^ 32) ++ be32 d /\
  get_uint64 s_in = Ret d (with_ibuff s_in (buff_skip 8 (ibuff s_in))) /\
  unread (buff_skip 8 (ibuff s_in)) = rest.
Proof.
  intros Hwf Hroom Hp Hc Hd Hun.
  assert (Hlen : zlen (be64 d) = 8) by reflexivity.
  refine (conj _ (conj _ (conj _ _))).
  - apply emits_put_uint64; [exact Hwf | now rewrite Hlen].
  - unfold be64. now rewrite Z.shiftr_div_pow2 by lia.
  - rewrite <- Hlen.
    exact (parses_get_uint64 d Hd s_in rest Hp ltac:(now rewrite Hlen) Hun).
  - rewrite <- Hlen. now apply unread_skip.
Qed.

(** A computation that only moves the read cursor also reads past. *)
Lemma parses_reads_past {A} (m : M A) (bs : list Z) (v : A) :
  parses m bs v -> reads_past m bs v.
Proof.
  intros Hm s rest (Hp & Hc & Hin) Hlen Hun.
  exists (data (ibuff s)). split; [| split].
  - now rewrite (Hm s rest Hp Hlen Hun).
  - reflexivity.
  - exact (unread_skip _ _ _ Hp Hun).
Qed.

Lemma reads_past_bind {A B} (m : M A) (f : A -> M B) (b1 b2 : list Z)
    (v1 : A) (v2 : B) :
  reads_past m b1 v1 -> reads_past (f v1) b2 v2 ->
  reads_past (bind m f) (b1 ++ b2) v2.
Proof.
  intros E1 E2 s rest Hok Hlen Hun.
  pose proof Hok as (Hp & Hc & Hin).
  rewrite zlen_app in Hlen. rewrite <- app_assoc in Hun.
  pose proof (zlen_nonneg b1). pose proof (zlen_nonneg b2).
  destruct (E1 s (b2 ++ rest) Hok ltac:(lia) Hun) as (d1 & R1 & L1 & U1).
  rewrite (bind_Ret _ _ _ _ _ R1).
  destruct (E2 (with_ibuff s
                  (mk_buff (count (ibuff s) - zlen b1)
                           (p_data (ibuff s) + zlen b1) d1)) rest)
    as (d2 & R2 & L2 & U2).
  - unfold ibuff_ok. cbn [ibuff with_ibuff count p_data data]. lia.
  - cbn [ibuff with_ibuff count]. lia.
  - exact U1.
  - exists d2. cbn [ibuff with_ibuff count p_data data] in *.
    rewrite R2, with_ibuff_twice, zlen_app.
    replace (count (ibuff s) - zlen b1 - zlen b2)
      with (count (ibuff s) - (zlen b1 + zlen b2)) by lia.
    replace (p_data (ibuff s) + zlen b1 + zlen b2)
      with (p_data (ibuff s) + (zlen b1 + zlen b2)) in * by lia.
    split; [reflexivity |]. split; [lia | exact U2].
Qed.

Lemma reads_past_ret {A} (v : A) : reads_past (ret v) [] v.
Proof. apply parses_reads_past, parses_ret. Qed.

Lemma load_bytes_unread (ib : buff_t) (a rest : list Z) :
  unread ib = a ++ rest -> load_bytes (p_data ib) (zlen a) (data ib) = a.
Proof.
  unfold load_bytes, unread, zlen. intros ->.
  rewrite Nat2Z.id. now apply firstn_exact.
Qed.

(** The step of [get_string] after the length has been read. *)
Lemma get_string_reads_past (str : list Z) :
  zlen str < 2 ^ 32 ->
  reads_past get_string (string_bytes str) (str, zlen str) /\
  forall s rest,
    ibuff_ok (ibuff s) -> zlen (string_bytes str) <= count (ibuff s) ->
    unread (ibuff s) = string_bytes str ++ rest ->
    forall v s', get_string s = Ret v s' ->
      load_bytes (p_data (ibuff s)) (zlen str + 1) (data (ibuff s'))
      = str ++ [0].
Proof.
  intros Hlen.
  assert (Hcore : forall s rest,
    ibuff_ok (ibuff s) -> zlen (string_bytes str) <= count (ibuff s) ->
    unread (ibuff s) = string_bytes str ++ rest ->
    get_string s
    = Ret (str, zlen str)
        (with_ibuff s
           (mk_buff (count (ibuff s) - zlen (string_bytes str))
              (p_data (ibuff s) + zlen (string_bytes str))
              (store_bytes (p_data (ibuff s)) (str ++ [0])
                 (data (ibuff s)))))).
  { intros s rest (Hp & Hc & Hin) Hroom Hun.
    unfold string_bytes in *. rewrite zlen_app, zlen_be32 in *.
    pose proof (zlen_nonneg str) as Hnn.
    rewrite <- app_assoc in Hun.
    unfold get_string. unfold bind at 1. unfold get_ibuff at 1.
    rewrite (bind_Ret _ _ _ _ _
               (parses_get_uint32 (zlen str) s (str ++ rest) Hp
                  ltac:(rewrite zlen_be32; lia) Hun)).
    rewrite uint32_small by lia. rewrite zlen_be32.
    unfold bind at 1. unfold get_ibuff at 1.
    cbn [ibuff with_ibuff buff_skip count p_data data].
    unfold bind at 1. unfold assert.
    destruct (Z.leb_spec (zlen str) (count (ibuff s) - 4)); [| lia].
    unfold bind, set_ibuff, ret.
    assert (Hstr : load_bytes (p_data (ibuff s) + 4) (zlen str)
                     (data (ibuff s)) = str).
    { apply (load_bytes_unread (buff_skip 4 (ibuff s)) str rest).
      rewrite <- (zlen_be32 (zlen str)).
      now apply unread_skip. }
    rewrite Hstr. cbn [ibuff obuff have_init handles world].
    unfold with_ibuff. do 3 f_equal; lia. }
  split.
  - intros s rest Hok Hroom Hun. pose proof Hok as (Hp & Hc & Hin).
    pose proof (zlen_nonneg str) as Hnn.
    assert (Hsb : zlen (string_bytes str) = 4 + zlen str)
      by (unfold string_bytes; now rewrite zlen_app, zlen_be32).
    eexists. split; [exact (Hcore s rest Hok Hroom Hun) |].
    split.
    + apply store_bytes_zlen; [exact Hp |].
      rewrite zlen_app. change (zlen [0]) with 1. lia.
    + rewrite skipn_store_bytes_above.
      * exact (unread_skip _ _ _ Hp Hun).
      * exact Hp.
      * rewrite zlen_app. change (zlen [0]) with 1. lia.
      * rewrite zlen_app. change (zlen [0]) with 1. lia.
  - intros s rest Hok Hroom Hun v s' Hrun.
    pose proof Hok as (Hp & Hc & Hin).
    rewrite (Hcore s rest Hok Hroom Hun) in Hrun.
    inversion Hrun; subst. cbn [ibuff with_ibuff data].
    replace (zlen str + 1) with (zlen (str ++ [0]))
      by (rewrite zlen_app; reflexivity).
    apply load_bytes_store; [exact Hp |].
    pose proof (zlen_nonneg str). lia.
Qed.

(** X3.  [get_string] on a length-prefixed string returns its bytes and
    its length and consumes the four bytes of the length and the string.
    It moves the string down over its length field and stores a NUL after
    it, so the memory it returns is a C string; the rest of the packet and
    the size of the buffer are untouched. *)
Theorem get_string_in_place (str rest : list Z) (s : state) :
  zlen str < 2 ^ 32 ->
  ibuff_ok (ibuff s) -> 4 + zlen str <= count (ibuff s) ->
  unread (ibuff s) = string_bytes str ++ rest ->
  exists d',
    get_string s
    = Ret (str, zlen str)
        (with_ibuff s (mk_buff (count (ibuff s) - (4 + zlen str))
                               (p_data (ibuff s) + (4 + zlen str)) d')) /\
    load_bytes (p_data (ibuff s)) (zlen str + 1) d' = str ++ [0] /\
    skipn (Z.to_nat (p_data (ibuff s) + (4 + zlen str))) d' = rest /\
    zlen d' = zlen (data (ibuff s)).
Proof.
  intros Hlen Hok Hroom Hun.
  assert (Hsb : zlen (string_bytes str) = 4 + zlen str)
    by (unfold string_bytes; now rewrite zlen_app, zlen_be32).
  destruct (get_string_reads_past str Hlen) as [Hread Hnul].
  destruct (Hread s rest Hok ltac:(lia) Hun) as (d' & Hrun & Hsz & Hrest).
  rewrite Hsb in *.
  exists d'. split; [exact Hrun |].
  split; [| split; assumption].
  exact (Hnul s rest Hok ltac:(lia) Hun _ _ Hrun).
Qed.

(** X4.  A field that does not fit in what is left of the packet fails
    the assertion: a byte when nothing is left, a uint32 when fewer than
    four bytes are left, and a string or data field whose length prefix is
    larger than what follows it. *)
Theorem truncated_field_aborts (s : state) (len : Z) (rest : list Z) :
  (count (ibuff s) <= 0 -> get_byte s = Abort) /\
  (count (ibuff s) < 4 -> get_uint32 s = Abort /\ get_uint64 s = Abort /\
     get_string s = Abort /\ get_data s = Abort /\ get_attrs s = Abort) /\
  (0 <= p_data (ibuff s) -> 4 <= count (ibuff s) ->
   unread (ibuff s) = be32 len ++ rest ->
   count (ibuff s) - 4 < uint32 len ->
     get_string s = Abort /\ get_data s = Abort).
Proof.
  refine (conj _ (conj _ _)).
  - intros Hc. unfold get_byte, bind, get_ibuff, assert.
    destruct (Z.gtb_spec (count (ibuff s)) 0); [lia | reflexivity].
  - intros Hc. pose proof (get_uint32_short s Hc) as E.
    repeat split.
    + exact E.
    + unfold get_uint64, bind. now rewrite E.
    + unfold get_string, bind, get_ibuff. now rewrite E.
    + unfold get_data, bind. now rewrite E.
    + unfold get_attrs, bind. now rewrite E.
  - intros Hp Hc Hun Hbig.
    pose proof (parses_get_uint32 len s rest Hp
                  ltac:(now rewrite zlen_be32) Hun) as E.
    rewrite zlen_be32 in E.
    split.
    + unfold get_string. unfold bind at 1. unfold get_ibuff at 1.
      rewrite (bind_Ret _ _ _ _ _ E).
      unfold bind, get_ibuff, assert.
      cbn [ibuff with_ibuff buff_skip count].
      destruct (Z.leb_spec (uint32 len) (count (ibuff s) - 4));
        [lia | reflexivity].
    + unfold get_data. rewrite (bind_Ret _ _ _ _ _ E).
      unfold bind, get_ibuff, assert.
      cbn [ibuff with_ibuff buff_skip count].
      destruct (Z.leb_spec (uint32 len) (count (ibuff s) - 4));
        [lia | reflexivity].
Qed.

(** X5.  [put_cstring] writes what [strlen] sees -- the bytes before the
    first NUL -- with their length in front, and [get_string] reads that
    string back. *)
Theorem string_wire_roundtrip (w : World) (sz_str : list Z) :
  4 + zlen (c_str sz_str) <= MAX_PACKET ->
  put_cstring sz_str (with_obuff (initial_state w) empty_buff)
    = Ret tt (with_obuff (initial_state w)
                (buff_put (string_bytes (c_str sz_str)) empty_buff)) /\
  string_read_back w sz_str = Some (c_str sz_str, zlen (c_str sz_str)).
Proof.
  intros Hlen.
  assert (Hsb : zlen (string_bytes (c_str sz_str)) = 4 + zlen (c_str sz_str))
    by (unfold string_bytes; now rewrite zlen_app, zlen_be32).
  assert (Hwf : wf_buff empty_buff).
  { unfold wf_buff, empty_buff, zlen. cbn [count p_data data].
    rewrite repeat_length. unfold MAX_PACKET. lia. }
  assert (Hput : put_cstring sz_str (with_obuff (initial_state w) empty_buff)
    = Ret tt (with_obuff (initial_state w)
                (buff_put (string_bytes (c_str sz_str)) empty_buff))).
  { apply (emits_put_cstring sz_str
             (with_obuff (initial_state w) empty_buff)); [exact Hwf |].
    cbn [obuff with_obuff empty_buff count]. lia. }
  split; [exact Hput |].
  unfold string_read_back. rewrite Hput. cbn [obuff with_obuff].
  rewrite written_empty_put by lia.
  destruct (unread_buff_holding (string_bytes (c_str sz_str)))
    as [rest Hrest].
  unfold MAX_PACKET in Hlen.
  destruct (get_string_reads_past (c_str sz_str) ltac:(lia)) as [Hread _].
  destruct (Hread (with_ibuff (initial_state w)
                     (buff_holding (string_bytes (c_str sz_str)))) rest)
    as (d' & Hrun & _).
  - unfold ibuff_ok, buff_holding. cbn [ibuff with_ibuff count p_data data].
    pose proof (zlen_nonneg (string_bytes (c_str sz_str))).
    assert (Hz : zlen (repeat 0 (Z.to_nat MAX_PACKET)) = MAX_PACKET)
      by (unfold zlen; rewrite repeat_length; unfold MAX_PACKET; lia).
    rewrite store_bytes_zlen; rewrite ?Hz; unfold MAX_PACKET; lia.
  - cbn [ibuff with_ibuff buff_holding count]. lia.
  - exact Hrest.
  - now rewrite Hrun.
Qed.

(** Reserve and patch: after the cursor is saved, a placeholder
    written, a body [bs] emitted, and the placeholder overwritten with
    [n] through [buff_swap], the buffer holds [n] followed by [bs] and the
    cursor stands after [bs], as if [n] had been known from the start. *)
Theorem reserve_and_patch_result (body : M unit) (bs : list Z) (n : Z)
    (s : state) :
  emits body bs ->
  wf_buff (obuff s) -> 4 + zlen bs <= count (obuff s) ->
  reserve_and_patch body n s
  = Ret tt (with_obuff s (buff_put (be32 n ++ bs) (obuff s))).
Proof.
  intros Hbody Hwf Hroom.
  pose proof Hwf as (Hp & Hc & Hin & Hsz).
  pose proof (zlen_nonneg bs) as Hnn.
  set (ob := obuff s) in *.
  assert (Hfirst : (put_uint32 0 ;; body) s
                   = Ret tt (with_obuff s (buff_put (be32 0 ++ bs) ob))).
  { apply (emits_bind _ _ _ _ (emits_put_uint32 0) Hbody); [exact Hwf |].
    rewrite zlen_app, zlen_be32. fold ob. lia. }
  unfold reserve_and_patch.
  unfold bind at 1. unfold buff_save at 1. unfold bind at 1.
  unfold get_obuff at 1, ret at 1. fold ob.
  unfold bind at 1. unfold bind in Hfirst.
  destruct (put_uint32 0 s) as [[] s1 | | |]; try discriminate.
  unfold bind at 1. rewrite Hfirst.
  unfold bind at 1. unfold buff_swap at 1. unfold bind at 1.
  unfold get_obuff at 1. cbn [obuff with_obuff].
  unfold bind at 1. unfold set_obuff at 1, ret at 1.
  cbn [save_count save_p_data count p_data data buff_put].
  set (d1 := store_bytes (p_data ob) (be32 0 ++ bs) (data ob)).
  set (s2 := mk_state _ _ _ _ _).
  assert (Hd1 : zlen d1 = zlen (data ob)).
  { apply store_bytes_zlen; [exact Hp |].
    rewrite zlen_app, zlen_be32. lia. }
  rewrite (bind_Ret _ _ _ _ _
             (emits_put_uint32 n s2 ltac:(unfold wf_buff, s2;
                cbn [obuff count p_data data]; lia)
                ltac:(unfold s2; cbn [obuff count]; rewrite zlen_be32; lia))).
  unfold bind, buff_swap, get_obuff, set_obuff, ret, bind.
  cbn [obuff with_obuff save_count save_p_data count p_data data buff_put
         ibuff have_init handles world s2].
  unfold with_obuff. do 2 f_equal.
  unfold buff_put. fold ob. unfold d1.
  rewrite store_bytes_overwrite
    by (rewrite ?zlen_be32; try reflexivity; lia).
  reflexivity.
Qed.

End ExtraCodec.

Ltac holds_by_computation :=
  vm_compute; repeat split; (reflexivity || discriminate).

(** The four bytes 29 b7 f4 aa are read as 0x29b7f4aa. *)
Lemma uint32_wire_roundtrip_sim :
  get_uint32 (sim_reading [41; 183; 244; 170])
  = Ret 699921578
      (with_ibuff (sim_reading [41; 183; 244; 170])
         (buff_skip 4 (ibuff (sim_reading [41; 183; 244; 170])))).
Proof.
  destruct (uint32_wire_roundtrip 699921578 sim_writing
              (sim_reading (be32 699921578)) (sim_tail (be32 699921578)))
    as (_ & _ & Hget & _ & Hsmall & _);
    [holds_by_computation | holds_by_computation | holds_by_computation
    | holds_by_computation | reflexivity |].
  rewrite (Hsmall ltac:(lia)) in Hget. exact Hget.
Defined.

(** The eight bytes 00 00 00 01 00 00 00 02 are read as 2^32 + 2. *)
Lemma uint64_wire_roundtrip_sim :
  be64 4294967298 = [0; 0; 0; 1; 0; 0; 0; 2] /\
  get_uint64 (sim_reading [0; 0; 0; 1; 0; 0; 0; 2])
  = Ret 4294967298
      (with_ibuff (sim_reading [0; 0; 0; 1; 0; 0; 0; 2])
         (buff_skip 8 (ibuff (sim_reading [0; 0; 0; 1; 0; 0; 0; 2])))).
Proof.
  split; [reflexivity |].
  destruct (uint64_wire_roundtrip 4294967298 sim_writing
              (sim_reading (be64 4294967298)) (sim_tail (be64 4294967298)))
    as (_ & _ & Hget & _);
    [holds_by_computation | holds_by_computation | holds_by_computation
    | holds_by_computation | lia | reflexivity |].
  exact Hget.
Defined.

(** The string "hi" followed by one more byte of the packet. *)
Lemma get_string_in_place_sim :
  exists d',
    get_string (sim_reading [0; 0; 0; 2; 104; 105; 7])
    = Ret ([104; 105], 2)
        (with_ibuff (sim_reading [0; 0; 0; 2; 104; 105; 7])
           (mk_buff (7 - (4 + 2)) (0 + (4 + 2)) d')) /\
    load_bytes 0 (2 + 1) d' = [104; 105; 0] /\
    skipn (Z.to_nat (0 + (4 + 2))) d' = [7] ++ sim_tail [0; 0; 0; 2; 104; 105; 7] /\
    zlen d' = zlen (data (ibuff (sim_reading [0; 0; 0; 2; 104; 105; 7]))).
Proof.
  apply (get_string_in_place [104; 105]
           ([7] ++ sim_tail [0; 0; 0; 2; 104; 105; 7])
           (sim_reading [0; 0; 0; 2; 104; 105; 7]));
    [holds_by_computation | holds_by_computation | holds_by_computation
    | reflexivity].
Defined.

(** A string that announces 9 bytes in a packet with 2 left. *)
Lemma truncated_field_aborts_sim :
  get_string (sim_reading [0; 0; 0; 9; 104; 105]) = Abort /\
  get_data (sim_reading [0; 0; 0; 9; 104; 105]) = Abort.
Proof.
  apply (proj2 (proj2 (truncated_field_aborts
                         (sim_reading [0; 0; 0; 9; 104; 105]) 9
                         ([104; 105] ++ sim_tail [0; 0; 0; 9; 104; 105]))));
    [holds_by_computation | holds_by_computation | reflexivity
    | holds_by_computation].
Defined.

(** The memory "ab", NUL, "cd" is written and read back as "ab". *)
Lemma string_wire_roundtrip_sim :
  string_read_back (sim_world [] []) [97; 98; 0; 99; 100]
  = Some ([97; 98], 2).
Proof.
  apply (@string_wire_roundtrip Sim.host (sim_world [] [])
           [97; 98; 0; 99; 100]).
  holds_by_computation.
Defined.

(** A length placeholder patched to 6 in front of the string "en". *)
Lemma reserve_and_patch_result_sim :
  reserve_and_patch (put_cstring [101; 110]) 6 sim_writing
  = Ret tt (with_obuff sim_writing
              (buff_put (be32 6 ++ string_bytes [101; 110])
                 (obuff sim_writing))).
Proof.
  apply (reserve_and_patch_result (put_cstring [101; 110])
           (string_bytes [101; 110]) 6 sim_writing
           (emits_put_cstring [101; 110]));
    holds_by_computation.
Defined.

(** ** The handle table *)

Section ExtraHandles.

Context {P : Platform} {H : Host}.

Lemma first_free_found (hs : list fxp_handle_t) :
  forall (k i : nat),
    (i < List.length hs)%nat -> use (slot hs i) = HANDLE_FREE ->
    (forall j, (j < i)%nat -> use (slot hs j) <> HANDLE_FREE) ->
    first_free hs k = Some (k + i)%nat.
Proof.
  induction hs as [| h t IH]; intros k i Hlt Hfree Hbefore.
  - simpl in Hlt. lia.
  - destruct i as [| i].
    + unfold slot in Hfree. simpl in Hfree. simpl. rewrite Hfree.
      f_equal. lia.
    + pose proof (Hbefore O ltac:(lia)) as H0.
      unfold slot in H0. simpl in H0. simpl.
      destruct (use h); [contradiction | |];
        (rewrite (IH (S k) i);
         [f_equal; lia | simpl in Hlt; lia | exact Hfree
         | intros j Hj; exact (Hbefore (S j) ltac:(lia))]).
Qed.

Lemma first_free_none (hs : list fxp_handle_t) :
  forall k, table_full hs -> first_free hs k = None.
Proof.
  induction hs as [| h t IH]; intros k Hfull; [reflexivity |].
  pose proof (Hfull O ltac:(simpl; lia)) as H0.
  unfold slot in H0. simpl in H0. simpl.
  destruct (use h); [contradiction | |];
    (apply IH; intros j Hj; exact (Hfull (S j) ltac:(simpl; lia))).
Qed.

Lemma update_nth_length {A} (n : nat) (x : A) (l : list A) :
  List.length (update_nth n x l) = List.length l.
Proof.
  revert n. induction l as [| a t IH]; intros [| n]; simpl; auto.
Qed.

Lemma update_nth_same {A} (n : nat) (x d : A) (l : list A) :
  (n < List.length l)%nat -> nth n (update_nth n x l) d = x.
Proof.
  revert n. induction l as [| a t IH]; intros [| n] Hn; simpl in *;
    try lia; auto. apply IH. lia.
Qed.

Lemma update_nth_other {A} (n m : nat) (x d : A) (l : list A) :
  m <> n -> nth m (update_nth n x l) d = nth m l d.
Proof.
  revert n m. induction l as [| a t IH]; intros n m Hne.
  - now destruct n.
  - destruct n as [| n], m as [| m]; simpl; try reflexivity; try lia.
    apply IH. lia.
Qed.

Lemma handle_alloc_file_at (s : state) (fd_ : Z) (i : nat) :
  first_free_at (handles s) i ->
  handle_alloc_file fd_ s
  = Ret (Z.of_nat i + 1)
      (with_handles s
         (update_nth i (as_file (slot (handles s) i) fd_) (handles s))).
Proof.
  intros (Hlt & Hfree & Hbefore).
  pose proof (first_free_found (handles s) O i Hlt Hfree Hbefore) as Hff.
  cbn [Nat.add] in Hff.
  unfold handle_alloc_file, bind, get_handles. rewrite Hff. reflexivity.
Qed.

Lemma handle_alloc_dir_at (s : state) (fd_ p_dir_ : Z) (i : nat) :
  first_free_at (handles s) i ->
  handle_alloc_dir fd_ p_dir_ s
  = Ret (Z.of_nat i + 1)
      (with_handles s (update_nth i (as_dir fd_ p_dir_) (handles s))).
Proof.
  intros (Hlt & Hfree & Hbefore).
  pose proof (first_free_found (handles s) O i Hlt Hfree Hbefore) as Hff.
  cbn [Nat.add] in Hff.
  unfold handle_alloc_dir, bind, get_handles. rewrite Hff. reflexivity.
Qed.

Lemma handle_alloc_file_full (s : state) (fd_ : Z) :
  table_full (handles s) -> handle_alloc_file fd_ s = Ret 0 s.
Proof.
  intros Hfull.
  pose proof (first_free_none (handles s) O Hfull) as Hff.
  unfold handle_alloc_file, bind, get_handles. rewrite Hff.
  now destruct s.
Qed.

Lemma handle_alloc_dir_full (s : state) (fd_ p_dir_ : Z) :
  table_full (handles s) -> handle_alloc_dir fd_ p_dir_ s = Ret 0 s.
Proof.
  intros Hfull.
  pose proof (first_free_none (handles s) O Hfull) as Hff.
  unfold handle_alloc_dir, bind, get_handles. rewrite Hff.
  now destruct s.
Qed.

(** X7.  Allocation is first fit: when slot [i] is the first free slot,
    [handle_alloc_file] and [handle_alloc_dir] return [i + 1] and change
    that slot alone; the table keeps its size.  [handle_alloc_file] sets
    [use] and [fd] and leaves in [p_dir] whatever the slot held before. *)
Theorem handle_alloc_first_fit (s : state) (fd_ p_dir_ : Z) (i : nat) :
  first_free_at (handles s) i ->
  let hs := handles s in
  let hs_file := update_nth i (as_file (slot hs i) fd_) hs in
  let hs_dir := update_nth i (as_dir fd_ p_dir_) hs in
  handle_alloc_file fd_ s = Ret (Z.of_nat i + 1) (with_handles s hs_file) /\
  handle_alloc_dir fd_ p_dir_ s
    = Ret (Z.of_nat i + 1) (with_handles s hs_dir) /\
  slot hs_file i = as_file (slot hs i) fd_ /\
  slot hs_dir i = as_dir fd_ p_dir_ /\
  (forall j, j <> i -> slot hs_file j = slot hs j /\
                       slot hs_dir j = slot hs j) /\
  List.length hs_file = List.length hs /\
  List.length hs_dir = List.length hs /\
  1 <= Z.of_nat i + 1 <= Z.of_nat (List.length hs).
Proof.
  intros Hat hs hs_file hs_dir.
  pose proof Hat as (Hlt & Hfree & Hbefore).
  refine (conj _ (conj _ (conj _ (conj _ (conj _ (conj _ (conj _ _))))))).
  - now apply handle_alloc_file_at.
  - now apply handle_alloc_dir_at.
  - unfold slot, hs_file. now apply update_nth_same.
  - unfold slot, hs_dir. now apply update_nth_same.
  - intros j Hj. unfold slot, hs_file, hs_dir.
    split; now apply update_nth_other.
  - apply update_nth_length.
  - apply update_nth_length.
  - unfold hs. lia.
Qed.

(** X8.  When no slot is free, both allocators return 0 and leave the
    table, and everything else, as it was. *)
Theorem handle_alloc_table_full (s : state) (fd_ p_dir_ : Z) :
  table_full (handles s) ->
  handle_alloc_file fd_ s = Ret 0 s /\
  handle_alloc_dir fd_ p_dir_ s = Ret 0 s.
Proof.
  intros Hfull. split.
  - now apply handle_alloc_file_full.
  - now apply handle_alloc_dir_full.
Qed.

Lemma handle_digits_value (h : Z) :
  1 <= h <= MAX_HANDLES ->
  exists d1 d2, 0 <= d1 <= 9 /\ 0 <= d2 <= 9 /\ 10 * d1 + d2 = h /\
                handle_digits h = [48 + d1; 48 + d2].
Proof.
  unfold MAX_HANDLES. intros Hh.
  exists (h / 10), (h mod 10).
  pose proof (Z.div_mod h 10 ltac:(lia)).
  pose proof (Z.mod_pos_bound h 10 ltac:(lia)).
  assert (0 <= h / 10 <= 9)
    by (split; [apply Z.div_pos; lia
               | apply Z.lt_succ_r, Z.div_lt_upper_bound; lia]).
  repeat split; try lia. 
Qed.

Lemma c_str_handle_digits (h : Z) :
  1 <= h <= MAX_HANDLES -> c_str (handle_digits h) = handle_digits h.
Proof.
  intros Hh.
  destruct (handle_digits_value h Hh) as (d1 & d2 & H1 & H2 & _ & ->).
  cbn [c_str].
  destruct (Z.eqb_spec (48 + d1) 0); [lia |].
  destruct (Z.eqb_spec (48 + d2) 0); [lia |]. reflexivity.
Qed.

Lemma put_handle_at (s : state) (id h : Z) :
  1 <= h <= MAX_HANDLES ->
  wf_buff (obuff s) -> 11 <= count (obuff s) ->
  put_handle id h s
  = Ret tt (with_obuff s
              (buff_put (handle_bytes id (handle_digits h)) (obuff s))).
Proof.
  intros Hh Hwf Hroom.
  pose proof (c_str_handle_digits h Hh) as Hcstr.
  destruct (handle_digits_value h Hh) as (d1 & d2 & H1 & H2 & Hval & Hdig).
  unfold put_handle. unfold bind at 1. unfold assert.
  destruct (Z.gtb_spec h 0); [| lia].
  unfold bind at 1.
  destruct (Z.leb_spec h MAX_HANDLES); [| lia].
  unfold handle_bytes.
  apply (emits_bind _ _ [SSH_FXP_HANDLE] _ (emits_put_byte SSH_FXP_HANDLE)
           (emits_bind _ _ _ _ (emits_put_uint32 id)
              (eq_ind _ (fun x => emits (put_cstring (handle_digits h))
                                   (string_bytes x))
                 (emits_put_cstring (handle_digits h)) _ Hcstr)));
    [exact Hwf |].
  rewrite Hdig. change (11 <= count (obuff s)). exact Hroom.
Qed.

(** X9.  The handle string is the handle's number in two decimal digits,
    and it decodes to the slot it was made for: [put_handle] writes
    HANDLE, the id and that string, and [get_handle], given the string,
    returns slot [h - 1] when that slot is in use. *)
Theorem handle_wire_roundtrip (h id : Z) (s_out s_in : state)
    (rest : list Z) :
  1 <= h <= MAX_HANDLES ->
  use (slot (handles s_in) (Z.to_nat (h - 1))) <> HANDLE_FREE ->
  wf_buff (obuff s_out) -> 11 <= count (obuff s_out) ->
  ibuff_ok (ibuff s_in) -> 6 <= count (ibuff s_in) ->
  unread (ibuff s_in) = string_bytes (handle_digits h) ++ rest ->
  put_handle id h s_out
    = Ret tt (with_obuff s_out
                (buff_put (handle_bytes id (handle_digits h))
                   (obuff s_out))) /\
  zlen (handle_digits h) = MAX_HANDLE_DIGITS /\
  Forall (fun c => isdigit c = true) (handle_digits h) /\
  exists d',
    get_handle s_in
    = Ret (Some (Z.to_nat (h - 1)))
        (with_ibuff s_in (mk_buff (count (ibuff s_in) - 6)
                                  (p_data (ibuff s_in) + 6) d')) /\
    skipn (Z.to_nat (p_data (ibuff s_in) + 6)) d' = rest.
Proof.
  intros Hh Huse Hwf Hroom Hok Hc Hun.
  pose proof (c_str_handle_digits h Hh) as Hcstr.
  destruct (handle_digits_value h Hh) as (d1 & d2 & H1 & H2 & Hval & Hdig).
  refine (conj _ (conj _ (conj _ _))).
  - now apply put_handle_at.
  - now rewrite Hdig.
  - rewrite Hdig. unfold isdigit.
    repeat constructor;
      (apply andb_true_intro; split; apply Z.leb_le; lia).
  - assert (Hlook : forall hs,
              use (slot hs (Z.to_nat (h - 1))) <> HANDLE_FREE ->
              handle_lookup hs (handle_digits h) 2
              = Some (Z.to_nat (h - 1))).
    { intros hs Hu. rewrite Hdig, handle_lookup_two_digits by assumption.
      rewrite Hval. destruct (Z.eqb_spec h 0); [lia |].
      destruct (use (slot hs (Z.to_nat (h - 1)))); try reflexivity.
      contradiction. }
    destruct (get_string_reads_past (handle_digits h)
                ltac:(rewrite Hdig; reflexivity)) as [Hread _].
    assert (Hsb : zlen (string_bytes (handle_digits h)) = 6)
      by (now rewrite Hdig).
    destruct (Hread s_in rest Hok ltac:(lia) Hun) as (d' & Hrun & _ & Hrest).
    rewrite Hsb in *.
    exists d'. split; [| exact Hrest].
    rewrite get_handle_lookup, (bind_Ret _ _ _ _ _ Hrun).
    cbn [fst snd handles with_ibuff].
    replace (zlen (handle_digits h)) with 2 by (now rewrite Hdig).
    now rewrite Hlook.
Qed.

(** X10.  CLOSE on a handle in use releases what the slot holds --
    [close] for a file, [closedir] for a directory -- and marks the slot
    free whether or not that call fails; the status is OK, or the mapped
    errno when the call returns -1.  Nothing else in the table changes. *)
Theorem sftp_close_frees_slot (s s1 s2 : state) (id : Z) (i : nat)
    (c : syscall) (r : sysret) (w' : World) :
  get_uint32 s = Ret id s1 ->
  get_handle s1 = Ret (Some i) s2 ->
  close_call (slot (handles s2) i) = Some c ->
  sys c (world s2) = (r, w') ->
  wf_buff (obuff s2) -> 40 <= count (obuff s2) ->
  let status :=
    if ret_val r =? -1 then errno_to_sftp (errno w') else SSH_FX_OK in
  let hs' := update_nth i (as_free (slot (handles s2) i)) (handles s2) in
  sftp_close s
    = Ret tt (mk_state (ibuff s2)
                (buff_put (status_bytes id status) (obuff s2))
                (have_init s2) hs' w') /\
  ((i < List.length (handles s2))%nat ->
     use (slot hs' i) = HANDLE_FREE) /\
  (forall j, j <> i -> slot hs' j = slot (handles s2) j).
Proof.
  intros Hid Hh Hcall Hsys Hwf Hroom status hs'.
  refine (conj _ (conj _ _)).
  - unfold sftp_close.
    rewrite (bind_Ret _ _ _ _ _ Hid), (bind_Ret _ _ _ _ _ Hh).
    unfold bind at 1. unfold get_handles at 1.
    unfold close_call in Hcall.
    destruct (use (slot (handles s2) i)) eqn:Huse; try discriminate;
      inversion Hcall; subst c;
      unfold bind at 1; unfold bind at 1;
      rewrite (call_at _ _ _ _ Hsys);
      unfold status;
      (destruct (ret_val r =? -1);
       [ unfold bind at 1; unfold get_errno at 1; unfold ret at 1
       | unfold ret at 1 ]);
      unfold bind at 1; unfold get_handles at 1;
      unfold bind at 1; unfold set_handles at 1;
      cbn [ibuff obuff have_init handles world with_world];
      fold (as_free (slot (handles s2) i)); fold hs';
      (rewrite put_status_at; [reflexivity | exact Hwf | exact Hroom]).
  - intros Hlt. unfold slot, hs'. rewrite update_nth_same by exact Hlt.
    reflexivity.
  - intros j Hj. unfold slot, hs'. now apply update_nth_other.
Qed.

(** X11.  CLOSE with a handle string that does not decode answers
    STATUS(FAILURE), calls nothing and releases nothing. *)
Theorem sftp_close_unknown_handle (s s1 s2 : state) (id : Z) :
  get_uint32 s = Ret id s1 ->
  get_handle s1 = Ret None s2 ->
  wf_buff (obuff s2) -> 40 <= count (obuff s2) ->
  sftp_close s
  = Ret tt (with_obuff s2
              (buff_put (status_bytes id SSH_FX_FAILURE) (obuff s2))).
Proof.
  intros Hid Hh Hwf Hroom. unfold sftp_close.
  rewrite (bind_Ret _ _ _ _ _ Hid), (bind_Ret _ _ _ _ _ Hh).
  now apply put_status_at.
Qed.

(** X12.  A closed handle is handed out again: once slot [i] has been
    released and every slot before it is in use, the next allocation
    returns [i + 1], the handle that was closed. *)
Theorem closed_handle_is_reused (s : state) (i : nat) (fd_ : Z) :
  (i < List.length (handles s))%nat ->
  (forall j, (j < i)%nat -> use (slot (handles s) j) <> HANDLE_FREE) ->
  let freed :=
    with_handles s (update_nth i (as_free (slot (handles s) i))
                      (handles s)) in
  exists s', handle_alloc_file fd_ freed = Ret (Z.of_nat i + 1) s' /\
             slot (handles s') i
             = mk_handle HANDLE_FILE fd_ (p_dir (slot (handles s) i)).
Proof.
  intros Hlt Hbefore freed.
  assert (Hat : first_free_at (handles freed) i).
  { unfold freed. cbn [handles with_handles]. split; [| split].
    - now rewrite update_nth_length.
    - unfold slot. now rewrite update_nth_same.
    - intros j Hj. unfold slot.
      rewrite update_nth_other by lia. exact (Hbefore j Hj). }
  eexists. split; [exact (handle_alloc_file_at freed fd_ i Hat) |].
  cbn [handles with_handles]. unfold slot at 1.
  rewrite update_nth_same
    by (unfold freed; cbn [handles with_handles];
        now rewrite update_nth_length).
  unfold freed, as_file. cbn [handles with_handles].
  unfold slot at 1. rewrite update_nth_same by exact Hlt.
  reflexivity.
Qed.

End ExtraHandles.

Lemma table_two_open_first_free : first_free_at table_two_open 2.
Proof.
  split; [cbn; lia |]. split; [reflexivity |].
  intros j Hj. destruct j as [| [| j]]; [discriminate | discriminate | lia].
Qed.

(** With slots 1 and 2 in use, the next file gets handle 3. *)
Lemma handle_alloc_first_fit_sim :
  handle_alloc_file 5 (sim_with_table table_two_open)
  = Ret 3 (with_handles (sim_with_table table_two_open)
             (update_nth 2 (as_file (slot table_two_open 2) 5)
                table_two_open)).
Proof.
  exact (proj1 (handle_alloc_first_fit (sim_with_table table_two_open)
                  5 0 2 table_two_open_first_free)).
Defined.

Lemma table_all_open_full : table_full table_all_open.
Proof.
  intros j Hj. unfold slot, table_all_open in *.
  rewrite repeat_length in Hj. rewrite nth_repeat_lt by exact Hj.
  discriminate.
Qed.

(** With all 99 slots in use there is no handle to give. *)
Lemma handle_alloc_table_full_sim :
  handle_alloc_file 5 (sim_with_table table_all_open)
  = Ret 0 (sim_with_table table_all_open).
Proof.
  exact (proj1 (handle_alloc_table_full (sim_with_table table_all_open)
                  5 0 table_all_open_full)).
Defined.

(** Handle 2 is written as "02", and "02" decodes to the second slot. *)
Lemma handle_wire_roundtrip_sim :
  handle_digits 2 = [48; 50] /\
  exists d',
    get_handle (sim_reading_with (string_bytes [48; 50]) table_two_open)
    = Ret (Some 1%nat)
        (with_ibuff (sim_reading_with (string_bytes [48; 50]) table_two_open)
           (mk_buff (6 - 6) (0 + 6) d')) /\
    skipn (Z.to_nat (0 + 6)) d' = sim_tail (string_bytes [48; 50]).
Proof.
  split; [reflexivity |].
  destruct (handle_wire_roundtrip 2 9 sim_writing
              (sim_reading_with (string_bytes (handle_digits 2))
                 table_two_open)
              (sim_tail (string_bytes (handle_digits 2))))
    as (_ & _ & _ & d' & Hget & Hrest);
    [holds_by_computation | discriminate | holds_by_computation
    | holds_by_computation | holds_by_computation | holds_by_computation
    | reflexivity |].
  exists d'. split; [exact Hget | exact Hrest].
Defined.

(** CLOSE of the open file: [close] succeeds, the status is OK and the
    slot is free again. *)
Lemma sftp_close_frees_slot_sim :
  ret_val (fst close_result) = 0 /\
  sftp_close close_entry
  = Ret tt (mk_state (ibuff close_s2)
              (buff_put (status_bytes 2 SSH_FX_OK) (obuff close_s2))
              (have_init close_s2)
              (update_nth 0 (as_free (slot (handles close_s2) 0))
                 (handles close_s2))
              (snd close_result)).
Proof.
  split; [vm_compute; reflexivity |].
  refine (proj1 (sftp_close_frees_slot close_entry close_s1 close_s2 2 0
                   (SYS_close 3) (fst close_result) (snd close_result)
                   _ _ _ _ _ _));
    by_computation.
Defined.

(** CLOSE of "07", a slot that is free. *)
Lemma sftp_close_unknown_handle_sim :
  sftp_close close_free_entry
  = Ret tt (with_obuff close_free_s2
              (buff_put (status_bytes 2 SSH_FX_FAILURE)
                 (obuff close_free_s2))).
Proof.
  apply (sftp_close_unknown_handle close_free_entry close_free_s1
           close_free_s2 2);
    by_computation.
Defined.

(** With slots 1 and 2 in use, handle 2 is closed and given out again. *)
Lemma closed_handle_is_reused_sim :
  exists s',
    handle_alloc_file 5
      (with_handles (sim_with_table table_two_open)
         (update_nth 1 (as_free (slot table_two_open 1)) table_two_open))
    = Ret 2 s' /\
    slot (handles s') 1 = mk_handle HANDLE_FILE 5 4100.
Proof.
  apply (closed_handle_is_reused (sim_with_table table_two_open) 1 5).
  - cbn. lia.
  - intros j Hj. destruct j as [| j]; [discriminate | lia].
Defined.

(** ** The dispatcher *)

Section ExtraDispatch.

Context {P : Platform} {H : Host}.

Lemma bind_Abort {A B} (m : M A) (f : A -> M B) (s : state) :
  m s = Abort -> bind m f s = Abort.
Proof. intros E. unfold bind. now rewrite E. Qed.

Lemma bind_get_have_init {B} (f : bool -> M B) (s : state) :
  bind get_have_init f s = f (have_init s) s.
Proof. reflexivity. Qed.

(** X13.  INIT must come first and only once: before INIT has been
    seen, a packet with any other opcode fails the assertion and gets no
    reply; after it, a second INIT makes the process exit with
    EXIT_FAILURE. *)
Theorem sftp_in_init_gate (fuel : nat) (s s' : state) (opcode : Z) :
  get_byte s = Ret opcode s' ->
  (have_init s' = false -> opcode <> SSH_FXP_INIT ->
     sftp_in fuel s = Abort) /\
  (have_init s' = true -> opcode = SSH_FXP_INIT ->
     sftp_in fuel s = Exit EXIT_FAILURE s').
Proof.
  intros Hop. unfold sftp_in. rewrite (bind_Ret _ _ _ _ _ Hop).
  rewrite bind_get_have_init.
  split; intros Hinit Hcode; rewrite Hinit; cbn [negb].
  - unfold bind at 1. unfold assert.
    destruct (Z.eqb_spec opcode SSH_FXP_INIT); [contradiction | reflexivity].
  - subst opcode. reflexivity.
Qed.

(** X14.  The server does not negotiate: a first INIT with a version
    below 3 fails the assertion, and with any version from 3 up it is
    answered with VERSION 3 and no extension pairs, and INIT is recorded
    as seen. *)
Theorem sftp_in_init_version (fuel : nat) (s s1 s2 : state) (version : Z) :
  get_byte s = Ret SSH_FXP_INIT s1 ->
  have_init s1 = false ->
  get_uint32 s1 = Ret version s2 ->
  wf_buff (obuff s2) -> 5 <= count (obuff s2) ->
  (version < SFTP_PROTOCOL_VERSION -> sftp_in fuel s = Abort) /\
  (SFTP_PROTOCOL_VERSION <= version ->
     sftp_in fuel s
     = Ret tt (mk_state (ibuff s2)
                 (buff_put ([SSH_FXP_VERSION] ++ be32 SFTP_PROTOCOL_VERSION)
                    (obuff s2))
                 true (handles s2) (world s2))).
Proof.
  intros Hop Hinit Hver Hwf Hroom.
  assert (Hin : forall r, sftp_init s1 = r ->
            sftp_in fuel s
            = match r with
              | Ret _ s3 => set_have_init true s3
              | Abort => Abort
              | Exit c s3 => Exit c s3
              | OutOfFuel => OutOfFuel
              end).
  { intros r <-. unfold sftp_in. rewrite (bind_Ret _ _ _ _ _ Hop).
    rewrite bind_get_have_init, Hinit. cbn [negb].
    unfold bind at 1. unfold assert at 1.
    change (SSH_FXP_INIT =? SSH_FXP_INIT) with true. cbv iota.
    unfold bind at 1. now destruct (sftp_init s1). }
  split; intros Hv.
  - rewrite (Hin Abort); [reflexivity |].
    unfold sftp_init. rewrite (bind_Ret _ _ _ _ _ Hver).
    unfold bind at 1. unfold assert.
    destruct (Z.geb_spec version SFTP_PROTOCOL_VERSION); [lia | reflexivity].
  - rewrite (Hin (Ret tt (with_obuff s2
                   (buff_put ([SSH_FXP_VERSION]
                              ++ be32 SFTP_PROTOCOL_VERSION) (obuff s2)))));
      [reflexivity |].
    unfold sftp_init. rewrite (bind_Ret _ _ _ _ _ Hver).
    unfold bind at 1. unfold assert.
    destruct (Z.geb_spec version SFTP_PROTOCOL_VERSION); [| lia].
    apply (emits_bind _ _ [SSH_FXP_VERSION] _
             (emits_put_byte SSH_FXP_VERSION)
             (emits_put_uint32 SFTP_PROTOCOL_VERSION)); auto.
Qed.

(** X15.  After INIT, a packet whose opcode is none of those the server
    handles (OPEN to SYMLINK, 3 to 20) is answered with
    STATUS(OP_UNSUPPORTED) carrying the id read from its body; the host is
    not called. *)
Theorem sftp_in_unknown_opcode (fuel : nat) (s s1 s2 : state)
    (opcode id : Z) :
  get_byte s = Ret opcode s1 ->
  have_init s1 = true ->
  opcode <> SSH_FXP_INIT ->
  ~ (SSH_FXP_OPEN <= opcode <= SSH_FXP_SYMLINK) ->
  get_uint32 s1 = Ret id s2 ->
  wf_buff (obuff s2) -> 40 <= count (obuff s2) ->
  sftp_in fuel s
  = Ret tt (with_obuff s2
              (buff_put (status_bytes id SSH_FX_OP_UNSUPPORTED) (obuff s2))).
Proof.
  intros Hop Hinit Hne Hrange Hid Hwf Hroom. unfold sftp_in.
  rewrite (bind_Ret _ _ _ _ _ Hop).
  rewrite bind_get_have_init, Hinit. cbn [negb].
  unfold SSH_FXP_OPEN, SSH_FXP_SYMLINK in Hrange.
  repeat match goal with
  | |- context [opcode =? ?k] =>
      destruct (Z.eqb_spec opcode k) as [E | _];
      [exfalso; try contradiction; vm_compute in E; lia |]
  end.
  rewrite (bind_Ret _ _ _ _ _ Hid).
  now apply put_status_at.
Qed.

Ltac starts_with_id Hshort :=
  unfold bind at 1; rewrite (get_uint32_short _ Hshort); reflexivity.

(** X16.  A request too short to hold its id gets no reply: with fewer
    than four bytes after the opcode, every handler -- and the reply to an
    unknown opcode -- fails the assertion in [get_uint32]. *)
Theorem sftp_in_truncated_request (fuel : nat) (s s1 : state) (opcode : Z) :
  get_byte s = Ret opcode s1 ->
  count (ibuff s1) < 4 ->
  (have_init s1 = true -> opcode <> SSH_FXP_INIT) ->
  sftp_in fuel s = Abort.
Proof.
  intros Hop Hshort Hgate. unfold sftp_in.
  rewrite (bind_Ret _ _ _ _ _ Hop).
  rewrite bind_get_have_init.
  destruct (have_init s1); cbn [negb].
  - specialize (Hgate eq_refl).
    destruct (Z.eqb_spec opcode SSH_FXP_INIT); [contradiction |].
    repeat match goal with
    | |- context [opcode =? ?k] => destruct (opcode =? k)
    end;
      first
        [ unfold sftp_open; starts_with_id Hshort
        | unfold sftp_close; starts_with_id Hshort
        | unfold sftp_read; cbv zeta; starts_with_id Hshort
        | unfold sftp_write; starts_with_id Hshort
        | unfold sftp_lstat, do_stat; starts_with_id Hshort
        | unfold sftp_fstat; starts_with_id Hshort
        | unfold sftp_setstat; starts_with_id Hshort
        | unfold sftp_fsetstat; starts_with_id Hshort
        | unfold sftp_opendir; starts_with_id Hshort
        | unfold sftp_readdir; starts_with_id Hshort
        | unfold sftp_remove; starts_with_id Hshort
        | unfold sftp_mkdir; starts_with_id Hshort
        | unfold sftp_rmdir; starts_with_id Hshort
        | unfold sftp_realpath; starts_with_id Hshort
        | unfold sftp_stat, do_stat; starts_with_id Hshort
        | unfold sftp_rename; starts_with_id Hshort
        | unfold sftp_readlink; starts_with_id Hshort
        | unfold sftp_symlink; starts_with_id Hshort
        | starts_with_id Hshort ].
  - unfold bind at 1. unfold assert.
    destruct (opcode =? SSH_FXP_INIT); [| reflexivity].
    unfold sftp_init. unfold bind at 1.
    unfold bind at 1. now rewrite (get_uint32_short _ Hshort).
Qed.

End ExtraDispatch.

(** A second INIT. *)
Lemma sftp_in_init_gate_sim :
  sftp_in 0 (sim_serving true (req_init 3))
  = Exit EXIT_FAILURE (sim_dispatched true (req_init 3)).
Proof.
  refine (proj2 (sftp_in_init_gate 0 (sim_serving true (req_init 3))
                   (sim_dispatched true (req_init 3)) SSH_FXP_INIT _) _ _);
    by_computation.
Defined.

(** INIT with version 6 is answered with VERSION 3. *)
Lemma sftp_in_init_version_sim :
  sftp_in 0 (sim_serving false (req_init 6))
  = Ret tt (mk_state (ibuff (sim_id_read false (req_init 6)))
              (buff_put [SSH_FXP_VERSION; 0; 0; 0; 3]
                 (obuff (sim_id_read false (req_init 6))))
              true (handles (sim_id_read false (req_init 6)))
              (world (sim_id_read false (req_init 6)))).
Proof.
  refine (proj2 (sftp_in_init_version 0 (sim_serving false (req_init 6))
                   (sim_dispatched false (req_init 6))
                   (sim_id_read false (req_init 6)) 6 _ _ _ _ _) _);
    by_computation.
Defined.

(** EXTENDED (200) with id 9. *)
Lemma sftp_in_unknown_opcode_sim :
  sftp_in 0 (sim_serving true [200; 0; 0; 0; 9])
  = Ret tt (with_obuff (sim_id_read true [200; 0; 0; 0; 9])
              (buff_put (status_bytes 9 SSH_FX_OP_UNSUPPORTED)
                 (obuff (sim_id_read true [200; 0; 0; 0; 9])))).
Proof.
  apply (sftp_in_unknown_opcode 0 (sim_serving true [200; 0; 0; 0; 9])
           (sim_dispatched true [200; 0; 0; 0; 9])
           (sim_id_read true [200; 0; 0; 0; 9]) 200 9);
    try by_computation.
  vm_compute. intros [_ E]. now apply E.
Defined.

(** REMOVE with three bytes after the opcode. *)
Lemma sftp_in_truncated_request_sim :
  sftp_in 0 (sim_serving true [SSH_FXP_REMOVE; 0; 0; 1]) = Abort.
Proof.
  apply (sftp_in_truncated_request 0
           (sim_serving true [SSH_FXP_REMOVE; 0; 0; 1])
           (sim_dispatched true [SSH_FXP_REMOVE; 0; 0; 1]) SSH_FXP_REMOVE);
    by_computation.
Defined.

(** ** Handlers that answer with a status, a handle or attributes *)

Section ExtraHandlers.

Context {P : Platform} {H : Host}.

(** The common tail of the handlers that make one call and report its
    outcome. *)
Lemma status_reply (c : syscall) (failed : Z -> bool) (id : Z) (s : state)
    (r : sysret) (w : World) :
  sys c (world s) = (r, w) ->
  wf_buff (obuff s) -> 40 <= count (obuff s) ->
  bind (call c)
    (fun r0 => if failed (ret_val r0)
               then bind get_errno (fun e => put_status id (errno_to_sftp e))
               else put_status id SSH_FX_OK) s
  = Ret tt (with_obuff (with_world s w)
              (buff_put
                 (status_bytes id (if failed (ret_val r)
                                   then errno_to_sftp (errno w)
                                   else SSH_FX_OK))
                 (obuff s))).
Proof.
  intros Hsys Hwf Hroom.
  rewrite (bind_Ret _ _ _ _ _ (call_at _ _ _ _ Hsys)).
  destruct (failed (ret_val r)).
  - unfold bind, get_errno. cbn [world with_world].
    now rewrite put_status_at.
  - now rewrite put_status_at.
Qed.

Lemma store_bytes_cover (p : Z) (a b l : list Z) :
  0 <= p -> zlen a <= zlen b -> p + zlen b <= zlen l ->
  store_bytes p b (store_bytes p a l) = store_bytes p b l.
Proof.
  intros Hp Hab Hl. pose proof (zlen_nonneg a) as Ha.
  unfold store_bytes at 1.
  replace (firstn (Z.to_nat p) (store_bytes p a l))
    with (firstn (Z.to_nat p) l).
  - replace (Z.to_nat p + List.length b)%nat with (Z.to_nat (p + zlen b))
      by (unfold zlen; lia).
    rewrite skipn_store_bytes_above by lia.
    unfold store_bytes. do 3 f_equal. unfold zlen. lia.
  - unfold store_bytes. symmetry. apply firstn_exact.
    rewrite length_firstn. unfold zlen in *. lia.
Qed.

(** X17.  The three outcomes of OPEN.  The host's [open] is called with
    the C string of the file name, the translated flags and the mode of
    the request.  When it fails the answer is STATUS with the mapped errno;
    when it succeeds and slot [i] is the first free one, the answer is
    HANDLE with the two digits of [i + 1] and the slot holds the
    descriptor; when it succeeds and the table is full, the descriptor is
    closed again and the answer is STATUS(FAILURE). *)
Theorem sftp_open_response (s s1 s2 s3 s4 : state) (id n pflags : Z)
    (sz_filename : list Z) (attrs : attrs_t) (r : sysret) (w1 : World) :
  get_uint32 s = Ret id s1 ->
  get_string s1 = Ret (sz_filename, n) s2 ->
  get_uint32 s2 = Ret pflags s3 ->
  get_attrs s3 = Ret attrs s4 ->
  sys (SYS_open (c_str sz_filename) (pflags_to_unix pflags)
         (open_mode attrs)) (world s4) = (r, w1) ->
  wf_buff (obuff s4) -> 40 <= count (obuff s4) ->
  (ret_val r < 0 ->
     sftp_open s
     = Ret tt (with_obuff (with_world s4 w1)
                 (buff_put (status_bytes id (errno_to_sftp (errno w1)))
                    (obuff s4)))) /\
  (0 <= ret_val r ->
     forall i, first_free_at (handles s4) i -> Z.of_nat i < MAX_HANDLES ->
       sftp_open s
       = Ret tt (mk_state (ibuff s4)
                   (buff_put
                      (handle_bytes id (handle_digits (Z.of_nat i + 1)))
                      (obuff s4))
                   (have_init s4)
                   (update_nth i (as_file (slot (handles s4) i) (ret_val r))
                      (handles s4))
                   w1)) /\
  (0 <= ret_val r -> table_full (handles s4) ->
     forall r2 w2, sys (SYS_close (ret_val r)) w1 = (r2, w2) ->
       sftp_open s
       = Ret tt (with_obuff (with_world s4 w2)
                   (buff_put (status_bytes id SSH_FX_FAILURE) (obuff s4)))).
Proof.
  intros Hid Hname Hflags Hattrs Hsys Hwf Hroom.
  assert (Hrun : sftp_open s
    = (if ret_val r <? 0
       then e <- get_errno ;; put_status id (errno_to_sftp e)
       else handle <- handle_alloc_file (ret_val r) ;;
            if handle =? 0
            then call (SYS_close (ret_val r)) ;;
                 put_status id SSH_FX_FAILURE
            else put_handle id handle) (with_world s4 w1)).
  { unfold sftp_open.
    rewrite (bind_Ret _ _ _ _ _ Hid), (bind_Ret _ _ _ _ _ Hname).
    cbv beta iota.
    rewrite (bind_Ret _ _ _ _ _ Hflags), (bind_Ret _ _ _ _ _ Hattrs).
    cbv beta zeta. fold (open_mode attrs).
    now rewrite (bind_Ret _ _ _ _ _ (call_at _ _ _ _ Hsys)). }
  rewrite Hrun. refine (conj _ (conj _ _)).
  - intros Hneg. destruct (Z.ltb_spec (ret_val r) 0); [| lia].
    unfold bind, get_errno. cbn [world with_world].
    now rewrite put_status_at.
  - intros Hok i Hat Hi. destruct (Z.ltb_spec (ret_val r) 0); [lia |].
    rewrite (bind_Ret _ _ _ _ _
               (handle_alloc_file_at (with_world s4 w1) (ret_val r) i Hat)).
    destruct (Z.eqb_spec (Z.of_nat i + 1) 0); [lia |].
    rewrite put_handle_at; [reflexivity | unfold MAX_HANDLES in *; lia
                           | exact Hwf | cbn [obuff with_handles with_world]; lia].
  - intros Hok Hfull r2 w2 Hclose.
    destruct (Z.ltb_spec (ret_val r) 0); [lia |].
    rewrite (bind_Ret _ _ _ _ _
               (handle_alloc_file_full (with_world s4 w1) (ret_val r) Hfull)).
    change (0 =? 0) with true. cbv iota.
    rewrite (bind_Ret _ _ _ _ _
               (call_at _ (with_world s4 w1) _ _ Hclose)).
    now rewrite put_status_at.
Qed.

(** X18.  The outcomes of OPENDIR.  The path is opened read-only and the
    descriptor is turned into a directory stream.  A failure of either
    call is answered with STATUS and the mapped errno -- after a failed
    [fdopendir] the descriptor is not closed.  With both in hand and slot
    [i] the first free one, the answer is HANDLE and the slot holds both;
    with the table full the answer is STATUS(FAILURE), and neither the
    stream nor the descriptor is closed. *)
Theorem sftp_opendir_response (s s1 s2 : state) (id n : Z)
    (sz_path : list Z) (r : sysret) (w1 : World) :
  get_uint32 s = Ret id s1 ->
  get_string s1 = Ret (sz_path, n) s2 ->
  sys (SYS_open_dir (c_str sz_path) O_RDONLY) (world s2) = (r, w1) ->
  wf_buff (obuff s2) -> 40 <= count (obuff s2) ->
  let respond w status :=
    Ret tt (with_obuff (with_world s2 w)
              (buff_put (status_bytes id status) (obuff s2))) in
  (ret_val r = -1 ->
     sftp_opendir s = respond w1 (errno_to_sftp (errno w1))) /\
  (ret_val r <> -1 ->
     forall r2 w2, sys (SYS_fdopendir (ret_val r)) w1 = (r2, w2) ->
       (ret_val r2 = 0 ->
          sftp_opendir s = respond w2 (errno_to_sftp (errno w2))) /\
       (ret_val r2 <> 0 -> table_full (handles s2) ->
          sftp_opendir s = respond w2 SSH_FX_FAILURE) /\
       (ret_val r2 <> 0 ->
          forall i, first_free_at (handles s2) i ->
            Z.of_nat i < MAX_HANDLES ->
            sftp_opendir s
            = Ret tt (mk_state (ibuff s2)
                        (buff_put
                           (handle_bytes id
                              (handle_digits (Z.of_nat i + 1)))
                           (obuff s2))
                        (have_init s2)
                        (update_nth i (as_dir (ret_val r) (ret_val r2))
                           (handles s2))
                        w2))).
Proof.
  intros Hid Hpath Hsys Hwf Hroom respond.
  assert (Hrun : sftp_opendir s
    = (if ret_val r =? -1
       then e <- get_errno ;; put_status id (errno_to_sftp e)
       else r2 <- call (SYS_fdopendir (ret_val r)) ;;
            if ret_val r2 =? 0
            then e <- get_errno ;; put_status id (errno_to_sftp e)
            else handle <- handle_alloc_dir (ret_val r) (ret_val r2) ;;
                 if negb (handle =? 0) then put_handle id handle
                 else put_status id SSH_FX_FAILURE) (with_world s2 w1)).
  { unfold sftp_opendir.
    rewrite (bind_Ret _ _ _ _ _ Hid), (bind_Ret _ _ _ _ _ Hpath).
    cbv beta iota.
    now rewrite (bind_Ret _ _ _ _ _ (call_at _ _ _ _ Hsys)). }
  rewrite Hrun. unfold respond. split.
  - intros Hfail. destruct (Z.eqb_spec (ret_val r) (-1)); [| lia].
    unfold bind, get_errno. cbn [world with_world].
    now rewrite put_status_at.
  - intros Hfd r2 w2 Hdir.
    destruct (Z.eqb_spec (ret_val r) (-1)); [lia |].
    rewrite (bind_Ret _ _ _ _ _
               (call_at _ (with_world s2 w1) _ _ Hdir)).
    set (s3 := with_world (with_world s2 w1) w2).
    refine (conj _ (conj _ _)).
    + intros Hnull. destruct (Z.eqb_spec (ret_val r2) 0); [| lia].
      unfold bind, get_errno. cbn [world with_world s3].
      now rewrite put_status_at.
    + intros Hstream Hfull.
      destruct (Z.eqb_spec (ret_val r2) 0); [lia |].
      rewrite (bind_Ret _ _ _ _ _
                 (handle_alloc_dir_full s3 (ret_val r) (ret_val r2) Hfull)).
      change (negb (0 =? 0)) with false. cbv iota.
      now rewrite put_status_at.
    + intros Hstream i Hat Hi.
      destruct (Z.eqb_spec (ret_val r2) 0); [lia |].
      rewrite (bind_Ret _ _ _ _ _
                 (handle_alloc_dir_at s3 (ret_val r) (ret_val r2) i Hat)).
      destruct (Z.eqb_spec (Z.of_nat i + 1) 0); [lia |].
      cbn [negb].
      rewrite put_handle_at;
        [reflexivity | unfold MAX_HANDLES in *; lia | exact Hwf
        | unfold s3; cbn [obuff with_handles with_world]; lia].
Qed.

(** X19.  MKDIR gives the host the permissions of the request masked to
    the nine permission bits, or 0777 when the request has none, so the
    mode never has a bit outside 0777; the answer is STATUS with the
    mapped errno when [mkdir] returns -1 and STATUS(OK) otherwise. *)
Theorem sftp_mkdir_response (s s1 s2 s3 : state) (id n : Z)
    (sz_path : list Z) (attr : attrs_t) (r : sysret) (w : World) :
  get_uint32 s = Ret id s1 ->
  get_string s1 = Ret (sz_path, n) s2 ->
  get_attrs s2 = Ret attr s3 ->
  sys (SYS_mkdir (c_str sz_path) (mkdir_mode attr)) (world s3) = (r, w) ->
  wf_buff (obuff s3) -> 40 <= count (obuff s3) ->
  sftp_mkdir s
  = Ret tt (with_obuff (with_world s3 w)
              (buff_put
                 (status_bytes id (if ret_val r =? -1
                                   then errno_to_sftp (errno w)
                                   else SSH_FX_OK))
                 (obuff s3))) /\
  0 <= mkdir_mode attr <= 511.
Proof.
  intros Hid Hpath Hattr Hsys Hwf Hroom. split.
  - unfold sftp_mkdir.
    rewrite (bind_Ret _ _ _ _ _ Hid), (bind_Ret _ _ _ _ _ Hpath).
    cbv beta iota. rewrite (bind_Ret _ _ _ _ _ Hattr). cbv beta zeta.
    fold (mkdir_mode attr).
    exact (status_reply _ (fun v => v =? -1) id s3 r w Hsys Hwf Hroom).
  - unfold mkdir_mode, DEFAULT_DIR_PERM, PERM_MASK.
    destruct (flag_set _ _); [| lia].
    change 511 with (Z.ones 9). rewrite Z.land_ones by lia.
    pose proof (Z.mod_pos_bound (permissions attr) (2 ^ 9) ltac:(lia)).
    change (Z.ones 9) with 511. change (2 ^ 9) with 512 in *. lia.
Qed.

(** X20.  REMOVE and RMDIR call the host's [remove] and [rmdir] on the C
    string of the path -- what precedes the first NUL byte of the string
    in the packet -- and answer STATUS with the mapped errno when the call
    returns -1, STATUS(OK) otherwise. *)
Theorem sftp_remove_rmdir_response (s s1 s2 : state) (id n : Z)
    (sz_path : list Z) :
  get_uint32 s = Ret id s1 ->
  get_string s1 = Ret (sz_path, n) s2 ->
  wf_buff (obuff s2) -> 40 <= count (obuff s2) ->
  let respond (rw : sysret * World) :=
    Ret tt (with_obuff (with_world s2 (snd rw))
              (buff_put
                 (status_bytes id (if ret_val (fst rw) =? -1
                                   then errno_to_sftp (errno (snd rw))
                                   else SSH_FX_OK))
                 (obuff s2))) in
  sftp_remove s = respond (sys (SYS_remove (c_str sz_path)) (world s2)) /\
  sftp_rmdir s = respond (sys (SYS_rmdir (c_str sz_path)) (world s2)).
Proof.
  intros Hid Hpath Hwf Hroom respond. unfold respond. split.
  - unfold sftp_remove.
    rewrite (bind_Ret _ _ _ _ _ Hid), (bind_Ret _ _ _ _ _ Hpath).
    cbv beta iota.
    apply (status_reply _ (fun v => v =? -1) id s2); auto.
    apply surjective_pairing.
  - unfold sftp_rmdir.
    rewrite (bind_Ret _ _ _ _ _ Hid), (bind_Ret _ _ _ _ _ Hpath).
    cbv beta iota.
    apply (status_reply _ (fun v => v =? -1) id s2); auto.
    apply surjective_pairing.
Qed.

(** X21.  RENAME and SYMLINK read two strings.  RENAME passes them to
    [rename] in the order read (old, new); SYMLINK passes them to
    [symlink] swapped: the second string is the target, the first the
    path of the link created. *)
Theorem sftp_rename_symlink_response (s s1 s2 s3 : state) (id n1 n2 : Z)
    (sz_first sz_second : list Z) :
  get_uint32 s = Ret id s1 ->
  get_string s1 = Ret (sz_first, n1) s2 ->
  get_string s2 = Ret (sz_second, n2) s3 ->
  wf_buff (obuff s3) -> 40 <= count (obuff s3) ->
  let respond (rw : sysret * World) :=
    Ret tt (with_obuff (with_world s3 (snd rw))
              (buff_put
                 (status_bytes id (if ret_val (fst rw) =? -1
                                   then errno_to_sftp (errno (snd rw))
                                   else SSH_FX_OK))
                 (obuff s3))) in
  sftp_rename s
    = respond (sys (SYS_rename (c_str sz_first) (c_str sz_second))
                 (world s3)) /\
  sftp_symlink s
    = respond (sys (SYS_symlink (c_str sz_second) (c_str sz_first))
                 (world s3)).
Proof.
  intros Hid Hfirst Hsecond Hwf Hroom respond. unfold respond. split.
  - unfold sftp_rename.
    rewrite (bind_Ret _ _ _ _ _ Hid), (bind_Ret _ _ _ _ _ Hfirst).
    cbv beta iota. rewrite (bind_Ret _ _ _ _ _ Hsecond). cbv beta iota.
    apply (status_reply _ (fun v => v =? -1) id s3); auto.
    apply surjective_pairing.
  - unfold sftp_symlink.
    rewrite (bind_Ret _ _ _ _ _ Hid), (bind_Ret _ _ _ _ _ Hfirst).
    cbv beta iota. rewrite (bind_Ret _ _ _ _ _ Hsecond). cbv beta iota.
    apply (status_reply _ (fun v => v =? -1) id s3); auto.
    apply surjective_pairing.
Qed.

(** A step of SETSTAT that is applied, or refused, followed by [k]. *)
Lemma setstat_step_applied (flagged : bool) (c : syscall) (s : state)
    (w' : World) :
  applied flagged c (world s) w' ->
  exists r, 0 <= ret_val r /\
    forall k : sysret -> M unit,
      bind (if flagged then call c else ret (mk_sysret 0 [] stat_zero)) k s
      = k r (with_world s w').
Proof.
  unfold applied. destruct flagged.
  - intros (r & Hsys & Hok). exists r. split; [exact Hok |]. intros k.
    now rewrite (bind_Ret _ _ _ _ _ (call_at _ _ _ _ Hsys)).
  - intros ->. exists (mk_sysret 0 [] stat_zero).
    split; [cbn; lia |]. intros k. unfold bind, ret. now destruct s.
Qed.

Lemma setstat_step_refused (flagged : bool) (c : syscall) (s : state)
    (w' : World) :
  refused flagged c (world s) w' ->
  exists r, ret_val r < 0 /\
    forall k : sysret -> M unit,
      bind (if flagged then call c else ret (mk_sysret 0 [] stat_zero)) k s
      = k r (with_world s w').
Proof.
  intros (-> & r & Hsys & Hneg). exists r. split; [exact Hneg |]. intros k.
  now rewrite (bind_Ret _ _ _ _ _ (call_at _ _ _ _ Hsys)).
Qed.

Lemma setstat_fails_at (id : Z) (s : state) (w : World) :
  wf_buff (obuff s) -> 40 <= count (obuff s) ->
  bind get_errno (fun e => put_status id (errno_to_sftp e)) (with_world s w)
  = Ret tt (with_obuff (with_world s w)
              (buff_put (status_bytes id (errno_to_sftp (errno w)))
                 (obuff s))).
Proof.
  intros Hwf Hroom. unfold bind, get_errno. cbn [world with_world].
  now rewrite put_status_at.
Qed.

(** The four ways through the three steps SETSTAT and FSETSTAT share. *)
Lemma setstat_steps_outcome (id : Z) (attr : attrs_t)
    (c_chmod c_utimes c_chown : syscall) (s : state) :
  wf_buff (obuff s) -> 40 <= count (obuff s) ->
  let respond w status :=
    Ret tt (with_obuff (with_world s w)
              (buff_put (status_bytes id status) (obuff s))) in
  let has f := flag_set (flags attr) f in
  let run := setstat_steps id attr c_chmod c_utimes c_chown s in
  (forall w,
     refused (has SSH_FILEXFER_ATTR_PERMISSIONS) c_chmod (world s) w ->
     run = respond w (errno_to_sftp (errno w))) /\
  (forall w1 w,
     applied (has SSH_FILEXFER_ATTR_PERMISSIONS) c_chmod (world s) w1 ->
     refused (has SSH_FILEXFER_ATTR_ACMODTIME) c_utimes w1 w ->
     run = respond w (errno_to_sftp (errno w))) /\
  (forall w1 w2 w,
     applied (has SSH_FILEXFER_ATTR_PERMISSIONS) c_chmod (world s) w1 ->
     applied (has SSH_FILEXFER_ATTR_ACMODTIME) c_utimes w1 w2 ->
     refused (has SSH_FILEXFER_ATTR_UIDGID) c_chown w2 w ->
     run = respond w (errno_to_sftp (errno w))) /\
  (forall w1 w2 w3,
     applied (has SSH_FILEXFER_ATTR_PERMISSIONS) c_chmod (world s) w1 ->
     applied (has SSH_FILEXFER_ATTR_ACMODTIME) c_utimes w1 w2 ->
     applied (has SSH_FILEXFER_ATTR_UIDGID) c_chown w2 w3 ->
     run = respond w3 SSH_FX_OK).
Proof.
  intros Hwf Hroom respond has run.
  unfold run, respond, has, setstat_steps.
  refine (conj _ (conj _ (conj _ _))).
  - intros w R1.
    destruct (setstat_step_refused _ _ s _ R1) as (r1 & Hr1 & E1).
    rewrite E1.
    destruct (Z.ltb_spec (ret_val r1) 0); [| lia].
    now apply setstat_fails_at.
  - intros w1 w A1 R2.
    destruct (setstat_step_applied _ _ s _ A1) as (r1 & Hr1 & E1).
    rewrite E1.
    destruct (Z.ltb_spec (ret_val r1) 0); [lia |].
    destruct (setstat_step_refused _ _ (with_world s w1) _ R2)
      as (r2 & Hr2 & E2).
    rewrite E2.
    destruct (Z.ltb_spec (ret_val r2) 0); [| lia].
    now apply (setstat_fails_at id (with_world s w1) w).
  - intros w1 w2 w A1 A2 R3.
    destruct (setstat_step_applied _ _ s _ A1) as (r1 & Hr1 & E1).
    rewrite E1.
    destruct (Z.ltb_spec (ret_val r1) 0); [lia |].
    destruct (setstat_step_applied _ _ (with_world s w1) _ A2)
      as (r2 & Hr2 & E2).
    rewrite E2.
    destruct (Z.ltb_spec (ret_val r2) 0); [lia |].
    destruct (setstat_step_refused _ _
                (with_world (with_world s w1) w2) _ R3)
      as (r3 & Hr3 & E3).
    rewrite E3.
    destruct (Z.ltb_spec (ret_val r3) 0); [| lia].
    now apply (setstat_fails_at id (with_world (with_world s w1) w2) w).
  - intros w1 w2 w3 A1 A2 A3.
    destruct (setstat_step_applied _ _ s _ A1) as (r1 & Hr1 & E1).
    rewrite E1.
    destruct (Z.ltb_spec (ret_val r1) 0); [lia |].
    destruct (setstat_step_applied _ _ (with_world s w1) _ A2)
      as (r2 & Hr2 & E2).
    rewrite E2.
    destruct (Z.ltb_spec (ret_val r2) 0); [lia |].
    destruct (setstat_step_applied _ _
                (with_world (with_world s w1) w2) _ A3)
      as (r3 & Hr3 & E3).
    rewrite E3.
    destruct (Z.ltb_spec (ret_val r3) 0); [lia |].
    now rewrite put_status_at.
Qed.

(** X22.  SETSTAT applies the flagged groups in the order permissions,
    times, owner -- [chmod] with the permissions masked to 0777, [utimes],
    [chown] -- skipping a group whose flag is clear, and stops at the
    first call that fails.  When [chmod] is refused the answer is its
    errno and neither [utimes] nor [chown] is called; when [chmod] is
    applied and [utimes] is refused the answer is the errno of [utimes]
    and [chown] is not called; when both are applied and [chown] is
    refused the answer is the errno of [chown]; when all three are
    applied the answer is STATUS(OK).  In each case the host is left as
    the last call made left it, so with no flag set it is not called at
    all. *)
Theorem sftp_setstat_response (s s1 s2 s3 : state) (id n : Z)
    (sz_path : list Z) (attr : attrs_t) :
  get_uint32 s = Ret id s1 ->
  get_string s1 = Ret (sz_path, n) s2 ->
  get_attrs s2 = Ret attr s3 ->
  wf_buff (obuff s3) -> 40 <= count (obuff s3) ->
  let respond w status :=
    Ret tt (with_obuff (with_world s3 w)
              (buff_put (status_bytes id status) (obuff s3))) in
  let has f := flag_set (flags attr) f in
  let c_chmod :=
    SYS_chmod (c_str sz_path) (Z.land (permissions attr) PERM_MASK) in
  let c_utimes := SYS_utimes (c_str sz_path) (atime attr) (mtime attr) in
  let c_chown := SYS_chown (c_str sz_path) (uid attr) (gid attr) in
  (forall w,
     refused (has SSH_FILEXFER_ATTR_PERMISSIONS) c_chmod (world s3) w ->
     sftp_setstat s = respond w (errno_to_sftp (errno w))) /\
  (forall w1 w,
     applied (has SSH_FILEXFER_ATTR_PERMISSIONS) c_chmod (world s3) w1 ->
     refused (has SSH_FILEXFER_ATTR_ACMODTIME) c_utimes w1 w ->
     sftp_setstat s = respond w (errno_to_sftp (errno w))) /\
  (forall w1 w2 w,
     applied (has SSH_FILEXFER_ATTR_PERMISSIONS) c_chmod (world s3) w1 ->
     applied (has SSH_FILEXFER_ATTR_ACMODTIME) c_utimes w1 w2 ->
     refused (has SSH_FILEXFER_ATTR_UIDGID) c_chown w2 w ->
     sftp_setstat s = respond w (errno_to_sftp (errno w))) /\
  (forall w1 w2 w3,
     applied (has SSH_FILEXFER_ATTR_PERMISSIONS) c_chmod (world s3) w1 ->
     applied (has SSH_FILEXFER_ATTR_ACMODTIME) c_utimes w1 w2 ->
     applied (has SSH_FILEXFER_ATTR_UIDGID) c_chown w2 w3 ->
     sftp_setstat s = respond w3 SSH_FX_OK).
Proof.
  intros Hid Hpath Hattr Hwf Hroom respond has c_chmod c_utimes c_chown.
  assert (Hrun : sftp_setstat s
                 = setstat_steps id attr c_chmod c_utimes c_chown s3).
  { unfold sftp_setstat.
    rewrite (bind_Ret _ _ _ _ _ Hid), (bind_Ret _ _ _ _ _ Hpath).
    cbv beta iota. now rewrite (bind_Ret _ _ _ _ _ Hattr). }
  rewrite Hrun.
  exact (setstat_steps_outcome id attr c_chmod c_utimes c_chown s3
           Hwf Hroom).
Qed.

(** X23.  STAT and LSTAT answer a successful [stat] or [lstat] with an
    ATTRS packet of 37 bytes that always carries all four groups: flags
    0xf, the size as 64 bits, then uid, gid, the whole of [st_mode] -- file
    type bits included -- and the two times, each cut to 32 bits.  A
    negative result is answered with STATUS and the mapped errno. *)
Theorem do_stat_response (follow_symlinks : bool) (s s1 s2 : state)
    (id n : Z) (sz_path : list Z) (r : sysret) (w : World) :
  get_uint32 s = Ret id s1 ->
  get_string s1 = Ret (sz_path, n) s2 ->
  sys (if follow_symlinks then SYS_stat (c_str sz_path)
       else SYS_lstat (c_str sz_path)) (world s2) = (r, w) ->
  wf_buff (obuff s2) -> 40 <= count (obuff s2) ->
  let st := ret_stat r in
  let reply :=
    [SSH_FXP_ATTRS] ++ be32 id ++ be32 15
    ++ be64 (uint64 (st_size st))
    ++ be32 (uint32 (st_uid st)) ++ be32 (uint32 (st_gid st))
    ++ be32 (uint32 (st_mode st))
    ++ be32 (uint32 (st_atime st)) ++ be32 (uint32 (st_mtime st)) in
  (ret_val r < 0 ->
     do_stat follow_symlinks s
     = Ret tt (with_obuff (with_world s2 w)
                 (buff_put (status_bytes id (errno_to_sftp (errno w)))
                    (obuff s2)))) /\
  (0 <= ret_val r ->
     do_stat follow_symlinks s
     = Ret tt (with_obuff (with_world s2 w) (buff_put reply (obuff s2)))) /\
  zlen reply = 37.
Proof.
  intros Hid Hpath Hsys Hwf Hroom st reply.
  assert (Hrun : do_stat follow_symlinks s
    = (if ret_val r <? 0
       then e <- get_errno ;; put_status id (errno_to_sftp e)
       else put_byte SSH_FXP_ATTRS ;; put_uint32 id ;;
            put_attrs (stat_to_attr (ret_stat r))) (with_world s2 w)).
  { unfold do_stat.
    rewrite (bind_Ret _ _ _ _ _ Hid), (bind_Ret _ _ _ _ _ Hpath).
    cbv beta iota.
    now rewrite (bind_Ret _ _ _ _ _ (call_at _ _ _ _ Hsys)). }
  assert (Hlen : zlen reply = 37).
  { unfold reply, be64. rewrite !zlen_app, !zlen_be32. reflexivity. }
  rewrite Hrun. refine (conj _ (conj _ Hlen)).
  - intros Hneg. destruct (Z.ltb_spec (ret_val r) 0); [| lia].
    unfold bind, get_errno. cbn [world with_world].
    now rewrite put_status_at.
  - intros Hok. destruct (Z.ltb_spec (ret_val r) 0); [lia |].
    assert (Hbytes : [SSH_FXP_ATTRS] ++ be32 id
                     ++ attrs_bytes (stat_to_attr (ret_stat r)) = reply)
      by reflexivity.
    pose proof (emits_bind _ _ [SSH_FXP_ATTRS] _
                  (emits_put_byte SSH_FXP_ATTRS)
                  (emits_bind _ _ _ _ (emits_put_uint32 id)
                     (emits_put_attrs (stat_to_attr (ret_stat r))))) as E.
    change [uint8 SSH_FXP_ATTRS] with [SSH_FXP_ATTRS] in E.
    rewrite Hbytes in E.
    rewrite (E (with_world s2 w) Hwf); [reflexivity |].
    rewrite Hlen. cbn [obuff with_world]. lia.
Qed.

(** X24.  REALPATH answers a resolved path with a NAME packet of one
    entry whose file name and long name are both the resolved path and
    whose attributes are empty (flags 0); a null result of [realpath] is
    answered with STATUS and the mapped errno. *)
Theorem sftp_realpath_response (s s1 s2 : state) (id n : Z)
    (sz_path : list Z) (r : sysret) (w : World) :
  get_uint32 s = Ret id s1 ->
  get_string s1 = Ret (sz_path, n) s2 ->
  sys (SYS_realpath (c_str sz_path)) (world s2) = (r, w) ->
  wf_buff (obuff s2) -> 40 <= count (obuff s2) ->
  let sz_fullname := c_str (ret_bytes r) in
  let reply :=
    [SSH_FXP_NAME] ++ be32 id ++ be32 1
    ++ string_bytes sz_fullname ++ string_bytes sz_fullname ++ be32 0 in
  (ret_val r = 0 ->
     sftp_realpath s
     = Ret tt (with_obuff (with_world s2 w)
                 (buff_put (status_bytes id (errno_to_sftp (errno w)))
                    (obuff s2)))) /\
  (ret_val r <> 0 -> zlen reply <= count (obuff s2) ->
     sftp_realpath s
     = Ret tt (with_obuff (with_world s2 w) (buff_put reply (obuff s2)))).
Proof.
  intros Hid Hpath Hsys Hwf Hroom sz_fullname reply.
  assert (Hrun : sftp_realpath s
    = (if ret_val r =? 0
       then e <- get_errno ;; put_status id (errno_to_sftp e)
       else put_byte SSH_FXP_NAME ;; put_uint32 id ;; put_uint32 1 ;;
            put_cstring (ret_bytes r) ;; put_cstring (ret_bytes r) ;;
            put_attrs attrs_zero) (with_world s2 w)).
  { unfold sftp_realpath.
    rewrite (bind_Ret _ _ _ _ _ Hid), (bind_Ret _ _ _ _ _ Hpath).
    cbv beta iota.
    now rewrite (bind_Ret _ _ _ _ _ (call_at _ _ _ _ Hsys)). }
  rewrite Hrun. split.
  - intros Hnull. destruct (Z.eqb_spec (ret_val r) 0); [| lia].
    unfold bind, get_errno. cbn [world with_world].
    now rewrite put_status_at.
  - intros Hfull Hfits. destruct (Z.eqb_spec (ret_val r) 0); [lia |].
    pose proof (emits_bind _ _ [SSH_FXP_NAME] _
                  (emits_put_byte SSH_FXP_NAME)
                  (emits_bind _ _ _ _ (emits_put_uint32 id)
                     (emits_bind _ _ _ _ (emits_put_uint32 1)
                        (emits_bind _ _ _ _
                           (emits_put_cstring (ret_bytes r))
                           (emits_bind _ _ _ _
                              (emits_put_cstring (ret_bytes r))
                              (emits_put_attrs attrs_zero)))))) as E.
    change [uint8 SSH_FXP_NAME] with [SSH_FXP_NAME] in E.
    change (attrs_bytes attrs_zero) with (be32 0 ++ []) in E.
    rewrite app_nil_r in E. fold sz_fullname in E. fold reply in E.
    rewrite (E (with_world s2 w) Hwf); [reflexivity | exact Hfits].
Qed.

(** X25.  READDIR at the end of the directory.  When the first
    [readdir] of the request returns null, the NAME header written in
    advance is taken back and the answer is exactly STATUS(EOF), at the
    position the output buffer had on entry; the host has been called
    twice, for [telldir] and [readdir]. *)
Theorem sftp_readdir_end_of_directory (fuel : nat) (s s1 s2 : state)
    (id : Z) (i : nat) (r_tell r_entry : sysret) (w1 w2 : World) :
  get_uint32 s = Ret id s1 ->
  get_handle s1 = Ret (Some i) s2 ->
  wf_buff (obuff s2) -> 40 <= count (obuff s2) ->
  sys (SYS_telldir (p_dir (slot (handles s2) i))) (world s2)
    = (r_tell, w1) ->
  sys (SYS_readdir (p_dir (slot (handles s2) i))) w1 = (r_entry, w2) ->
  ret_val r_entry = 0 ->
  sftp_readdir (S fuel) s
  = Ret tt (with_obuff (with_world s2 w2)
              (buff_put (status_bytes id SSH_FX_EOF) (obuff s2))).
Proof.
  intros Hid Hh Hwf Hroom Htell Hentry Hnull.
  rewrite (sftp_readdir_enters_loop _ _ _ _ _ _ Hid Hh Hwf ltac:(lia)).
  set (hdr := [SSH_FXP_NAME] ++ be32 id ++ be32 0).
  set (s3 := with_obuff s2 (buff_put hdr (obuff s2))).
  assert (Hloop : readdir_loop (S fuel) i 0 s3
                  = Ret 0 (with_world s3 w2)).
  { rewrite readdir_loop_S.
    assert (Hbody : readdir_body i 0 s3 = Ret (false, 0) (with_world s3 w2)).
    { unfold readdir_body, bind, get_handles, call.
      cbn [handles world s3 with_obuff]. rewrite Htell.
      cbn [world]. rewrite Hentry.
      destruct (Z.eqb_spec (ret_val r_entry) 0); [| contradiction].
      reflexivity. }
    now rewrite (bind_Ret _ _ _ _ _ Hbody). }
  rewrite (bind_Ret _ _ _ _ _ Hloop).
  unfold readdir_finish. change (0 >? 0) with false. cbv iota.
  unfold bind at 1. unfold buff_swap, bind, get_obuff, set_obuff, ret.
  cbn [obuff with_world s3 with_obuff save_count save_p_data data
       buff_put ibuff have_init handles world].
  pose proof Hwf as (Hp & Hc & Hin & Hsz).
  pose proof (zlen_status_bytes id SSH_FX_EOF) as Hsb.
  rewrite put_status_at.
  - cbn [obuff with_obuff ibuff have_init handles world].
    unfold buff_put. cbn [count p_data data].
    rewrite store_bytes_cover; [reflexivity | exact Hp | | lia].
    unfold hdr, status_bytes, string_bytes.
    rewrite !zlen_app, !zlen_be32.
    change (zlen [SSH_FXP_NAME]) with 1.
    change (zlen [SSH_FXP_STATUS]) with 1.
    pose proof (zlen_nonneg
                  (bytes_of_string (status_message (uint32 SSH_FX_EOF)))).
    pose proof (zlen_nonneg (bytes_of_string "en")). lia.
  - cbn [obuff]. refine (conj Hp (conj Hc (conj _ _))); cbn [p_data count data].
    + rewrite store_bytes_zlen; [exact Hin | exact Hp |].
      change (zlen hdr) with 9. lia.
    + rewrite store_bytes_zlen; [exact Hsz | exact Hp |].
      change (zlen hdr) with 9. lia.
  - cbn [obuff count]. exact Hroom.
Qed.

End ExtraHandlers.

(** OPEN of "/f" on a fresh table: descriptor 3, handle "01". *)
Lemma sftp_open_response_sim :
  ret_val (fst open_f_result) = 3 /\
  handle_digits (Z.of_nat 0 + 1) = bytes_of_string "01" /\
  sftp_open open_f_entry
  = Ret tt (mk_state (ibuff open_f_s4)
              (buff_put (handle_bytes 1 (handle_digits (Z.of_nat 0 + 1)))
                 (obuff open_f_s4))
              (have_init open_f_s4)
              (update_nth 0
                 (as_file (slot (handles open_f_s4) 0)
                    (ret_val (fst open_f_result)))
                 (handles open_f_s4))
              (snd open_f_result)).
Proof.
  split; [vm_compute; reflexivity |]. split; [vm_compute; reflexivity |].
  refine (proj1 (proj2
    (sftp_open_response open_f_entry open_f_s1 open_f_s2 open_f_s3
       open_f_s4 1 2 SSH_FXF_READ file_f attrs_zero
       (fst open_f_result) (snd open_f_result) _ _ _ _ _ _ _)) _ 0%nat _ _);
    try by_computation.
  vm_compute. split; [lia | split; [reflexivity | intros j Hj; lia]].
Defined.

(** OPENDIR of "/d": descriptor 3, stream 4099, handle "01". *)
Lemma sftp_opendir_response_sim :
  ret_val (fst opendir_d_open) = 3 /\
  ret_val (fst opendir_d_stream) = 4099 /\
  sftp_opendir opendir_d_entry
  = Ret tt (mk_state (ibuff opendir_d_s2)
              (buff_put (handle_bytes 1 (handle_digits (Z.of_nat 0 + 1)))
                 (obuff opendir_d_s2))
              (have_init opendir_d_s2)
              (update_nth 0
                 (as_dir (ret_val (fst opendir_d_open))
                    (ret_val (fst opendir_d_stream)))
                 (handles opendir_d_s2))
              (snd opendir_d_stream)).
Proof.
  split; [vm_compute; reflexivity |]. split; [vm_compute; reflexivity |].
  refine (proj2 (proj2
    (proj2
       (sftp_opendir_response opendir_d_entry opendir_d_s1 opendir_d_s2
          1 2 dir_d (fst opendir_d_open) (snd opendir_d_open) _ _ _ _ _)
       _ (fst opendir_d_stream) (snd opendir_d_stream) _)) _ 0%nat _ _);
    try by_computation.
  vm_compute. split; [lia | split; [reflexivity | intros j Hj; lia]].
Defined.

(** MKDIR with permissions 04755: the host is given 0755 (493). *)
Lemma sftp_mkdir_response_sim :
  mkdir_mode attrs_setuid = 493 /\
  sftp_mkdir mkdir_entry
  = Ret tt (with_obuff (with_world mkdir_s3 (snd mkdir_result))
              (buff_put
                 (status_bytes 1
                    (if ret_val (fst mkdir_result) =? -1
                     then errno_to_sftp (errno (snd mkdir_result))
                     else SSH_FX_OK))
                 (obuff mkdir_s3))).
Proof.
  split; [reflexivity |].
  refine (proj1
    (sftp_mkdir_response mkdir_entry mkdir_s1 mkdir_s2 mkdir_s3 1 4
       new_dir attrs_setuid (fst mkdir_result) (snd mkdir_result)
       _ _ _ _ _ _));
    by_computation.
Defined.

(** REMOVE of "/f", which the simulated host refuses. *)
Lemma sftp_remove_rmdir_response_sim :
  sftp_remove remove_entry
  = Ret tt
      (with_obuff
         (with_world remove_s2
            (snd (sys (SYS_remove (c_str file_f)) (world remove_s2))))
         (buff_put
            (status_bytes 1
               (if ret_val
                     (fst (sys (SYS_remove (c_str file_f))
                             (world remove_s2))) =? -1
                then errno_to_sftp
                       (errno (snd (sys (SYS_remove (c_str file_f))
                                      (world remove_s2))))
                else SSH_FX_OK))
            (obuff remove_s2))).
Proof.
  refine (proj1
    (sftp_remove_rmdir_response remove_entry remove_s1 remove_s2 1 2
       file_f _ _ _ _));
    by_computation.
Defined.

(** SYMLINK with "/f" first and "/new" second: the host is asked for a
    link at "/f" to "/new". *)
Lemma sftp_rename_symlink_response_sim :
  sftp_symlink symlink_entry
  = Ret tt
      (with_obuff
         (with_world symlink_s3
            (snd (sys (SYS_symlink (c_str new_dir) (c_str file_f))
                    (world symlink_s3))))
         (buff_put
            (status_bytes 1
               (if ret_val
                     (fst (sys (SYS_symlink (c_str new_dir) (c_str file_f))
                             (world symlink_s3))) =? -1
                then errno_to_sftp
                       (errno
                          (snd (sys (SYS_symlink (c_str new_dir)
                                       (c_str file_f))
                                  (world symlink_s3))))
                else SSH_FX_OK))
            (obuff symlink_s3))).
Proof.
  refine (proj2
    (sftp_rename_symlink_response symlink_entry symlink_s1 symlink_s2
       symlink_s3 1 2 4 file_f new_dir _ _ _ _ _));
    by_computation.
Defined.

(** SETSTAT with times and owner and no permissions: [chmod] is skipped,
    the simulated [utimes] fails with EPERM, and the answer is
    STATUS(PERMISSION_DENIED) with the host as [utimes] left it. *)
Lemma sftp_setstat_response_sim :
  errno_to_sftp (errno (snd setstat_result)) = SSH_FX_PERMISSION_DENIED /\
  sftp_setstat setstat_entry
  = Ret tt (with_obuff (with_world setstat_s3 (snd setstat_result))
              (buff_put
                 (status_bytes 1
                    (errno_to_sftp (errno (snd setstat_result))))
                 (obuff setstat_s3))).
Proof.
  split; [vm_compute; reflexivity |].
  refine (proj1 (proj2
    (sftp_setstat_response setstat_entry setstat_s1 setstat_s2 setstat_s3
       1 2 file_f attrs_times_owner _ _ _ _ _))
    (world setstat_s3) (snd setstat_result) _
    (conj _ (ex_intro _ (fst setstat_result) (conj _ _))));
    by_computation.
Defined.

(** STAT of "/f": 11 bytes, uid and gid 1000, mode 0100644. *)
Lemma do_stat_response_sim :
  ret_stat (fst stat_result) = mk_stat 11 1000 1000 33188 0 0 /\
  sftp_stat stat_entry
  = Ret tt
      (with_obuff (with_world stat_s2 (snd stat_result))
         (buff_put
            ([SSH_FXP_ATTRS] ++ be32 1 ++ be32 15
             ++ be64 (uint64 (st_size (ret_stat (fst stat_result))))
             ++ be32 (uint32 (st_uid (ret_stat (fst stat_result))))
             ++ be32 (uint32 (st_gid (ret_stat (fst stat_result))))
             ++ be32 (uint32 (st_mode (ret_stat (fst stat_result))))
             ++ be32 (uint32 (st_atime (ret_stat (fst stat_result))))
             ++ be32 (uint32 (st_mtime (ret_stat (fst stat_result)))))
            (obuff stat_s2))).
Proof.
  split; [vm_compute; reflexivity |].
  refine (proj1 (proj2
    (do_stat_response true stat_entry stat_s1 stat_s2 1 2 file_f
       (fst stat_result) (snd stat_result) _ _ _ _ _)) _);
    by_computation.
Defined.

(** REALPATH of "/f". *)
Lemma sftp_realpath_response_sim :
  c_str (ret_bytes (fst realpath_result)) = file_f /\
  sftp_realpath realpath_entry
  = Ret tt
      (with_obuff (with_world realpath_s2 (snd realpath_result))
         (buff_put
            ([SSH_FXP_NAME] ++ be32 1 ++ be32 1
             ++ string_bytes (c_str (ret_bytes (fst realpath_result)))
             ++ string_bytes (c_str (ret_bytes (fst realpath_result)))
             ++ be32 0)
            (obuff realpath_s2))).
Proof.
  split; [vm_compute; reflexivity |].
  refine (proj2
    (sftp_realpath_response realpath_entry realpath_s1 realpath_s2 1 2
       file_f (fst realpath_result) (snd realpath_result) _ _ _ _ _) _ _);
    by_computation.
Defined.

(** READDIR on the handle of an empty directory. *)
Lemma sftp_readdir_end_of_directory_sim :
  sftp_readdir 1 readdir_end_entry
  = Ret tt (with_obuff (with_world readdir_end_s2 (snd readdir_end_read))
              (buff_put (status_bytes 2 SSH_FX_EOF)
                 (obuff readdir_end_s2))).
Proof.
  apply (sftp_readdir_end_of_directory 0 readdir_end_entry readdir_end_s1
           readdir_end_s2 2 0 (fst readdir_end_tell)
           (fst readdir_end_read) (snd readdir_end_tell)
           (snd readdir_end_read));
    by_computation.
Defined.

(** ** Frames in and out, and file requests on the wrong handle *)

Section ExtraFrames.

Context {P : Platform} {H : Host}.

Lemma read_input_loop_S (fuel : nat) (len : Z) (s : state) :
  count (ibuff s) < len ->
  read_input_loop (S fuel) len s
  = bind (call SYS_select_stdin) (fun r =>
      if ret_val r =? -1 then exit EXIT_FAILURE
      else
        bind (call (SYS_read_stdin (uint32 (len - count (ibuff s)))))
          (fun r =>
             if ret_val r <? 0 then exit EXIT_FAILURE
             else if ret_val r =? 0 then exit EXIT_SUCCESS
             else
               bind (set_ibuff
                       (mk_buff (uint32 (count (ibuff s) + ret_val r))
                          (p_data (ibuff s))
                          (store_bytes (count (ibuff s))
                             (firstn (Z.to_nat (ret_val r)) (ret_bytes r))
                             (data (ibuff s)))))
                 (fun _ => read_input_loop fuel len))) s.
Proof.
  intros Hlt. cbn [read_input_loop]. unfold bind at 1. unfold get_ibuff.
  destruct (Z.ltb_spec (count (ibuff s)) len); [reflexivity | lia].
Qed.

Lemma read_input_loop_done (fuel : nat) (len : Z) (s : state) :
  len <= count (ibuff s) -> read_input_loop fuel len s = Ret tt s.
Proof.
  intros Hle.
  destruct fuel; cbn [read_input_loop]; unfold bind, get_ibuff;
    (destruct (Z.ltb_spec (count (ibuff s)) len); [lia | reflexivity]).
Qed.

(** The first read of a frame: [select], then [read] of four bytes. *)
Lemma read_input_header (io_fuel : nat) (s : state) (r_sel r : sysret)
    (w1 w2 : World) :
  sys SYS_select_stdin (world s) = (r_sel, w1) ->
  sys (SYS_read_stdin 4) w1 = (r, w2) ->
  read_input (S io_fuel) 4 s
  = (if ret_val r_sel =? -1 then exit EXIT_FAILURE
     else if ret_val r <? 0 then exit EXIT_FAILURE
     else if ret_val r =? 0 then exit EXIT_SUCCESS
     else
       bind (set_ibuff
               (mk_buff (uint32 (0 + ret_val r)) 0
                  (store_bytes 0
                     (firstn (Z.to_nat (ret_val r)) (ret_bytes r))
                     (data (ibuff s)))))
         (fun _ => read_input_loop io_fuel 4))
      (mk_state (mk_buff 0 0 (data (ibuff s))) (obuff s) (have_init s)
         (handles s)
         (if ret_val r_sel =? -1 then w1 else w2)).
Proof.
  intros Hsel Hread. unfold read_input.
  unfold bind at 1. unfold get_ibuff. unfold bind at 1. unfold set_ibuff at 1.
  set (s0 := mk_state (mk_buff 0 0 (data (ibuff s))) (obuff s)
               (have_init s) (handles s) (world s)).
  rewrite (read_input_loop_S io_fuel 4 s0) by (cbn [s0 ibuff count]; lia).
  rewrite (bind_Ret _ _ _ _ _ (call_at _ s0 _ _ Hsel)).
  destruct (ret_val r_sel =? -1); [reflexivity |].
  cbn [s0 ibuff count p_data data].
  change (uint32 (4 - 0)) with 4.
  rewrite (bind_Ret _ _ _ _ _ (call_at _ (with_world s0 w1) _ _ Hread)).
  destruct (ret_val r <? 0); [reflexivity |].
  destruct (ret_val r =? 0); reflexivity.
Qed.

(** X26.  How the server stops.  When [select] on standard input fails,
    or the [read] of a frame's length fails, the process exits with
    EXIT_FAILURE; when that [read] returns 0 -- the client has closed the
    connection -- it exits with EXIT_SUCCESS.  No response is written in
    any of the three cases. *)
Theorem main_exits_at_end_of_input (n io_fuel fuel : nat) (s : state)
    (r_sel r : sysret) (w1 w2 : World) :
  sys SYS_select_stdin (world s) = (r_sel, w1) ->
  sys (SYS_read_stdin 4) w1 = (r, w2) ->
  let stopped w :=
    mk_state (mk_buff 0 0 (data (ibuff s))) (obuff s) (have_init s)
      (handles s) w in
  (ret_val r_sel = -1 ->
     main (S n) (S io_fuel) fuel s = Exit EXIT_FAILURE (stopped w1)) /\
  (ret_val r_sel <> -1 -> ret_val r < 0 ->
     main (S n) (S io_fuel) fuel s = Exit EXIT_FAILURE (stopped w2)) /\
  (ret_val r_sel <> -1 -> ret_val r = 0 ->
     main (S n) (S io_fuel) fuel s = Exit EXIT_SUCCESS (stopped w2)).
Proof.
  intros Hsel Hread stopped.
  assert (Hstop : forall c s',
            read_input (S io_fuel) 4 s = Exit c s' ->
            main (S n) (S io_fuel) fuel s = Exit c s').
  { intros c s' E. cbn [main]. unfold bind at 1.
    unfold main_iteration. unfold bind at 1.
    unfold main_receive. unfold bind at 1. now rewrite E. }
  pose proof (read_input_header io_fuel s r_sel r w1 w2 Hsel Hread) as E.
  refine (conj _ (conj _ _)).
  - intros Hfail. apply Hstop. rewrite E.
    destruct (Z.eqb_spec (ret_val r_sel) (-1)); [reflexivity | lia].
  - intros Hsel_ok Hneg. apply Hstop. rewrite E.
    destruct (Z.eqb_spec (ret_val r_sel) (-1)); [lia |].
    destruct (Z.ltb_spec (ret_val r) 0); [reflexivity | lia].
  - intros Hsel_ok Heof. apply Hstop. rewrite E.
    destruct (Z.eqb_spec (ret_val r_sel) (-1)); [lia |].
    destruct (Z.ltb_spec (ret_val r) 0); [lia |].
    destruct (Z.eqb_spec (ret_val r) 0); [reflexivity | lia].
Qed.

(** X27.  The two ends of the frame length.  Once the four bytes of a
    length have been read: a length above the 34000 bytes of the packet
    buffer fails the assertion, so the frame gets no response; a length of
    zero is discarded silently -- no handler runs, nothing is written, and
    the loop is ready for the next frame. *)
Theorem main_frame_length_edges (io_fuel fuel : nat) (s : state) (len : Z)
    (r_sel r : sysret) (w1 w2 : World) :
  sys SYS_select_stdin (world s) = (r_sel, w1) ->
  ret_val r_sel <> -1 ->
  sys (SYS_read_stdin 4) w1 = (r, w2) ->
  ret_val r = 4 ->
  firstn 4 (ret_bytes r) = be32 len ->
  0 <= len < 2 ^ 32 ->
  (MAX_PACKET < len -> main_iteration (S io_fuel) fuel s = Abort) /\
  (len = 0 ->
     main_iteration (S io_fuel) fuel s
     = Ret tt (mk_state
                 (mk_buff 0 0 (store_bytes 0 (be32 0) (data (ibuff s))))
                 (mk_buff (MAX_PACKET - 4) 4
                    (store_bytes 0 (be32 0) (data (obuff s))))
                 (have_init s) (handles s) w2)).
Proof.
  intros Hsel Hsel_ok Hread Hfour Hbytes Hrange.
  set (s1 := mk_state
               (mk_buff 4 0 (store_bytes 0 (be32 len) (data (ibuff s))))
               (obuff s) (have_init s) (handles s) w2).
  assert (Hhdr : read_input (S io_fuel) 4 s = Ret tt s1).
  { rewrite (read_input_header io_fuel s r_sel r w1 w2 Hsel Hread).
    destruct (Z.eqb_spec (ret_val r_sel) (-1)); [lia |].
    rewrite Hfour. change (4 <? 0) with false. change (4 =? 0) with false.
    cbv iota. change (Z.to_nat 4) with 4%nat. rewrite Hbytes.
    unfold bind, set_ibuff. cbn [ibuff obuff have_init handles world].
    change (uint32 (0 + 4)) with 4.
    now rewrite read_input_loop_done by (cbn [ibuff count]; lia). }
  assert (Hlen : get_uint32 s1
                 = Ret len (with_ibuff s1 (buff_skip 4 (ibuff s1)))).
  { rewrite <- (uint32_small len Hrange) at 1.
    apply (parses_get_uint32 len s1 (skipn 4 (data (ibuff s))));
      [cbn; lia | cbn; lia | reflexivity]. }
  unfold main_iteration, main_receive.
  split.
  - intros Hbig.
    unfold bind at 1. unfold bind at 1. rewrite Hhdr.
    unfold bind at 1. rewrite Hlen.
    unfold bind at 1. unfold assert.
    destruct (Z.leb_spec len MAX_PACKET); [lia | reflexivity].
  - intros ->.
    unfold bind at 1. unfold bind at 1. rewrite Hhdr.
    unfold bind at 1. rewrite Hlen.
    reflexivity.
Qed.

Lemma bind_get_obuff {B} (f : buff_t -> M B) (s : state) :
  bind get_obuff f s = f (obuff s) s.
Proof. reflexivity. Qed.

Lemma load_bytes_frame (n p : Z) (d : list Z) :
  4 <= p -> p <= zlen d ->
  load_bytes 0 p (store_bytes 0 (be32 n) d)
  = be32 n ++ load_bytes 4 (p - 4) d.
Proof.
  intros Hp Hd. unfold load_bytes, store_bytes.
  change (Z.to_nat 0) with 0%nat. cbn [firstn skipn app Nat.add].
  change (List.length (be32 n)) with 4%nat.
  replace (Z.to_nat p) with (4 + Z.to_nat (p - 4))%nat by lia.
  reflexivity.
Qed.

(** X28.  The response frame.  After the handler has run, what lies in
    the output buffer behind the four placeholder bytes is the payload.
    When there is none, nothing is sent.  Otherwise the placeholder is
    overwritten with the payload's length and the host is asked to write
    the length followed by the payload; when it takes all of it in one
    [write], the frame is done. *)
Theorem main_send_frame (io_fuel : nat) (s : state) (r_sel r_wr : sysret)
    (w1 w2 : World) :
  let ob := obuff s in
  let payload := load_bytes 4 (p_data ob - 4) (data ob) in
  wf_buff ob -> 4 <= p_data ob -> count ob = MAX_PACKET - p_data ob ->
  (p_data ob = 4 -> main_send io_fuel frame_start s = Ret tt s) /\
  (4 < p_data ob ->
   sys SYS_select_stdout (world s) = (r_sel, w1) -> ret_val r_sel <> -1 ->
   sys (SYS_write_stdout (be32 (p_data ob - 4) ++ payload)) w1
     = (r_wr, w2) ->
   ret_val r_wr = p_data ob ->
     zlen payload = p_data ob - 4 /\
     main_send (S io_fuel) frame_start s
     = Ret tt (mk_state (ibuff s)
                 (mk_buff (MAX_PACKET - 4) 4
                    (store_bytes 0 (be32 (p_data ob - 4)) (data ob)))
                 (have_init s) (handles s) w2)).
Proof.
  intros ob payload (Hp & Hc & Hin & Hsz) Hfour Hcount.
  assert (Hmax : p_data ob <= MAX_PACKET) by lia.
  unfold MAX_PACKET in Hmax.
  assert (Hpl : uint32 (MAX_PACKET - count ob) = p_data ob).
  { rewrite Hcount. replace (MAX_PACKET - (MAX_PACKET - p_data ob))
      with (p_data ob) by lia.
    apply uint32_small. lia. }
  assert (Hpay : uint32 (p_data ob - 4) = p_data ob - 4)
    by (apply uint32_small; lia).
  assert (Hrun : forall fuel',
            main_send fuel' frame_start s
            = (if p_data ob - 4 >? 0
               then bind (buff_swap frame_start) (fun _ =>
                    bind (put_uint32 (p_data ob - 4)) (fun _ =>
                    write_output_loop fuel' 0 (p_data ob)))
               else ret tt) s).
  { intros fuel'. unfold main_send. rewrite bind_get_obuff.
    cbv beta zeta. fold ob. rewrite Hpl, Hpay. reflexivity. }
  split.
  - intros Hempty. rewrite Hrun, Hempty. reflexivity.
  - intros Hsome Hsel Hsel_ok Hwrite Hall.
    split.
    { unfold payload, load_bytes, zlen.
      rewrite length_firstn, length_skipn. unfold zlen in *. lia. }
    rewrite Hrun.
    destruct (Z.gtb_spec (p_data ob - 4) 0); [| lia].
    set (s1 := with_obuff s (mk_buff MAX_PACKET 0 (data ob))).
    assert (Hswap : buff_swap frame_start s
                    = Ret (mk_save (count ob) (p_data ob)) s1)
      by reflexivity.
    rewrite (bind_Ret _ _ _ _ _ Hswap).
    set (s2 := with_obuff s1 (buff_put (be32 (p_data ob - 4)) (obuff s1))).
    assert (Hput : put_uint32 (p_data ob - 4) s1 = Ret tt s2).
    { apply emits_put_uint32.
      - unfold s1. cbn [obuff with_obuff]. unfold wf_buff.
        cbn [count p_data data]. unfold MAX_PACKET in *. lia.
      - rewrite zlen_be32. cbn. discriminate. }
    rewrite (bind_Ret _ _ _ _ _ Hput).
    cbn [write_output_loop].
    destruct (Z.gtb_spec (p_data ob) 0); [| lia].
    rewrite (bind_Ret _ _ _ _ _ (call_at _ s2 _ _ Hsel)).
    destruct (Z.eqb_spec (ret_val r_sel) (-1)); [contradiction |].
    rewrite bind_get_obuff.
    assert (Hout : load_bytes 0 (p_data ob)
                     (data (obuff (with_world s2 w1)))
                   = be32 (p_data ob - 4) ++ payload).
    { unfold s2, s1. cbn [obuff with_obuff with_world data buff_put p_data].
      now rewrite load_bytes_frame by lia. }
    rewrite Hout.
    rewrite (bind_Ret _ _ _ _ _
               (call_at _ (with_world s2 w1) _ _ Hwrite)).
    rewrite Hall.
    destruct (Z.ltb_spec (p_data ob) 0); [lia |].
    replace (p_data ob - p_data ob) with 0 by lia.
    change (uint32 0) with 0.
    destruct io_fuel; reflexivity.
Qed.

(** X29.  READ, WRITE, FSTAT and FSETSTAT are for file handles only.
    When the handle of the request is unknown, or names a slot in use as
    a directory, each of the four answers STATUS(FAILURE) with the id of
    the request and does not call the host. *)
Theorem file_requests_on_wrong_handle (s s1 s2 : state) (id : Z)
    (p_handle : option nat) :
  get_uint32 s = Ret id s1 ->
  get_handle s1 = Ret p_handle s2 ->
  let fails s' :=
    Ret tt (with_obuff s'
              (buff_put (status_bytes id SSH_FX_FAILURE) (obuff s'))) in
  let ready (s' : state) :=
    not_a_file (handles s') p_handle /\
    wf_buff (obuff s') /\ 40 <= count (obuff s') in
  (ready s2 -> sftp_fstat s = fails s2) /\
  (forall attr s3, get_attrs s2 = Ret attr s3 -> ready s3 ->
     sftp_fsetstat s = fails s3) /\
  (forall off len s3 s4,
     get_uint64 s2 = Ret off s3 -> get_uint32 s3 = Ret len s4 ->
     ready s4 -> sftp_read s = fails s4) /\
  (forall off payload data_len s3 s4,
     get_uint64 s2 = Ret off s3 ->
     get_data s3 = Ret (payload, data_len) s4 ->
     ready s4 -> sftp_write s = fails s4).
Proof.
  intros Hid Hh fails ready.
  assert (Hkind : forall hs, not_a_file hs p_handle ->
                             file_slot hs p_handle = None).
  { intros hs. unfold not_a_file, file_slot.
    destruct p_handle as [i |]; [| reflexivity].
    destruct (use (slot hs i)); try reflexivity. intros E. now elim E. }
  unfold fails, ready. refine (conj _ (conj _ (conj _ _))).
  - intros (Hk & Hwf & Hroom).
    eapply sftp_fstat_wrong_kind; eauto.
  - intros attr s3 Hattr (Hk & Hwf & Hroom).
    eapply sftp_fsetstat_wrong_kind; eauto.
  - intros off len s3 s4 Hoff Hlen (Hk & Hwf & Hroom).
    eapply sftp_read_wrong_kind; eauto.
  - intros off payload data_len s3 s4 Hoff Hdata (Hk & Hwf & Hroom).
    eapply sftp_write_wrong_kind; eauto.
Qed.

(** X6.  READ and WRITE seek first.  On a file handle, when [lseek] to
    the offset of the request returns a negative result, the answer is
    STATUS with the mapped errno and neither [read] nor [write] is
    called: the host is left as the failed seek left it. *)
Theorem file_transfer_seek_failure (s s1 s2 s3 : state) (id off : Z)
    (i : nat) :
  get_uint32 s = Ret id s1 ->
  get_handle s1 = Ret (Some i) s2 ->
  get_uint64 s2 = Ret off s3 ->
  let seek_fails (s4 : state) (w : World) :=
    use (slot (handles s4) i) = HANDLE_FILE /\
    wf_buff (obuff s4) /\ 40 <= count (obuff s4) /\
    exists r,
      sys (SYS_lseek (fd (slot (handles s4) i)) (to_off_t off)) (world s4)
      = (r, w) /\ ret_val r < 0 in
  let answer (s4 : state) (w : World) :=
    Ret tt (with_obuff (with_world s4 w)
              (buff_put (status_bytes id (errno_to_sftp (errno w)))
                 (obuff s4))) in
  (forall len s4 w, get_uint32 s3 = Ret len s4 -> seek_fails s4 w ->
     sftp_read s = answer s4 w) /\
  (forall payload data_len s4 w,
     get_data s3 = Ret (payload, data_len) s4 -> seek_fails s4 w ->
     sftp_write s = answer s4 w).
Proof.
  intros Hid Hh Hoff seek_fails answer. unfold seek_fails, answer. split.
  - intros len s4 w Hlen (Huse & Hwf & Hroom & r & Hseek & Hneg).
    unfold sftp_read. cbv zeta.
    rewrite (bind_Ret _ _ _ _ _ Hid), (bind_Ret _ _ _ _ _ Hh),
      (bind_Ret _ _ _ _ _ Hoff), (bind_Ret _ _ _ _ _ Hlen).
    rewrite bind_get_obuff. unfold bind at 1. unfold get_handles.
    unfold file_slot. rewrite Huse.
    rewrite (bind_Ret _ _ _ _ _ (call_at _ _ _ _ Hseek)).
    destruct (Z.ltb_spec (ret_val r) 0); [| lia].
    unfold bind, get_errno. cbn [world with_world].
    now rewrite put_status_at.
  - intros payload data_len s4 w Hdata (Huse & Hwf & Hroom & r & Hseek & Hneg).
    unfold sftp_write.
    rewrite (bind_Ret _ _ _ _ _ Hid), (bind_Ret _ _ _ _ _ Hh),
      (bind_Ret _ _ _ _ _ Hoff), (bind_Ret _ _ _ _ _ Hdata).
    cbv beta iota. unfold bind at 1. unfold get_handles.
    unfold file_slot. rewrite Huse.
    rewrite (bind_Ret _ _ _ _ _ (call_at _ _ _ _ Hseek)).
    destruct (Z.ltb_spec (ret_val r) 0); [| lia].
    unfold bind, get_errno. cbn [world with_world].
    now rewrite put_status_at.
Qed.

End ExtraFrames.

(** Started with nothing to read, the server exits with success. *)
Lemma main_exits_at_end_of_input_sim :
  main 1 1 0 idle_start
  = Exit EXIT_SUCCESS
      (mk_state (mk_buff 0 0 (data (ibuff idle_start))) (obuff idle_start)
         (have_init idle_start) (handles idle_start) (snd idle_read)).
Proof.
  refine (proj2 (proj2
    (main_exits_at_end_of_input 0 0 0 idle_start (fst idle_select)
       (fst idle_read) (snd idle_select) (snd idle_read) _ _)) _ _);
    by_computation.
Defined.

(** A frame that announces 40000 bytes. *)
Lemma main_frame_length_edges_sim :
  main_iteration 1 0 oversized_start = Abort.
Proof.
  refine (proj1
    (main_frame_length_edges 0 0 oversized_start 40000
       (fst oversized_select) (fst oversized_read) (snd oversized_select)
       (snd oversized_read) _ _ _ _ _ _) _);
    by_computation.
Defined.

(** The response to INIT leaves as the frame 00 00 00 05 02 00 00 00 03. *)
Lemma main_send_frame_sim :
  Sim.stdout (snd init_written) = frame [SSH_FXP_VERSION; 0; 0; 0; 3] /\
  main_send 1 frame_start init_handled
  = Ret tt (mk_state (ibuff init_handled)
              (mk_buff (MAX_PACKET - 4) 4
                 (store_bytes 0 (be32 (p_data (obuff init_handled) - 4))
                    (data (obuff init_handled))))
              (have_init init_handled) (handles init_handled)
              (snd init_written)).
Proof.
  split; [vm_compute; reflexivity |].
  refine (proj2 (proj2
    (main_send_frame 0 init_handled (fst init_select) (fst init_written)
       (snd init_select) (snd init_written) _ _ _) _ _ _ _ _));
    by_computation.
Defined.

(** READ on the handle of a directory. *)
Lemma file_requests_on_wrong_handle_sim :
  use (slot (handles read_dir_s4) 0) = HANDLE_DIR /\
  sftp_read read_dir_entry
  = Ret tt (with_obuff read_dir_s4
              (buff_put (status_bytes 2 SSH_FX_FAILURE)
                 (obuff read_dir_s4))).
Proof.
  split; [vm_compute; reflexivity |].
  refine (proj1 (proj2 (proj2
    (file_requests_on_wrong_handle read_dir_entry read_dir_s1 read_dir_s2
       2 (Some 0%nat) _ _))) 0 10 read_dir_s3 read_dir_s4 _ _ _);
    by_computation.
Defined.

(** READDIR on the handle of an empty directory answers STATUS(EOF). *)
Lemma sftp_readdir_answers_sim :
  (load_byte (p_data (obuff readdir_end_s2))
     (data (obuff readdir_end_done)) = SSH_FXP_NAME \/
   load_bytes (p_data (obuff readdir_end_s2))
     (zlen (status_bytes 2 SSH_FX_EOF)) (data (obuff readdir_end_done))
   = status_bytes 2 SSH_FX_EOF) /\
  load_bytes (p_data (obuff readdir_end_s2))
    (zlen (status_bytes 2 SSH_FX_FAILURE)) (data (obuff readdir_end_done))
  <> status_bytes 2 SSH_FX_FAILURE.
Proof.
  apply (sftp_readdir_answers 1 readdir_end_entry readdir_end_s1
           readdir_end_s2 readdir_end_done 2 0);
    by_computation.
Defined.

(** READ at offset 2^63: the seek is refused with EINVAL and the answer
    is STATUS(BAD_MESSAGE). *)
Lemma file_transfer_seek_failure_sim :
  to_off_t (2 ^ 63) = - 2 ^ 63 /\
  errno_to_sftp (errno (snd read_far_seek)) = SSH_FX_BAD_MESSAGE /\
  sftp_read read_far_entry
  = Ret tt (with_obuff (with_world read_far_s4 (snd read_far_seek))
              (buff_put
                 (status_bytes 2 (errno_to_sftp (errno (snd read_far_seek))))
                 (obuff read_far_s4))).
Proof.
  split; [vm_compute; reflexivity |]. split; [vm_compute; reflexivity |].
  refine (proj1
    (file_transfer_seek_failure read_far_entry read_far_s1 read_far_s2
       read_far_s3 2 (2 ^ 63) 0 _ _ _)
    10 read_far_s4 (snd read_far_seek) _
    (conj _ (conj _ (conj _
       (ex_intro _ (fst read_far_seek) (conj _ _))))));
    by_computation.
Defined.
